(** * Sales Targets Mobile: a shallow embedding of [App.js]

    The development follows the JavaScript source function by function.
    Conventions of the embedding:

    - a JavaScript number is an exact rational, [NaN], [+Infinity] or
      [-Infinity]; arithmetic is exact: there is no rounding to binary64, no
      negative zero and no exponent notation for large integers;
    - a JavaScript string is a [string], a sequence of bytes; white space is
      the white space of the ASCII range, and a code unit written as a [u]
      escape in JSON text is stored as its bytes;
    - an object is the association list of its own properties in creation
      order (keys that look like array indices are not moved to the front),
      an array is a list; inherited properties are not modelled (no key used
      by the program is an inherited one);
    - a thrown exception is the [Throw] outcome of the [res] type;
    - a React state variable is a field of [AppState], a state setter
      returns the next state, and an updater function runs at once;
    - what the host decides and the program never inspects (how a fractional
      number is printed, the text of the errors that the host raises) is a
      field of the [Host] class;
    - the answers of the environment ([Math.random], [Date.now],
      [crypto.randomUUID], the stored items, the clock, the network) are
      inputs: fields of [World], of [TaskEnv] and of [SendEnv];
    - what a component draws is the list of its rectangles, and what leaves
      the program (a request to the webhook, a link handed to the system) is
      a [Request]. *)

From Stdlib Require Import Bool List String Ascii ZArith QArith Qround Qabs Lia Lqa.
From Stdlib Require Import DecimalString DecimalZ DecimalPos DecimalN DecimalFacts.
From Stdlib Require Import Permutation Sorted.
Import ListNotations.

Local Open Scope string_scope.
Local Open Scope Z_scope.

(** ** Numbers *)

Inductive num : Type :=
| NaN
| PInf
| NInf
| Fin (q : Q).

Definition num_of_Z (z : Z) : num := Fin (inject_Z z).

Definition Qsign_pos (q : Q) : bool := Qle_bool 0 q.

Definition num_neg (a : num) : num :=
  match a with
  | NaN => NaN
  | PInf => NInf
  | NInf => PInf
  | Fin q => Fin (- q)%Q
  end.

Definition js_add (a b : num) : num :=
  match a, b with
  | NaN, _ | _, NaN => NaN
  | PInf, NInf | NInf, PInf => NaN
  | PInf, _ | _, PInf => PInf
  | NInf, _ | _, NInf => NInf
  | Fin x, Fin y => Fin (x + y)%Q
  end.

Definition js_sub (a b : num) : num := js_add a (num_neg b).

Definition inf_of_sign (pos : bool) : num := if pos then PInf else NInf.

Definition js_mul (a b : num) : num :=
  match a, b with
  | NaN, _ | _, NaN => NaN
  | Fin x, Fin y => Fin (x * y)%Q
  | PInf, PInf | NInf, NInf => PInf
  | PInf, NInf | NInf, PInf => NInf
  | PInf, Fin y | Fin y, PInf =>
      if Qeq_bool y 0 then NaN else inf_of_sign (Qsign_pos y)
  | NInf, Fin y | Fin y, NInf =>
      if Qeq_bool y 0 then NaN else inf_of_sign (negb (Qsign_pos y))
  end.

Definition js_div (a b : num) : num :=
  match a, b with
  | NaN, _ | _, NaN => NaN
  | Fin x, Fin y =>
      if Qeq_bool y 0
      then (if Qeq_bool x 0 then NaN else inf_of_sign (Qsign_pos x))
      else Fin (x / y)%Q
  | Fin _, PInf | Fin _, NInf => Fin 0
  | PInf, Fin y => inf_of_sign (Qsign_pos y)
  | NInf, Fin y => inf_of_sign (negb (Qsign_pos y))
  | _, _ => NaN
  end.

(** [a < b] and [a <= b] on numbers: false as soon as one side is [NaN]. *)
Definition js_lt (a b : num) : bool :=
  match a, b with
  | NaN, _ | _, NaN => false
  | _, NInf => false
  | NInf, _ => true
  | PInf, _ => false
  | _, PInf => true
  | Fin x, Fin y => negb (Qle_bool y x)
  end.

Definition js_le (a b : num) : bool :=
  match a, b with
  | NaN, _ | _, NaN => false
  | NInf, _ => true
  | _, PInf => true
  | _, NInf => false
  | PInf, _ => false
  | Fin x, Fin y => Qle_bool x y
  end.

(** [a === b] on numbers. *)
Definition num_eqb (a b : num) : bool :=
  match a, b with
  | PInf, PInf | NInf, NInf => true
  | Fin x, Fin y => Qeq_bool x y
  | _, _ => false
  end.

Definition Number_isNaN (a : num) : bool :=
  match a with NaN => true | _ => false end.

Definition Math_min (a b : num) : num :=
  match a, b with
  | NaN, _ | _, NaN => NaN
  | _, _ => if js_le a b then a else b
  end.

Definition Math_max (a b : num) : num :=
  match a, b with
  | NaN, _ | _, NaN => NaN
  | _, _ => if js_le a b then b else a
  end.

Definition Math_abs (a : num) : num :=
  match a with
  | NaN => NaN
  | PInf | NInf => PInf
  | Fin q => Fin (Qabs q)
  end.

(** [Math.round x] is [floor (x + 1/2)]: halves go up. *)
Definition round_half_up (q : Q) : Z := Qfloor (q + (1 # 2))%Q.

Definition Math_round (a : num) : num :=
  match a with
  | Fin q => num_of_Z (round_half_up q)
  | other => other
  end.

(** ** Values *)

#[warnings="-register-all"]
Inductive value : Type :=
| VUndef
| VNull
| VBool (b : bool)
| VNum (n : num)
| VStr (s : string)
| VArr (items : list value)
| VObj (props : list (string * value)).

Definition object := list (string * value).

(** Induction over values that reaches inside arrays and objects. *)
Section ValueInduction.
Variable P : value -> Prop.
Hypothesis P_undef : P VUndef.
Hypothesis P_null : P VNull.
Hypothesis P_bool : forall b, P (VBool b).
Hypothesis P_num : forall n, P (VNum n).
Hypothesis P_str : forall s, P (VStr s).
Hypothesis P_arr : forall items, Forall P items -> P (VArr items).
Hypothesis P_obj :
  forall props, Forall (fun kv => P (snd kv)) props -> P (VObj props).

Fixpoint value_nested_ind (v : value) : P v :=
  match v with
  | VUndef => P_undef
  | VNull => P_null
  | VBool b => P_bool b
  | VNum n => P_num n
  | VStr s => P_str s
  | VArr items =>
      P_arr items
        ((fix go (l : list value) : Forall P l :=
            match l with
            | [] => Forall_nil _
            | x :: l' => Forall_cons x (value_nested_ind x) (go l')
            end) items)
  | VObj props =>
      P_obj props
        ((fix go (l : list (string * value))
            : Forall (fun kv => P (snd kv)) l :=
            match l with
            | [] => Forall_nil _
            | kv :: l' =>
                Forall_cons (P := fun kv => P (snd kv)) kv
                  (value_nested_ind (snd kv)) (go l')
            end) props)
  end.
End ValueInduction.

(** Outcome of an evaluation that may throw. *)
Record exn : Type := mkExn { exn_name : string; exn_message : string }.

Inductive res (A : Type) : Type :=
| Ok (a : A)
| Throw (e : exn).
Arguments Ok {A} a.
Arguments Throw {A} e.

Definition bind {A B : Type} (m : res A) (k : A -> res B) : res B :=
  match m with
  | Ok a => k a
  | Throw e => Throw e
  end.

Notation "'let*' x ':=' m 'in' k" := (bind m (fun x => k))
  (at level 10, x name, m at level 100, k at level 200).

Fixpoint mapM {A B : Type} (f : A -> res B) (l : list A) : res (list B) :=
  match l with
  | [] => Ok []
  | x :: l' =>
      let* y := f x in
      let* ys := mapM f l' in
      Ok (y :: ys)
  end.

(** The parts of the host that the program relies on without inspecting. *)
Class Host : Type := {
  (** [String(x)] for a finite number that is not an integer *)
  fractionToString : Q -> string;
  (** the message of the [SyntaxError] that [JSON.parse] throws on a text *)
  syntaxErrorMessage : string -> string;
  (** the message of a [TypeError] raised by the host *)
  typeErrorMessage : string
}.

Definition TypeError `{Host} : exn := mkExn "TypeError" typeErrorMessage.

(** ** Numeric literals *)

Definition digit_of_ascii (c : ascii) : option (Decimal.uint -> Decimal.uint) :=
  match c with
  | "0"%char => Some Decimal.D0
  | "1"%char => Some Decimal.D1
  | "2"%char => Some Decimal.D2
  | "3"%char => Some Decimal.D3
  | "4"%char => Some Decimal.D4
  | "5"%char => Some Decimal.D5
  | "6"%char => Some Decimal.D6
  | "7"%char => Some Decimal.D7
  | "8"%char => Some Decimal.D8
  | "9"%char => Some Decimal.D9
  | _ => None
  end.

(** The longest run of decimal digits that starts a string, and what
    follows it. *)
Fixpoint take_digits (s : string) : Decimal.uint * string :=
  match s with
  | EmptyString => (Decimal.Nil, EmptyString)
  | String c s' =>
      match digit_of_ascii c with
      | Some d => let (u, r) := take_digits s' in (d u, r)
      | None => (Decimal.Nil, s)
      end
  end.

Definition is_Nil (u : Decimal.uint) : bool :=
  match u with Decimal.Nil => true | _ => false end.

Definition pow10 (n : Z) : Q := inject_Z (10 ^ n).

(** The number that a decimal literal denotes: sign, integer digits,
    fraction digits and exponent. A literal without fraction and without
    exponent denotes an integer. *)
Definition decimal_value (neg : bool) (i : Decimal.uint)
  (frac : option Decimal.uint) (exp : option Z) : num :=
  let sgn (z : Z) := if neg then (- z)%Z else z in
  match frac, exp with
  | None, None => Fin (inject_Z (sgn (Z.of_uint i)))
  | _, _ =>
      let f := match frac with Some f => f | None => Decimal.Nil end in
      let e := match exp with Some e => e | None => 0 end in
      let mant :=
        (inject_Z (Z.of_uint i)
         + inject_Z (Z.of_uint f) / pow10 (Z.of_nat (Decimal.nb_digits f)))%Q in
      let scaled :=
        if (e <? 0)%Z then (mant / pow10 (- e))%Q else (mant * pow10 e)%Q in
      Fin (Qred (if neg then (- scaled)%Q else scaled))
  end.

(** What follows the character [c] in [s], if [s] starts with [c]. *)
Definition after_char (c : ascii) (s : string) : option string :=
  match s with
  | String d r => if Ascii.eqb d c then Some r else None
  | EmptyString => None
  end.

(** The integer part of a JSON number: one zero, or digits that do not
    start with a zero. *)
Definition json_int_digits (u : Decimal.uint) : bool :=
  match u with
  | Decimal.Nil => false
  | Decimal.D0 Decimal.Nil => true
  | Decimal.D0 _ => false
  | _ => true
  end.

(** The exponent part of a literal, if one starts here. *)
Definition scan_exponent (s : string) : option (option Z * string) :=
  match s with
  | String c r =>
      if Ascii.eqb c "e" || Ascii.eqb c "E" then
        let (neg, r1) :=
          match r with
          | String "+" r' => (false, r')
          | String "-" r' => (true, r')
          | _ => (false, r)
          end in
        let (u, r2) := take_digits r1 in
        if is_Nil u then None
        else Some (Some (if neg then - Z.of_uint u else Z.of_uint u), r2)
      else Some (None, s)
  | EmptyString => Some (None, s)
  end.

(** A JSON number at the start of a string. *)
Definition scan_json_number (s : string) : option (num * string) :=
  let (neg, r0) :=
    match after_char "-" s with
    | Some r => (true, r)
    | None => (false, s)
    end in
  let (i, r1) := take_digits r0 in
  if json_int_digits i then
    let frac :=
      match after_char "." r1 with
      | Some r2 =>
          let (f, r3) := take_digits r2 in
          if is_Nil f then None else Some (Some f, r3)
      | None => Some (None, r1)
      end in
    match frac with
    | None => None
    | Some (f, r3) =>
        match scan_exponent r3 with
        | None => None
        | Some (e, r4) => Some (decimal_value neg i f e, r4)
        end
    end
  else None.

(** Digits in radix 2, 8 or 16, for the prefixed integer literals. *)
Definition radix_digit (radix : Z) (c : ascii) : option Z :=
  let n := Z.of_nat (nat_of_ascii c) in
  let d :=
    if ((48 <=? n) && (n <=? 57))%Z then Some (n - 48)
    else if ((97 <=? n) && (n <=? 102))%Z then Some (n - 87)
    else if ((65 <=? n) && (n <=? 70))%Z then Some (n - 55)
    else None in
  match d with
  | Some v => if (v <? radix)%Z then Some v else None
  | None => None
  end.

Fixpoint radix_value (radix : Z) (acc : Z) (s : string) : option Z :=
  match s with
  | EmptyString => Some acc
  | String c s' =>
      match radix_digit radix c with
      | Some d => radix_value radix (acc * radix + d) s'
      | None => None
      end
  end.

Definition prefixed_integer (radix : Z) (digits : string) : num :=
  match digits with
  | EmptyString => NaN
  | _ =>
      match radix_value radix 0 digits with
      | Some z => Fin (inject_Z z)
      | None => NaN
      end
  end.

Definition is_white_space (c : ascii) : bool :=
  let n := nat_of_ascii c in
  (Nat.leb 9 n && Nat.leb n 13) || Nat.eqb n 32.

Fixpoint trimStart (s : string) : string :=
  match s with
  | EmptyString => EmptyString
  | String c s' => if is_white_space c then trimStart s' else s
  end.

Fixpoint trimEnd (s : string) : string :=
  match s with
  | EmptyString => EmptyString
  | String c s' =>
      match trimEnd s' with
      | EmptyString => if is_white_space c then EmptyString else String c EmptyString
      | t => String c t
      end
  end.

(** [s.trim()], for the white space of the ASCII range. *)
Definition String_trim (s : string) : string := trimEnd (trimStart s).

Definition unsigned_decimal (neg : bool) (s : string) : num :=
  if String.eqb s "Infinity" then inf_of_sign (negb neg)
  else
    let (i, r1) := take_digits s in
    let frac :=
      match r1 with
      | String "." r2 => let (f, r3) := take_digits r2 in (Some f, r3)
      | _ => (None, r1)
      end in
    let (f, r3) := frac in
    let no_digits :=
      is_Nil i && match f with Some d => is_Nil d | None => true end in
    if no_digits then NaN
    else
      match scan_exponent r3 with
      | Some (e, EmptyString) => decimal_value neg i f e
      | _ => NaN
      end.

(** [Number(s)] for a string [s]: white space of the ASCII range is
    trimmed, the empty string is 0, what is not a numeric literal is [NaN]. *)
Definition StringToNumber (s : string) : num :=
  match String_trim s with
  | EmptyString => Fin 0
  | String "0" (String "x" r) | String "0" (String "X" r) => prefixed_integer 16 r
  | String "0" (String "o" r) | String "0" (String "O" r) => prefixed_integer 8 r
  | String "0" (String "b" r) | String "0" (String "B" r) => prefixed_integer 2 r
  | String "+" r => unsigned_decimal false r
  | String "-" r => unsigned_decimal true r
  | t => unsigned_decimal false t
  end.

(** ** Strings *)

Fixpoint join (sep : string) (l : list string) : string :=
  match l with
  | [] => ""
  | [x] => x
  | x :: l' => x ++ sep ++ join sep l'
  end.

Definition Z_to_string (z : Z) : string :=
  NilEmpty.string_of_int (Z.to_int z).

Section Conversions.
Context `{Host}.

(** [Number.prototype.toString]: an integer prints its decimal digits. *)
Definition Number_toString (n : num) : string :=
  match n with
  | NaN => "NaN"
  | PInf => "Infinity"
  | NInf => "-Infinity"
  | Fin q =>
      let r := Qred q in
      if Pos.eqb (Qden r) 1 then Z_to_string (Qnum r)
      else fractionToString q
  end.

(** [String(v)] *)
Fixpoint ToString (v : value) : string :=
  match v with
  | VUndef => "undefined"
  | VNull => "null"
  | VBool true => "true"
  | VBool false => "false"
  | VNum n => Number_toString n
  | VStr s => s
  | VArr items =>
      join ","
        (map (fun e =>
                match e with
                | VUndef | VNull => ""
                | _ => ToString e
                end) items)
  | VObj _ => "[object Object]"
  end.

(** [Number(v)] *)
Definition ToNumber (v : value) : num :=
  match v with
  | VUndef => NaN
  | VNull => Fin 0
  | VBool true => Fin 1
  | VBool false => Fin 0
  | VNum n => n
  | VStr s => StringToNumber s
  | VArr _ | VObj _ => StringToNumber (ToString v)
  end.
End Conversions.

(** Truthiness. *)
Definition ToBoolean (v : value) : bool :=
  match v with
  | VUndef | VNull => false
  | VBool b => b
  | VNum NaN => false
  | VNum (Fin q) => negb (Qeq_bool q 0)
  | VNum _ => true
  | VStr "" => false
  | VStr _ => true
  | VArr _ | VObj _ => true
  end.

(** [a || b] and [a ?? b] on values already evaluated. *)
Definition js_or (a b : value) : value := if ToBoolean a then a else b.

Definition nullish (v : value) : bool :=
  match v with VUndef | VNull => true | _ => false end.

Definition js_coalesce (a b : value) : value := if nullish a then b else a.

(** [v === n] for a number literal [n]. *)
Definition strict_eq_num (v : value) (n : num) : bool :=
  match v with
  | VNum m => num_eqb m n
  | _ => false
  end.

(** ** Objects *)

Fixpoint lookup (k : string) (o : object) : option value :=
  match o with
  | [] => None
  | (k', v) :: o' => if String.eqb k k' then Some v else lookup k o'
  end.

(** [o[k] = v]: an existing property keeps its place. *)
Fixpoint set_prop (k : string) (v : value) (o : object) : object :=
  match o with
  | [] => [(k, v)]
  | (k', v') :: o' =>
      if String.eqb k k' then (k, v) :: o' else (k', v') :: set_prop k v o'
  end.

Definition Object_keys (o : object) : list string := map fst o.

Section Access.
Context `{Host}.

(** [v.k] for a property name that is no array index: reading a property of
    [undefined] or [null] throws. *)
Definition get (v : value) (k : string) : res value :=
  match v with
  | VUndef | VNull => Throw TypeError
  | VObj o =>
      match lookup k o with
      | Some x => Ok x
      | None => Ok VUndef
      end
  | VArr items =>
      if String.eqb k "length"
      then Ok (VNum (num_of_Z (Z.of_nat (List.length items))))
      else Ok VUndef
  | VStr s =>
      if String.eqb k "length"
      then Ok (VNum (num_of_Z (Z.of_nat (String.length s))))
      else Ok VUndef
  | VBool _ | VNum _ => Ok VUndef
  end.

(** [v?.[k]] *)
Definition get_opt (v : value) (k : string) : value :=
  match v with
  | VUndef | VNull => VUndef
  | _ => match get v k with Ok x => x | Throw _ => VUndef end
  end.
End Access.

(** ** Constants *)

Definition KPI_KEYS : list string :=
  ["connects"; "geoData"; "buyerAppointments"; "marketAppraisals";
   "listingsGenerated"].

Definition KPI_LABELS : object :=
  [("connects", VStr "Connects");
   ("geoData", VStr "Geo Data");
   ("buyerAppointments", VStr "Buyer Appointments");
   ("marketAppraisals", VStr "Market Appraisals");
   ("listingsGenerated", VStr "Listings Generated")].

Definition DEFAULT_TARGETS : value :=
  VObj [("connects", VNum (num_of_Z 800));
        ("geoData", VNum (num_of_Z 50));
        ("buyerAppointments", VNum (num_of_Z 20));
        ("marketAppraisals", VNum (num_of_Z 25));
        ("listingsGenerated", VNum (num_of_Z 1))].

(** ** [pct] *)

Section Pct.
Context `{Host}.

Definition pct (n d : value) : value :=
  if negb (ToBoolean d) || strict_eq_num d (Fin 0) then VNum (Fin 0)
  else
    VNum (Math_min (Fin 100)
            (Math_round (js_mul (js_div (ToNumber n) (ToNumber d)) (Fin 100)))).
End Pct.

(** The percentage as the specification words it: the rounded ratio,
    clamped to the interval from 0 to 100. *)
Definition clamp (lo hi x : Z) : Z := Z.max lo (Z.min hi x).

Definition percentOf_spec (actual target : Q) : num :=
  num_of_Z (clamp 0 100 (round_half_up (100 * (actual / target))%Q)).

(** ** String operations of the host library *)

Definition dquote : ascii := "034"%char.
Definition newline : string := String "010"%char "".

(** What follows the prefix [p] in [s], if [s] starts with [p]. *)
Fixpoint strip_prefix (p s : string) : option string :=
  match p, s with
  | EmptyString, _ => Some s
  | String a p', String b s' => if Ascii.eqb a b then strip_prefix p' s' else None
  | _, EmptyString => None
  end.

Definition is_prefix (p s : string) : bool :=
  match strip_prefix p s with
  | Some _ => true
  | None => false
  end.

(** [s.replaceAll(pat, rep)]: matches are taken from left to right and do
    not overlap; [skip] counts the characters of a match still to drop. *)
Fixpoint replaceAll_from (skip : nat) (pat rep s : string) : string :=
  match s with
  | EmptyString => EmptyString
  | String c s' =>
      match skip with
      | S k => replaceAll_from k pat rep s'
      | O =>
          if is_prefix pat s
          then rep ++ replaceAll_from (String.length pat - 1) pat rep s'
          else String c (replaceAll_from 0 pat rep s')
      end
  end.

Fixpoint intersperse_after (rep s : string) : string :=
  match s with
  | EmptyString => EmptyString
  | String c s' => String c (rep ++ intersperse_after rep s')
  end.

Definition String_replaceAll (s pat rep : string) : string :=
  match pat with
  | EmptyString => rep ++ intersperse_after rep s
  | _ => replaceAll_from 0 pat rep s
  end.

Definition startsWith (s p : string) : bool := is_prefix p s.

(** ** Arrays and own keys *)

Definition index_keys (n : nat) : list string :=
  map (fun i => Z_to_string (Z.of_nat i)) (seq 0 n).

Definition index_of_key (k : string) (n : nat) : option nat :=
  find (fun i => String.eqb (Z_to_string (Z.of_nat i)) k) (seq 0 n).

Section Collections.
Context `{Host}.

(** [v[k]] where [v] may also be an array or a string indexed by [k]. *)
Definition get_item (v : value) (k : string) : res value :=
  match v with
  | VArr items =>
      match index_of_key k (List.length items) with
      | Some i => Ok (nth i items VUndef)
      | None => get v k
      end
  | VStr s =>
      match index_of_key k (String.length s) with
      | Some i =>
          match String.get i s with
          | Some c => Ok (VStr (String c ""))
          | None => Ok VUndef
          end
      | None => get v k
      end
  | _ => get v k
  end.

(** [Object.keys(v)] *)
Definition Object_keys_of (v : value) : res (list string) :=
  match v with
  | VUndef | VNull => Throw TypeError
  | VObj o => Ok (Object_keys o)
  | VArr items => Ok (index_keys (List.length items))
  | VStr s => Ok (index_keys (String.length s))
  | VBool _ | VNum _ => Ok []
  end.

(** The receiver of [v.map(...)], [v.filter(...)], [v.reduce(...)],
    [v.forEach(...)]: anything but an array has no such method. *)
Definition as_array (v : value) : res (list value) :=
  match v with
  | VArr items => Ok items
  | _ => Throw TypeError
  end.

(** ** [toCSV] *)

Definition escape (v : value) : string :=
  String dquote
    (String_replaceAll (ToString v) (String dquote "")
       (String dquote (String dquote ""))
     ++ String dquote "").

Definition toCSV (rows : list value) : res string :=
  match rows with
  | [] => Ok ""
  | r0 :: _ =>
      let* headers := Object_keys_of r0 in
      let* body :=
        mapM (fun r =>
                let* cells :=
                  mapM (fun h =>
                          let* x := get_item r h in
                          Ok (escape (js_coalesce x (VStr ""))))
                       headers in
                Ok (join "," cells))
             rows in
      Ok (join newline (join "," headers :: body))
  end.

(** ** [buildCSVFromAssociates] *)

Definition csv_row_of (a : value) : res value :=
  let* name := get a "name" in
  let* m := get a "metrics" in
  let* connects := get m "connects" in
  let* geoData := get m "geoData" in
  let* buyerAppointments := get m "buyerAppointments" in
  let* marketAppraisals := get m "marketAppraisals" in
  let* listingsGenerated := get m "listingsGenerated" in
  Ok (VObj [("Name", name);
            ("Connects", js_or connects (VNum (Fin 0)));
            ("GeoData", js_or geoData (VNum (Fin 0)));
            ("BuyerAppointments", js_or buyerAppointments (VNum (Fin 0)));
            ("MarketAppraisals", js_or marketAppraisals (VNum (Fin 0)));
            ("ListingsGenerated", js_or listingsGenerated (VNum (Fin 0)))]).

Definition buildCSVFromAssociates (associates : value) : res string :=
  let* items := as_array associates in
  let* rows := mapM csv_row_of items in
  toCSV rows.

End Collections.

(** The CSV layout as the specification words it. *)

Fixpoint double_quotes (s : string) : string :=
  match s with
  | EmptyString => EmptyString
  | String c s' =>
      if Ascii.eqb c dquote
      then String dquote (String dquote (double_quotes s'))
      else String c (double_quotes s')
  end.

Definition csv_field (s : string) : string :=
  String dquote (double_quotes s ++ String dquote "").

Definition csv_header : string :=
  "Name,Connects,GeoData,BuyerAppointments,MarketAppraisals,ListingsGenerated".

(** A metric of an associate is absent or a number other than [NaN]. *)
Definition metric_or_absent (m : object) (k : string) : Prop :=
  lookup k m = None \/ exists n, lookup k m = Some (VNum n) /\ n <> NaN.

(** [a] is an associate named [name] whose metrics are the object [m]. *)
Definition associate_with (a : value) (row : string * object) : Prop :=
  exists props,
    a = VObj props /\
    lookup "name" props = Some (VStr (fst row)) /\
    lookup "metrics" props = Some (VObj (snd row)) /\
    forall k, In k KPI_KEYS -> metric_or_absent (snd row) k.

Section CsvLayout.
Context `{Host}.

(** The text of a metric in the export: 0 when the metric is absent. *)
Definition metric_text (m : object) (k : string) : string :=
  match lookup k m with
  | Some v => ToString v
  | None => "0"
  end.

Definition csv_row (row : string * object) : string :=
  join "," (map csv_field (fst row :: map (metric_text (snd row)) KPI_KEYS)).

Definition csv_export (rows : list (string * object)) : string :=
  join newline (csv_header :: map csv_row rows).

End CsvLayout.

(** ** The environment of [genId] *)

(** What the environment answers to the program: whether a UUID generator is
    there and what its successive calls give ([None]: the call throws), the
    successive outcomes of [Math.random()] as the base-36 digits after the
    point, and the successive readings of [Date.now()]. The counters say how
    many answers were consumed. *)
Record World : Type := mkWorld {
  randomUUID : option (nat -> option string);
  uuid_calls : nat;
  random_digits : nat -> list nat;
  random_calls : nat;
  clock : nat -> Z;
  clock_calls : nat
}.

Definition base36 : string := "0123456789abcdefghijklmnopqrstuvwxyz".

Definition digit36 (d : nat) : ascii :=
  match String.get (d mod 36) base36 with
  | Some c => c
  | None => "0"%char
  end.

Fixpoint string_of_chars (l : list ascii) : string :=
  match l with
  | [] => EmptyString
  | c :: l' => String c (string_of_chars l')
  end.

(** [x.toString(36)] for a number [x] of the interval from 0 to 1 given by
    its digits: the number 0 has none and prints as one zero. *)
Definition fraction_toString36 (digits : list nat) : string :=
  match digits with
  | [] => "0"
  | _ => "0." ++ string_of_chars (map digit36 digits)
  end.

(** [s.slice(from, to)] for indices within range order. *)
Definition String_slice (from to : nat) (s : string) : string :=
  substring from (Nat.min to (String.length s) - from) s.

Definition Math_random_toString36 (w : World) : string * World :=
  (fraction_toString36 (random_digits w (random_calls w)),
   mkWorld (randomUUID w) (uuid_calls w) (random_digits w)
     (S (random_calls w)) (clock w) (clock_calls w)).

Definition Date_now (w : World) : Z * World :=
  (clock w (clock_calls w),
   mkWorld (randomUUID w) (uuid_calls w) (random_digits w)
     (random_calls w) (clock w) (S (clock_calls w))).

Definition genId_fallback (w : World) : string * World :=
  let (r, w1) := Math_random_toString36 w in
  let rand := String_slice 2 10 r in
  let (t, w2) := Date_now w1 in
  ("id-" ++ rand ++ "-" ++ Z_to_string t, w2).

Definition genId (w : World) : string * World :=
  match randomUUID w with
  | Some gen =>
      let w1 := mkWorld (randomUUID w) (S (uuid_calls w)) (random_digits w)
                  (random_calls w) (clock w) (clock_calls w) in
      match gen (uuid_calls w) with
      | Some uuid => (uuid, w1)
      | None => genId_fallback w1
      end
  | None => genId_fallback w
  end.

(** ** The state of the screen and its handlers *)

Record AppState : Type := mkApp {
  month : value;
  targets : value;
  associates : value;
  newName : string;
  importVisible : bool;
  importText : string;
  alerts : list (string * string);
  console : list (list string)
}.

Definition set_associates (st : AppState) (a : value) : AppState :=
  mkApp (month st) (targets st) a (newName st) (importVisible st)
    (importText st) (alerts st) (console st).

Definition set_targets (st : AppState) (t : value) : AppState :=
  mkApp (month st) t (associates st) (newName st) (importVisible st)
    (importText st) (alerts st) (console st).

Definition set_month (st : AppState) (m : value) : AppState :=
  mkApp m (targets st) (associates st) (newName st) (importVisible st)
    (importText st) (alerts st) (console st).

Definition set_newName (st : AppState) (n : string) : AppState :=
  mkApp (month st) (targets st) (associates st) n (importVisible st)
    (importText st) (alerts st) (console st).

Definition Alert_alert (st : AppState) (title body : string) : AppState :=
  mkApp (month st) (targets st) (associates st) (newName st) (importVisible st)
    (importText st) (alerts st ++ [(title, body)]) (console st).

Definition console_log (st : AppState) (args : list string) : AppState :=
  mkApp (month st) (targets st) (associates st) (newName st) (importVisible st)
    (importText st) (alerts st) (console st ++ [args]).

Definition chars_of (s : string) : list value :=
  map (fun c => VStr (String c "")) (list_ascii_of_string s).

(** The own enumerable properties that [{...v}] copies. *)
Definition own_props (v : value) : object :=
  match v with
  | VObj o => o
  | VArr items => combine (index_keys (List.length items)) items
  | VStr s => combine (index_keys (String.length s)) (chars_of s)
  | _ => []
  end.

(** [v === s] for a string [s]. *)
Definition strict_eq_str (v : value) (s : string) : bool :=
  match v with
  | VStr t => String.eqb t s
  | _ => false
  end.

Definition zero_metrics : value :=
  VObj [("connects", VNum (Fin 0)); ("geoData", VNum (Fin 0));
        ("buyerAppointments", VNum (Fin 0)); ("marketAppraisals", VNum (Fin 0));
        ("listingsGenerated", VNum (Fin 0))].

Section Handlers.
Context `{Host}.

(** The elements that [[...v]] copies. *)
Definition spread_items (v : value) : res (list value) :=
  match v with
  | VArr items => Ok items
  | VStr s => Ok (chars_of s)
  | _ => Throw TypeError
  end.

Definition addAssociate (st : AppState) (w : World) : res AppState * World :=
  match String_trim (newName st) with
  | EmptyString => (Ok st, w)
  | name =>
      match spread_items (associates st) with
      | Throw e => (Throw e, w)
      | Ok prev =>
          let (id, w') := genId w in
          let a := VObj [("id", VStr id); ("name", VStr name);
                         ("metrics", zero_metrics)] in
          (Ok (set_newName (set_associates st (VArr (prev ++ [a]))) ""), w')
      end
  end.

Definition update_one (id key : string) (v : num) (a : value) : res value :=
  let* aid := get a "id" in
  if strict_eq_str aid id
  then
    let* m := get a "metrics" in
    Ok (VObj (set_prop "metrics" (VObj (set_prop key (VNum v) (own_props m)))
                (own_props a)))
  else Ok a.

Definition updateMetric (st : AppState) (id key : string) (input : value)
  : res AppState :=
  let v := ToNumber input in
  if Number_isNaN v || js_lt v (Fin 0) then Ok st
  else
    let* prev := as_array (associates st) in
    let* next := mapM (update_one id key v) prev in
    Ok (set_associates st (VArr next)).

Fixpoint filterM {A : Type} (f : A -> res bool) (l : list A) : res (list A) :=
  match l with
  | [] => Ok []
  | x :: l' =>
      let* keep := f x in
      let* rest := filterM f l' in
      Ok (if keep then x :: rest else rest)
  end.

Definition deleteAssociate (st : AppState) (id : string) : res AppState :=
  let* prev := as_array (associates st) in
  let* next :=
    filterM (fun a => let* aid := get a "id" in Ok (negb (strict_eq_str aid id)))
      prev in
  Ok (set_associates st (VArr next)).

Definition resetMonth (st : AppState) : AppState :=
  set_associates (set_targets st (VObj (own_props DEFAULT_TARGETS))) (VArr []).

(** The change handler of a target field: [setTargets((t) => ({ ...t, [k]:
    Number(txt) }))]. *)
Definition changeTarget (st : AppState) (k txt : string) : AppState :=
  set_targets st
    (VObj (set_prop k (VNum (ToNumber (VStr txt))) (own_props (targets st)))).

(** ** [teamTargets] *)

Definition teamTargets (targets associates : value) : res value :=
  let* len := get associates "length" in
  let count := Math_max (Fin 1) (ToNumber (js_or len (VNum (Fin 1)))) in
  let* keys := Object_keys_of targets in
  let* agg :=
    fold_left
      (fun acc k =>
         let* agg := acc in
         let* t := get_item targets k in
         Ok (set_prop k
               (VNum (js_mul
                        (ToNumber (js_or (VNum (ToNumber t)) (VNum (Fin 0))))
                        count))
               agg))
      keys (Ok []) in
  Ok (VObj agg).

(** ** [leaderboard] *)

Definition progress_of (targets m : value) : res num :=
  let* total :=
    fold_left
      (fun acc k =>
         let* sum := acc in
         let* x := get_item m k in
         let* t := get_item targets k in
         Ok (js_add sum (ToNumber (pct (js_or x (VNum (Fin 0))) t))))
      (Object_keys KPI_LABELS) (Ok (Fin 0)) in
  Ok (js_div total
        (num_of_Z (Z.of_nat (List.length (Object_keys KPI_LABELS))))).

Definition leaderboard_item (targets a : value) : res value :=
  let* m := get a "metrics" in
  let* progress := progress_of targets m in
  let* id := get a "id" in
  let* name := get a "name" in
  let* listings := get m "listingsGenerated" in
  Ok (VObj [("id", id); ("name", name);
            ("listings", js_or listings (VNum (Fin 0)));
            ("progress", VNum progress)]).

(** The comparator [(a, b) => b.listings - a.listings || b.progress -
    a.progress], on the items built above. *)
Definition field (v : value) (k : string) : value :=
  match v with
  | VObj o => match lookup k o with Some x => x | None => VUndef end
  | _ => VUndef
  end.

Definition by_listings_then_progress (a b : value) : num :=
  let d := js_sub (ToNumber (field b "listings")) (ToNumber (field a "listings")) in
  if ToBoolean (VNum d) then d
  else js_sub (ToNumber (field b "progress")) (ToNumber (field a "progress")).

End Handlers.

(** The row that [buildCSVFromAssociates] makes of an associate named
    [fst row] with the metrics [snd row]. *)
Definition row_object (row : string * object) : value :=
  VObj [("Name", VStr (fst row));
        ("Connects", js_or (field (VObj (snd row)) "connects") (VNum (Fin 0)));
        ("GeoData", js_or (field (VObj (snd row)) "geoData") (VNum (Fin 0)));
        ("BuyerAppointments",
         js_or (field (VObj (snd row)) "buyerAppointments") (VNum (Fin 0)));
        ("MarketAppraisals",
         js_or (field (VObj (snd row)) "marketAppraisals") (VNum (Fin 0)));
        ("ListingsGenerated",
         js_or (field (VObj (snd row)) "listingsGenerated") (VNum (Fin 0)))].


(** [items.sort(cmp)]: the sort of the host is stable; it is taken here by
    insertion, an element going after those it compares greater than. *)
Fixpoint sort_insert (cmp : value -> value -> num) (x : value) (l : list value)
  : list value :=
  match l with
  | [] => [x]
  | y :: l' =>
      if js_lt (Fin 0) (cmp x y) then y :: sort_insert cmp x l' else x :: l
  end.

Fixpoint Array_sort (cmp : value -> value -> num) (l : list value) : list value :=
  match l with
  | [] => []
  | x :: l' => sort_insert cmp x (Array_sort cmp l')
  end.

Definition leaderboard `{Host} (associates targets : value) : res (list value) :=
  let* prev := as_array associates in
  let* items := mapM (leaderboard_item targets) prev in
  Ok (firstn 5 (Array_sort by_listings_then_progress items)).

(** ** JSON text *)

Definition backslash : ascii := "092"%char.

Definition hex_digit (n : nat) : ascii :=
  match String.get n "0123456789abcdef" with
  | Some c => c
  | None => "0"%char
  end.

(** The characters that [JSON.stringify] writes for one character of a
    string. *)
Definition quote_char (c : ascii) : string :=
  let n := nat_of_ascii c in
  if Nat.eqb n 8 then String backslash "b"
  else if Nat.eqb n 9 then String backslash "t"
  else if Nat.eqb n 10 then String backslash "n"
  else if Nat.eqb n 12 then String backslash "f"
  else if Nat.eqb n 13 then String backslash "r"
  else if Nat.eqb n 34 then String backslash (String dquote "")
  else if Nat.eqb n 92 then String backslash (String backslash "")
  else if Nat.ltb n 32 then
    String backslash
      (String "u" (String "0" (String "0"
         (String (hex_digit (n / 16)) (String (hex_digit (n mod 16)) "")))))
  else String c "".

Fixpoint quote_chars (s : string) : string :=
  match s with
  | EmptyString => EmptyString
  | String c s' => quote_char c ++ quote_chars s'
  end.

Definition QuoteJSONString (s : string) : string :=
  String dquote (quote_chars s ++ String dquote "").

Section Stringify.
Context `{Host}.

(** [JSON.stringify(v)]; [None] is the result [undefined]. *)
Fixpoint JSON_stringify (v : value) : option string :=
  match v with
  | VUndef => None
  | VNull => Some "null"
  | VBool true => Some "true"
  | VBool false => Some "false"
  | VNum (Fin q) => Some (Number_toString (Fin q))
  | VNum _ => Some "null"
  | VStr s => Some (QuoteJSONString s)
  | VArr items =>
      Some ("[" ++ join ","
                     (map (fun e =>
                             match JSON_stringify e with
                             | Some t => t
                             | None => "null"
                             end) items)
            ++ "]")
  | VObj props =>
      Some ("{" ++ join ","
                     (flat_map
                        (fun kv =>
                           match JSON_stringify (snd kv) with
                           | Some t => [QuoteJSONString (fst kv) ++ ":" ++ t]
                           | None => []
                           end) props)
            ++ "}")
  end.

End Stringify.

Definition is_json_space (c : ascii) : bool :=
  let n := nat_of_ascii c in
  Nat.eqb n 32 || Nat.eqb n 9 || Nat.eqb n 10 || Nat.eqb n 13.

Fixpoint skip_ws (s : string) : string :=
  match s with
  | EmptyString => EmptyString
  | String c s' => if is_json_space c then skip_ws s' else s
  end.

Definition hex4 (a b c d : ascii) : option Z :=
  match radix_digit 16 a, radix_digit 16 b, radix_digit 16 c, radix_digit 16 d with
  | Some x, Some y, Some z, Some w => Some (((x * 16 + y) * 16 + z) * 16 + w)
  | _, _, _, _ => None
  end.

Definition byte (z : Z) : ascii := ascii_of_nat (Z.to_nat z).

(** The bytes of one code unit written as a [u] escape. *)
Definition code_unit_bytes (code : Z) : string :=
  if (code <? 128)%Z then String (byte code) ""
  else if (code <? 2048)%Z then
    String (byte (192 + code / 64)) (String (byte (128 + code mod 64)) "")
  else
    String (byte (224 + code / 4096))
      (String (byte (128 + (code / 64) mod 64))
         (String (byte (128 + code mod 64)) "")).

Definition simple_escape (e : ascii) : option ascii :=
  if Ascii.eqb e dquote then Some dquote
  else if Ascii.eqb e backslash then Some backslash
  else if Ascii.eqb e "/" then Some "/"%char
  else if Ascii.eqb e "b" then Some "008"%char
  else if Ascii.eqb e "f" then Some "012"%char
  else if Ascii.eqb e "n" then Some "010"%char
  else if Ascii.eqb e "r" then Some "013"%char
  else if Ascii.eqb e "t" then Some "009"%char
  else None.

(** The characters of a JSON string, read after its opening quote up to
    and including its closing quote. *)
Fixpoint scan_json_string (s : string) : option (string * string) :=
  match s with
  | EmptyString => None
  | String c r =>
      if Ascii.eqb c dquote then Some (EmptyString, r)
      else if Ascii.eqb c backslash then
        match r with
        | String e r1 =>
            if Ascii.eqb e "u" then
              match r1 with
              | String h1 (String h2 (String h3 (String h4 r2))) =>
                  match hex4 h1 h2 h3 h4, scan_json_string r2 with
                  | Some code, Some (t, rest) => Some (code_unit_bytes code ++ t, rest)
                  | _, _ => None
                  end
              | _ => None
              end
            else
              match simple_escape e, scan_json_string r1 with
              | Some ch, Some (t, rest) => Some (String ch t, rest)
              | _, _ => None
              end
        | EmptyString => None
        end
      else if Nat.ltb (nat_of_ascii c) 32 then None
      else
        match scan_json_string r with
        | Some (t, rest) => Some (String c t, rest)
        | None => None
        end
  end.

(** The object that a list of members builds: a repeated key keeps its
    first place and takes the last value. *)
Definition object_of_members (ms : list (string * value)) : object :=
  fold_left (fun o kv => set_prop (fst kv) (snd kv) o) ms [].

(** A JSON value at the start of a string, and what follows it. The fuel
    bounds the number of nested calls; the length of the text is enough. *)
Fixpoint parse_value (fuel : nat) (s : string) {struct fuel}
  : option (value * string) :=
  match fuel with
  | O => None
  | S f =>
      match skip_ws s with
      | EmptyString => None
      | String c r =>
          if Ascii.eqb c "{" then
            match after_char "}" (skip_ws r) with
            | Some r' => Some (VObj [], r')
            | None =>
                match parse_members f r with
                | Some (ms, r') => Some (VObj (object_of_members ms), r')
                | None => None
                end
            end
          else if Ascii.eqb c "[" then
            match after_char "]" (skip_ws r) with
            | Some r' => Some (VArr [], r')
            | None =>
                match parse_elements f r with
                | Some (vs, r') => Some (VArr vs, r')
                | None => None
                end
            end
          else if Ascii.eqb c dquote then
            match scan_json_string r with
            | Some (t, r') => Some (VStr t, r')
            | None => None
            end
          else if Ascii.eqb c "t" then
            match strip_prefix "rue" r with
            | Some r' => Some (VBool true, r')
            | None => None
            end
          else if Ascii.eqb c "f" then
            match strip_prefix "alse" r with
            | Some r' => Some (VBool false, r')
            | None => None
            end
          else if Ascii.eqb c "n" then
            match strip_prefix "ull" r with
            | Some r' => Some (VNull, r')
            | None => None
            end
          else
            match scan_json_number (String c r) with
            | Some (n, r') => Some (VNum n, r')
            | None => None
            end
      end
  end
with parse_elements (fuel : nat) (s : string) {struct fuel}
  : option (list value * string) :=
  match fuel with
  | O => None
  | S f =>
      match parse_value f s with
      | Some (v, r) =>
          match after_char "," (skip_ws r) with
          | Some r' =>
              match parse_elements f r' with
              | Some (vs, r'') => Some (v :: vs, r'')
              | None => None
              end
          | None =>
              match after_char "]" (skip_ws r) with
              | Some r' => Some ([v], r')
              | None => None
              end
          end
      | None => None
      end
  end
with parse_members (fuel : nat) (s : string) {struct fuel}
  : option (list (string * value) * string) :=
  match fuel with
  | O => None
  | S f =>
      match after_char dquote (skip_ws s) with
      | Some r =>
          match scan_json_string r with
          | Some (k, r1) =>
              match after_char ":" (skip_ws r1) with
              | Some r2 =>
                  match parse_value f r2 with
                  | Some (v, r3) =>
                      match after_char "," (skip_ws r3) with
                      | Some r4 =>
                          match parse_members f r4 with
                          | Some (ms, r5) => Some ((k, v) :: ms, r5)
                          | None => None
                          end
                      | None =>
                          match after_char "}" (skip_ws r3) with
                          | Some r4 => Some ([(k, v)], r4)
                          | None => None
                          end
                      end
                  | None => None
                  end
              | None => None
              end
          | None => None
          end
      | None => None
      end
  end.

Definition SyntaxError `{Host} (text : string) : exn :=
  mkExn "SyntaxError" (syntaxErrorMessage text).

(** [JSON.parse(text)] *)
Definition JSON_parse `{Host} (text : string) : res value :=
  match parse_value (S (String.length text)) text with
  | Some (v, rest) =>
      match skip_ws rest with
      | EmptyString => Ok v
      | _ => Throw (SyntaxError text)
      end
  | None => Throw (SyntaxError text)
  end.

(** ** [exportJSON] and [importJSON] *)

(** [String(e?.message || e)] for a thrown error [e]. *)
Definition error_text (e : exn) : string :=
  match exn_message e with
  | EmptyString => exn_name e
  | m => m
  end.

Definition typeof_object (v : value) : bool :=
  match v with
  | VNull | VArr _ | VObj _ => true
  | _ => false
  end.

Section ImportExport.
Context `{Host}.

Definition export_payload (st : AppState) : value :=
  VObj [("month", month st); ("targets", targets st);
        ("associates", associates st)].

Definition export_text (st : AppState) : string :=
  match JSON_stringify (export_payload st) with
  | Some t => t
  | None => "undefined"
  end.

Definition exportJSON (st : AppState) : AppState :=
  console_log (Alert_alert st "Export JSON" "JSON printed to console")
    ["EXPORT_JSON"; export_text st].

Definition import_attempt (st : AppState) : res AppState :=
  let* obj := JSON_parse (importText st) in
  if negb (ToBoolean obj) || negb (typeof_object obj)
  then Throw (mkExn "Error" "Invalid JSON")
  else
    let* m := get obj "month" in
    let* t := get obj "targets" in
    let* a := get obj "associates" in
    if ToBoolean m && ToBoolean t && ToBoolean a
    then Ok (mkApp m t a (newName st) false "" (alerts st) (console st))
    else Throw (mkExn "Error" "JSON missing keys {month, targets, associates}").

Definition importJSON (st : AppState) : AppState :=
  match import_attempt st with
  | Ok st' => st'
  | Throw e => Alert_alert st "Import failed" (error_text e)
  end.

End ImportExport.

(** ** [monthKey] and [buildSnapshotText] *)

Record Date : Type := mkDate {
  getFullYear : Z;
  getMonth : Z;
  getHours : Z;
  getMinutes : Z
}.

(** [k] characters taken from [fill] repeated. *)
Fixpoint cycle_take (k : nat) (fill rest : string) : string :=
  match k with
  | O => EmptyString
  | S k' =>
      match rest with
      | String c r => String c (cycle_take k' fill r)
      | EmptyString =>
          match fill with
          | String c r => String c (cycle_take k' fill r)
          | EmptyString => EmptyString
          end
      end
  end.

Definition padStart (n : nat) (fill s : string) : string :=
  if Nat.leb n (String.length s) then s
  else cycle_take (n - String.length s) fill fill ++ s.

Definition monthKey (date : Date) : string :=
  let y := getFullYear date in
  let m := padStart 2 "0" (Z_to_string (getMonth date + 1)) in
  Z_to_string y ++ "-" ++ m.

(** The en dash of the titles, as its three bytes. *)
Definition en_dash : string :=
  String "226"%char (String "128"%char (String "147"%char "")).

Section Snapshot.
Context `{Host}.

Definition sum_metric (k : string) (items : list value) : res num :=
  fold_left
    (fun acc a =>
       let* s := acc in
       let* m := get a "metrics" in
       Ok (js_add s (ToNumber (js_or (get_opt m k) (VNum (Fin 0))))))
    items (Ok (Fin 0)).

Definition snapshot_line (associates targets count : value) (k : string)
  : res string :=
  let* items := as_array associates in
  let* sum := sum_metric k items in
  let* t := get_item targets k in
  let teamTarget :=
    js_mul (ToNumber (js_or (VNum (ToNumber t)) (VNum (Fin 0))))
      (Math_max (Fin 1) (ToNumber (js_or count (VNum (Fin 1))))) in
  let p := pct (VNum sum) (VNum teamTarget) in
  Ok (ToString (field (VObj KPI_LABELS) k) ++ ": " ++ ToString (VNum sum)
      ++ " / " ++ ToString (VNum teamTarget) ++ " (" ++ ToString p ++ "%)").

Definition buildSnapshotText (month associates targets : value) : res string :=
  let head := "Sales Targets " ++ en_dash ++ " " ++ ToString month in
  let* count := get associates "length" in
  let* totals := mapM (snapshot_line associates targets count) KPI_KEYS in
  Ok (head ++ newline ++ "Team Size: " ++ ToString count ++ newline ++ newline
      ++ join newline totals).

End Snapshot.

(** ** The background email task *)

Inductive BackgroundFetchResult : Type := NoData | NewData | Failed.

Definition LS_KEY : string := "salesTargetsMobileV1".
Definition EMAIL_WEBHOOK_URL_KEY : string := "salesTargetsMobileV1_emailWebhookUrl".
Definition EMAIL_TO_KEY : string := "salesTargetsMobileV1_emailTo".
Definition SEND_HOUR_KEY : string := "salesTargetsMobileV1_sendHour".
Definition DEFAULT_EMAIL : string := "john.yatman@raywhite.com".
Definition DEFAULT_SEND_HOUR : Z := 18.

(** What the task meets when it runs: the stored items ([None] for a key
    that is not stored, [Throw] for a read that fails), the date that
    [monthKey()] reads, the date that the window test reads after the
    settings are loaded, and the answer to the request it may send (its [ok]
    flag, or a failure). *)
Record TaskEnv : Type := mkTaskEnv {
  getItem : string -> res (option string);
  today : Date;
  now : Date;
  fetch : string -> string -> res bool
}.

(** A stored item used where a value is expected: [null] when absent. *)
Definition item_value (o : option string) : value :=
  match o with
  | Some t => VStr t
  | None => VNull
  end.

Section EmailTask.
Context `{Host}.

Definition withinWindow (sendHour : num) (d : Date) : bool :=
  let minutesNow :=
    js_add (js_mul (num_of_Z (getHours d)) (Fin 60)) (num_of_Z (getMinutes d)) in
  let minutesTarget := js_mul sendHour (Fin 60) in
  js_le (Math_abs (js_sub minutesNow minutesTarget)) (Fin 30).

Definition emailTask_body (env : TaskEnv) : res BackgroundFetchResult :=
  let* raw := getItem env LS_KEY in
  let* store :=
    if ToBoolean (item_value raw)
    then JSON_parse (ToString (item_value raw))
    else Ok (VObj []) in
  let month := monthKey (today env) in
  let* stored := get_item store month in
  let state :=
    js_or stored
      (VObj [("targets", DEFAULT_TARGETS); ("associates", VArr [])]) in
  let* to_item := getItem env EMAIL_TO_KEY in
  let to := js_or (item_value to_item) (VStr DEFAULT_EMAIL) in
  let* webhook := getItem env EMAIL_WEBHOOK_URL_KEY in
  let* hour_item := getItem env SEND_HOUR_KEY in
  let sendHour :=
    ToNumber (js_or (item_value hour_item) (VNum (num_of_Z DEFAULT_SEND_HOUR))) in
  if negb (withinWindow sendHour (now env)) then Ok NoData
  else
    let subject := "Daily KPI " ++ en_dash ++ " " ++ month in
    let* associates := get state "associates" in
    let* targets := get state "targets" in
    let* text := buildSnapshotText (VStr month) associates targets in
    let* csv := buildCSVFromAssociates associates in
    if ToBoolean (item_value webhook) then
      let body :=
        match
          JSON_stringify
            (VObj [("to", to); ("subject", VStr subject); ("text", VStr text);
                   ("csv", VStr csv); ("month", VStr month)])
        with
        | Some t => t
        | None => "undefined"
        end in
      let* ok := fetch env (ToString (item_value webhook)) body in
      Ok (if ok then NewData else Failed)
    else Ok NoData.

Definition emailTask (env : TaskEnv) : BackgroundFetchResult :=
  match emailTask_body env with
  | Ok r => r
  | Throw _ => Failed
  end.

End EmailTask.

(** The window as the comment of the task words it: the local time is at
    most 30 minutes away from the configured hour, on the clock. *)
Definition minutes_apart_on_clock (sendHour : Z) (d : Date) : Z :=
  let diff := Z.abs (getHours d * 60 + getMinutes d - sendHour * 60) in
  Z.min diff (1440 - diff).

Definition within_30_minutes_of (sendHour : Z) (d : Date) : bool :=
  (minutes_apart_on_clock sendHour d <=? 30)%Z.

(** ** The invariant of the metrics *)

Definition nonnegative_number (v : value) : bool :=
  match v with
  | VNum n => js_le (Fin 0) n
  | _ => false
  end.

Definition metrics_ok (m : object) : bool :=
  forallb (fun k =>
             match lookup k m with
             | Some v => nonnegative_number v
             | None => false
             end) KPI_KEYS.

(** Each of the five metrics of the associate is a non-negative number. *)
Definition associate_ok (a : value) : bool :=
  match a with
  | VObj props =>
      match lookup "metrics" props with
      | Some (VObj m) => metrics_ok m
      | _ => false
      end
  | _ => false
  end.

Definition metrics_nonnegative (st : AppState) : bool :=
  match associates st with
  | VArr items => forallb associate_ok items
  | _ => false
  end.

Definition quoted (s : string) : string := String dquote (s ++ String dquote "").

(** A host on which the examples are run: none of them reaches a conversion
    that the host decides. *)
Definition exampleHost : Host :=
  {| fractionToString := fun q =>
       Z_to_string (Qnum q) ++ "/" ++ Z_to_string (Zpos (Qden q));
     syntaxErrorMessage := fun _ => "Unexpected token";
     typeErrorMessage := "Cannot read properties" |}.

Definition sampleWorld : World :=
  mkWorld None 0 (fun _ => [4; 15; 35]%nat) 0
    (fun n => 1700000000000 + Z.of_nat n) 0.

(** ** Values that JSON text represents exactly *)

Fixpoint distinct_keys (l : list string) : bool :=
  match l with
  | [] => true
  | k :: l' => negb (existsb (String.eqb k) l') && distinct_keys l'
  end.

(** Strings, booleans, [null], whole numbers, and the arrays and objects
    made of such values; an object has no key twice. *)
Fixpoint json_exact (v : value) : bool :=
  match v with
  | VUndef => false
  | VNull | VBool _ | VStr _ => true
  | VNum (Fin q) => Pos.eqb (Qden q) 1
  | VNum _ => false
  | VArr items => forallb json_exact items
  | VObj props =>
      distinct_keys (map fst props)
      && forallb (fun kv => json_exact (snd kv)) props
  end.

(** The characters that may start the text of a value, and those that may
    follow it inside an array or an object. *)
Definition value_start (c : ascii) : bool :=
  existsb (Ascii.eqb c)
    ["{"; "["; dquote; "t"; "f"; "n"; "-"; "0"; "1"; "2"; "3"; "4"; "5"; "6";
     "7"; "8"; "9"]%char.

Definition ends_value (rest : string) : bool :=
  match rest with
  | EmptyString => true
  | String c _ => Ascii.eqb c "," || Ascii.eqb c "]" || Ascii.eqb c "}"
  end.

(** The text that [JSON.stringify] writes for a value inside an array. *)
Definition text_of `{Host} (v : value) : string :=
  match JSON_stringify v with
  | Some t => t
  | None => "null"
  end.

Definition with_importText (st : AppState) (text : string) : AppState :=
  mkApp (month st) (targets st) (associates st) (newName st) (importVisible st)
    text (alerts st) (console st).

(** ** The leaderboard as the specification words it *)

(** A property that is absent or holds a finite number; the number is in
    lowest terms, as every number that the program reads or computes. *)
Definition finite_or_absent (o : object) (k : string) : Prop :=
  lookup k o = None \/ exists q, lookup k o = Some (VNum (Fin q)) /\ Qred q = q.

Definition rankable_associate (a : value) : Prop :=
  exists props m,
    a = VObj props /\ lookup "metrics" props = Some (VObj m) /\
    forall k, In k KPI_KEYS -> finite_or_absent m k.

Definition rankable_targets (tg : object) : Prop :=
  forall k, In k KPI_KEYS ->
    lookup k tg = None \/ exists q, lookup k tg = Some (VNum (Fin q)).

(** The value of a metric: 0 when the metric is absent. *)
Definition metric_value (m : object) (k : string) : value :=
  match lookup k m with
  | Some v => v
  | None => VNum (Fin 0)
  end.

Definition metrics_of (a : value) : object :=
  match field a "metrics" with
  | VObj m => m
  | _ => []
  end.

(** The average over the five metrics of the percentage reached. *)
Definition average_progress `{Host} (tg : value) (m : object) : num :=
  js_div
    (fold_left
       (fun sum k => js_add sum (ToNumber (pct (metric_value m k) (field tg k))))
       KPI_KEYS (Fin 0))
    (num_of_Z 5).

Definition leaderboard_entry `{Host} (tg a : value) : value :=
  VObj [("id", field a "id"); ("name", field a "name");
        ("listings", metric_value (metrics_of a) "listingsGenerated");
        ("progress", VNum (average_progress tg (metrics_of a)))].

Definition entry_number (x : value) (k : string) : Q :=
  match field x k with
  | VNum (Fin q) => q
  | _ => 0%Q
  end.

(** [x] ranks no lower than [y]: more listings, or as many listings and at
    least as much progress. *)
Definition ranks_no_lower (x y : value) : Prop :=
  (entry_number y "listings" < entry_number x "listings")%Q \/
  ((entry_number x "listings" == entry_number y "listings")%Q /\
   (entry_number y "progress" <= entry_number x "progress")%Q).

Definition same_rank (x y : value) : bool :=
  Qeq_bool (entry_number x "listings") (entry_number y "listings")
  && Qeq_bool (entry_number x "progress") (entry_number y "progress").

(** An entry whose listings and progress are finite numbers. *)
Definition rankable_entry (x : value) : Prop :=
  exists o l p,
    x = VObj o /\ lookup "listings" o = Some (VNum (Fin l)) /\
    lookup "progress" o = Some (VNum (Fin p)).

(** What an import takes from a text: the three values of a parsed object
    whose keys [month], [targets] and [associates] all hold a truthy value. *)
Definition accepted_import `{Host} (text : string)
  : option (value * value * value) :=
  match JSON_parse text with
  | Ok (VObj o) =>
      match lookup "month" o, lookup "targets" o, lookup "associates" o with
      | Some m, Some t, Some a =>
          if ToBoolean m && ToBoolean t && ToBoolean a
          then Some (m, t, a) else None
      | _, _, _ => None
      end
  | _ => None
  end.

(** A text with the three keys, the month being the empty string. *)
Definition empty_month_import : string :=
  "{" ++ quoted "month" ++ ":" ++ quoted "" ++ ","
  ++ quoted "targets" ++ ":{}," ++ quoted "associates" ++ ":[]}".

(** The task finds the hour [hour] stored, a webhook that answers with
    success, and the local time [h]:[m]. *)
Definition taskEnv_at (hour : string) (h m : Z) : TaskEnv :=
  mkTaskEnv
    (fun k =>
       if String.eqb k SEND_HOUR_KEY then Ok (Some hour)
       else if String.eqb k EMAIL_WEBHOOK_URL_KEY
            then Ok (Some "https://example.org/send")
            else Ok None)
    (mkDate 2025 7 h m)
    (mkDate 2025 7 h m)
    (fun _ _ => Ok true).

(** The associates that the first run seeds. *)
Definition seed_metrics (c g b m l : Z) : value :=
  VObj [("connects", VNum (num_of_Z c)); ("geoData", VNum (num_of_Z g));
        ("buyerAppointments", VNum (num_of_Z b));
        ("marketAppraisals", VNum (num_of_Z m));
        ("listingsGenerated", VNum (num_of_Z l))].

Definition seedAssociates : list value :=
  [VObj [("id", VStr "id-a"); ("name", VStr "Alex");
         ("metrics", seed_metrics 120 10 3 4 0)];
   VObj [("id", VStr "id-b"); ("name", VStr "Bianca");
         ("metrics", seed_metrics 300 18 7 10 1)];
   VObj [("id", VStr "id-c"); ("name", VStr "Chris");
         ("metrics", seed_metrics 90 5 1 2 0)]].

(** The seeded month after a lone minus sign is typed into the target
    field of the connects. *)
Definition mistypedTarget `{Host} : AppState :=
  changeTarget
    (mkApp (VStr "2025-08") DEFAULT_TARGETS (VArr seedAssociates) "" false ""
       [] [])
    "connects" "-".

(** A world whose random outcomes and clock readings repeat. *)
Definition stuckWorld : World :=
  mkWorld None 0 (fun _ => [4; 15; 35]%nat) 0 (fun _ => 1700000000000) 0.

(** The random part of a fallback identifier, from the digits drawn. *)
Definition random_suffix (digits : list nat) : string :=
  String_slice 2 10 (fraction_toString36 digits).

Fixpoint has_char (c : ascii) (s : string) : bool :=
  match s with
  | EmptyString => false
  | String d s' => Ascii.eqb c d || has_char c s'
  end.

Definition sampleState : AppState :=
  mkApp (VStr "2025-08") DEFAULT_TARGETS (VArr []) "Dana" false "" [] [].

(** ** Auxiliary notions of the properties *)

(** [x] goes after [y] under the comparator, and the two are tied. *)
Definition goes_after (cmp : value -> value -> num) (x y : value) : bool :=
  js_lt (Fin 0) (cmp x y).

Definition tied (cmp : value -> value -> num) (x y : value) : bool :=
  negb (goes_after cmp x y) && negb (goes_after cmp y x).

Definition number_start (c : ascii) : bool :=
  match digit_of_ascii c with
  | Some _ => true
  | None => Ascii.eqb c "-"
  end.

Section PropertyNotions.
Context `{Host}.

(** The team target that [teamTargets] stores under the key [k]. *)
Definition scaled_target (tg : object) (count : num) (k : string) : value :=
  VNum (js_mul
          (ToNumber (js_or (VNum (ToNumber (field (VObj tg) k))) (VNum (Fin 0))))
          count).

Definition member_text (kv : string * value) : string :=
  QuoteJSONString (fst kv) ++ ":" ++ text_of (snd kv).

(** Parsing the text written for [v], followed by the end of the text or by
    a delimiter, gives [v] back and stops where the text of [v] ends. *)
Definition reads_back (v : value) : Prop :=
  json_exact v = true ->
  forall fuel rest,
    (String.length (text_of v) < fuel)%nat -> ends_value rest = true ->
    parse_value fuel (text_of v ++ rest) = Some (v, rest).

End PropertyNotions.

Definition sample_associate : value :=
  VObj [("id", VStr "id-1"); ("name", VStr "a, b");
        ("metrics", VObj [("connects", VNum (Fin 12))])].

(** The text of an import that carries a negative metric. *)
Definition negative_import : string :=
  "{" ++ quoted "month" ++ ":" ++ quoted "2025-08" ++ ","
  ++ quoted "targets" ++ ":{" ++ quoted "connects" ++ ":800},"
  ++ quoted "associates" ++ ":[{" ++ quoted "id" ++ ":" ++ quoted "id-1" ++ ","
  ++ quoted "name" ++ ":" ++ quoted "Alex" ++ ","
  ++ quoted "metrics" ++ ":{" ++ quoted "connects" ++ ":-5,"
  ++ quoted "geoData" ++ ":0," ++ quoted "buyerAppointments" ++ ":0,"
  ++ quoted "marketAppraisals" ++ ":0," ++ quoted "listingsGenerated" ++ ":0}}]}".

(** The row of the escaping test of the program. *)
Definition escaping_test_row : value :=
  VObj [("A", VStr "a, b"); ("B", VStr (quoted "q"))].

(** ** The list of months *)

(** [new Date(year, monthIndex, 1)] read back in local time: a year from 0
    to 99 stands for a year of the 1900s, and a month index outside of 0 to
    11 carries into the years. *)
Definition Date_of_year_month (year monthIndex : Z) : Date :=
  let yr := if (0 <=? year) && (year <=? 99) then 1900 + year else year in
  mkDate (yr + monthIndex / 12) (monthIndex mod 12) 0 0.

(** The entries of the month picker; [toLocaleString] is the label that the
    host gives to a date. *)
Definition months (toLocaleString : Date -> string) (now : Date) : list value :=
  map (fun i =>
         let d := Date_of_year_month (getFullYear now)
                    (getMonth now - Z.of_nat i) in
         VObj [("key", VStr (monthKey d)); ("label", VStr (toLocaleString d))])
      (seq 0 18).

(** The two digits of a month in a month key. *)
Definition month_digits (m : Z) : string := padStart 2 "0" (Z_to_string (m + 1)).

(** An associate as the handlers make it: an object whose [metrics] is an
    object. *)
Definition associate_shape (a : value) : bool :=
  match a with
  | VObj props =>
      match lookup "metrics" props with
      | Some (VObj _) => true
      | _ => false
      end
  | _ => false
  end.

(** The seeded month with a name typed into the field of the new
    associate. *)
Definition seededState : AppState :=
  mkApp (VStr "2025-08") DEFAULT_TARGETS (VArr seedAssociates) "Dana" false ""
    [] [].

(** ** [teamTotals] *)

Section Totals.
Context `{Host}.

(** The properties of [totals] hold numbers from the start, so that [+=]
    adds numbers. *)
Definition teamTotals (associates : value) : res value :=
  let* items := as_array associates in
  let* totals :=
    fold_left
      (fun acc a =>
         let* totals := acc in
         fold_left
           (fun acc' k =>
              let* t := acc' in
              let* m := get a "metrics" in
              Ok (set_prop k
                    (VNum (js_add (ToNumber (field (VObj t) k))
                             (ToNumber (js_or (get_opt m k) (VNum (Fin 0))))))
                    t))
           (Object_keys totals) (Ok totals))
      items (Ok (own_props zero_metrics)) in
  Ok (VObj totals).

End Totals.

(** ** [chartData], [BarChart] and [TargetCard] *)

(** A rectangle of the drawing, and the two bars and the label drawn for one
    entry of the data; the two axis lines, the colours and the font are left
    out. *)
Record Rect : Type := mkRect {
  rect_x : num;
  rect_y : num;
  rect_width : num;
  rect_height : num
}.

Record BarGroup : Type := mkBarGroup {
  target_bar : Rect;
  actual_bar : Rect;
  label_x : num;
  label_y : num;
  label_text : value
}.

Definition chart_width : num := Fin 360.
Definition chart_height : num := Fin 200.
Definition chart_padding : num := Fin 28.
Definition barWidth : num := Fin 24.
Definition chart_gap : num := Fin 32.

Section Chart.
Context `{Host}.

Definition chartData (teamTotals teamTargets : value) : res (list value) :=
  mapM (fun k =>
          let* label := get_item (VObj KPI_LABELS) k in
          let* actual := get_item teamTotals k in
          let* target := get_item teamTargets k in
          Ok (VObj [("label", label); ("actual", actual); ("target", target)]))
       (Object_keys KPI_LABELS).

(** [Math.max(1, ...data.map(d => Math.max(d.actual, d.target)))] *)
Definition maxVal (data : list value) : res num :=
  let* tops :=
    mapM (fun d =>
            let* actual := get d "actual" in
            let* target := get d "target" in
            Ok (Math_max (ToNumber actual) (ToNumber target)))
         data in
  Ok (fold_left Math_max tops (Fin 1)).

Definition scale (maxVal v : num) : num :=
  js_mul (js_div v maxVal) (js_sub chart_height (js_mul chart_padding (Fin 2))).

Definition bar_group (maxVal : num) (i : nat) (d : value) : res BarGroup :=
  let x0 :=
    js_add (js_add chart_padding (Fin 20))
      (js_mul (num_of_Z (Z.of_nat i)) (js_add (js_mul barWidth (Fin 2)) chart_gap)) in
  let* target := get d "target" in
  let hTarget := scale maxVal (ToNumber target) in
  let* actual := get d "actual" in
  let hActual := scale maxVal (ToNumber actual) in
  let* label := get d "label" in
  Ok (mkBarGroup
        (mkRect x0 (js_sub (js_sub chart_height chart_padding) hTarget)
           barWidth hTarget)
        (mkRect (js_add (js_add x0 barWidth) (Fin 4))
           (js_sub (js_sub chart_height chart_padding) hActual) barWidth hActual)
        (js_add x0 barWidth)
        (js_add (js_sub chart_height chart_padding) (Fin 14))
        label).

Definition BarChart (data : value) : res (list BarGroup) :=
  let* items := as_array data in
  let* top := maxVal items in
  mapM (fun entry => bar_group top (fst entry) (snd entry))
    (combine (seq 0 (List.length items)) items).

(** The percentage that the card of the key [k] shows. *)
Definition TargetCard (totals teamTargets : value) (k : string) : res value :=
  let* actual := get_item totals k in
  let* target := get_item teamTargets k in
  Ok (pct actual target).

End Chart.

(** The right edge of a rectangle. *)
Definition right_edge (r : Rect) : num := js_add (rect_x r) (rect_width r).

(** A number that is finite and not negative. *)
Definition finite_nonnegative (v : value) : bool :=
  match v with
  | VNum (Fin q) => Qle_bool 0 q
  | _ => false
  end.

(** An entry of the chart whose two numbers are finite and not negative. *)
Definition chart_entry_ok (d : value) : bool :=
  finite_nonnegative (field d "actual") && finite_nonnegative (field d "target").

(** A bar that stands on the horizontal axis (at 172) and whose height lies
    between 0 and the height of the plot (144). *)
Definition bar_in_plot (r : Rect) : Prop :=
  exists y h,
    rect_y r = Fin y /\ rect_height r = Fin h /\
    (0 <= h)%Q /\ (h <= 144)%Q /\ (y + h == 172)%Q.

(** ** [runTests] *)

(** [s.includes(p)] *)
Fixpoint String_includes (p s : string) : bool :=
  is_prefix p s
  || match s with
     | EmptyString => false
     | String _ s' => String_includes p s'
     end.

(** [v === true] *)
Definition strict_eq_true (v : value) : bool :=
  match v with
  | VBool true => true
  | _ => false
  end.

Module RunTests.
Section Tests.
Context `{Host}.

(** The entry that the helper [t] records for a test whose function
    returned [out] or threw. *)
Definition t (name : string) (out : res value) : value :=
  match out with
  | Ok v =>
      VObj [("name", VStr name); ("pass", VBool (strict_eq_true v));
            ("details", VStr (if strict_eq_true v then "OK" else ToString v))]
  | Throw e =>
      VObj [("name", VStr name); ("pass", VBool false);
            ("details", VStr (error_text e))]
  end.

Definition pct_handles_zero_denominator : res value :=
  Ok (VBool (strict_eq_num (pct (VNum (Fin 5)) (VNum (Fin 0))) (Fin 0))).

Definition pct_clamps_to_100 : res value :=
  Ok (VBool (strict_eq_num (pct (VNum (Fin 120)) (VNum (Fin 100))) (Fin 100))).

Definition pct_normal_case : res value :=
  Ok (VBool (strict_eq_num (pct (VNum (Fin 50)) (VNum (Fin 100))) (Fin 50))).

Definition monthKey_formats : res value :=
  Ok (VBool (String.eqb (monthKey (Date_of_year_month 2025 7)) "2025-08")).

Definition toCSV_empty : res value :=
  let* csv := toCSV [] in
  Ok (VBool (String.eqb csv "")).

Definition toCSV_escaping : res value :=
  let* csv := toCSV [escaping_test_row] in
  Ok (VBool (startsWith csv "A,B"
             && String_includes (quoted "a, b") csv
             && String_includes (quoted (quoted "q")) csv)).

Definition genId_unique_ish (w : World) : res value * World :=
  let (a, w1) := genId w in
  let (b, w2) := genId w1 in
  (Ok (VBool (negb (String.eqb a b) && startsWith a "id-")), w2).

Definition snapshot_text_includes_all_KPIs : res value :=
  let* txt :=
    buildSnapshotText (VStr "2025-08")
      (VArr [VObj [("metrics", seed_metrics 1 2 3 4 5)]]) DEFAULT_TARGETS in
  Ok (VBool (forallb (fun s => String_includes s txt)
               ["Connects"; "Geo Data"; "Buyer Appointments";
                "Market Appraisals"; "Listings Generated"])).

Definition runTests (w : World) : list value * World :=
  let (id_test, w') := genId_unique_ish w in
  ([t "pct handles zero denominator" pct_handles_zero_denominator;
    t "pct clamps to 100" pct_clamps_to_100;
    t "pct normal case" pct_normal_case;
    t "monthKey formats YYYY-MM" monthKey_formats;
    t "toCSV empty" toCSV_empty;
    t "toCSV escaping" toCSV_escaping;
    t "genId unique-ish" id_test;
    t "snapshot text includes all KPIs" snapshot_text_includes_all_KPIs],
   w').

End Tests.
End RunTests.

(** ** Loading and persisting *)

(** [safeStoreGet(key)]: a read that fails gives [null]. *)
Definition safeStoreGet (getItem : string -> res (option string)) (key : string)
  : option string :=
  match getItem key with
  | Ok raw => raw
  | Throw _ => None
  end.

(** The month that the load effect seeds when the store has none. *)
Definition seeded_month (w : World) : value * World :=
  let (id1, w1) := genId w in
  let (id2, w2) := genId w1 in
  let (id3, w3) := genId w2 in
  (VObj [("targets", VObj (own_props DEFAULT_TARGETS));
         ("associates",
          VArr [VObj [("id", VStr id1); ("name", VStr "Alex");
                      ("metrics", seed_metrics 120 10 3 4 0)];
                VObj [("id", VStr id2); ("name", VStr "Bianca");
                      ("metrics", seed_metrics 300 18 7 10 1)];
                VObj [("id", VStr id3); ("name", VStr "Chris");
                      ("metrics", seed_metrics 90 5 1 2 0)]])],
   w3).

(** [s.replace] with the global pattern of the double quote and the empty
    replacement. *)
Definition remove_quotes (s : string) : string :=
  String_replaceAll s (String dquote "") "".

(** The email settings of the screen. *)
Record EmailSettings : Type := mkEmailSettings {
  emailTo : string;
  emailWebhook : string;
  sendHour : string
}.

Section LoadPersist.
Context `{Host}.

(** The targets and the associates that the load effect sets from the
    stored text [raw], for the month of the first render: the month key of
    [today], which is no array index and is not [length]. The effect also
    keeps the parsed store; that part of its outcome is not modelled. An
    exception leaves the screen as it was. *)
Definition loadMonth (raw : option string) (today : Date) (w : World)
  : res (value * value) * World :=
  let month := monthKey today in
  match (if ToBoolean (item_value raw)
         then JSON_parse (ToString (item_value raw))
         else Ok (VObj [])) with
  | Throw e => (Throw e, w)
  | Ok obj =>
      match get_item obj month with
      | Throw e => (Throw e, w)
      | Ok found =>
          if negb (ToBoolean found) then
            let (seed, w') := seeded_month w in
            match obj with
            | VObj _ | VArr _ =>
                (let* t := get seed "targets" in
                 let* a := get seed "associates" in
                 Ok (t, a), w')
            | _ => (Throw TypeError, w')
            end
          else
            (let* t := get found "targets" in
             let* a := get found "associates" in
             Ok (t, a), w)
      end
  end.

(** The email settings that the load effect sets. *)
Definition loadEmailSettings (getItem : string -> res (option string))
  : EmailSettings :=
  let savedTo :=
    js_or (item_value (safeStoreGet getItem EMAIL_TO_KEY)) (VStr DEFAULT_EMAIL) in
  let savedWebhook :=
    js_or (item_value (safeStoreGet getItem EMAIL_WEBHOOK_URL_KEY)) (VStr "") in
  let savedHour :=
    js_or (item_value (safeStoreGet getItem SEND_HOUR_KEY))
      (VStr (ToString (VNum (num_of_Z DEFAULT_SEND_HOUR)))) in
  mkEmailSettings (remove_quotes (ToString savedTo))
    (remove_quotes (ToString savedWebhook)) (ToString savedHour).

(** The persist effect: the next store, and the text written under
    [LS_KEY]. *)
Definition persist_next (store : value) (st : AppState) : value :=
  VObj (set_prop (ToString (month st))
          (VObj [("targets", targets st); ("associates", associates st)])
          (own_props store)).

Definition persist_text (store : value) (st : AppState) : string :=
  match JSON_stringify (persist_next store st) with
  | Some text => text
  | None => "undefined"
  end.

(** What the persist effects of the email settings write, key by key. *)
Definition persist_email (s : EmailSettings) : list (string * string) :=
  [(EMAIL_TO_KEY, emailTo s); (EMAIL_WEBHOOK_URL_KEY, emailWebhook s);
   (SEND_HOUR_KEY, sendHour s)].

End LoadPersist.

(** ** [sendDailyEmailNow] *)

(** [encodeURIComponent(s)] on the bytes of [s]: letters, digits and the
    marks hyphen, underscore, full stop, exclamation mark, tilde, asterisk,
    apostrophe and the two parentheses stay; every other byte is written as
    a percent sign and two hexadecimal digits. *)
Definition uri_unreserved (c : ascii) : bool :=
  let n := nat_of_ascii c in
  ((48 <=? n) && (n <=? 57))%nat || ((65 <=? n) && (n <=? 90))%nat
  || ((97 <=? n) && (n <=? 122))%nat
  || existsb (Ascii.eqb c) ["-"; "_"; "."; "!"; "~"; "*"; "'"; "("; ")"]%char.

Definition upper_hex_digit (n : nat) : ascii :=
  match String.get n "0123456789ABCDEF" with
  | Some c => c
  | None => "0"%char
  end.

Fixpoint encodeURIComponent (s : string) : string :=
  match s with
  | EmptyString => EmptyString
  | String c s' =>
      if uri_unreserved c then String c (encodeURIComponent s')
      else
        String "%"
          (String (upper_hex_digit (nat_of_ascii c / 16))
             (String (upper_hex_digit (nat_of_ascii c mod 16))
                (encodeURIComponent s')))
  end.

(** What leaves the program: a request to the webhook, or a link handed to
    the system. *)
Inductive Request : Type :=
| Post (url body : string)
| OpenURL (url : string).

(** The answer to a request: its [ok] flag and its status. *)
Record Response : Type := mkResponse { ok : bool; status : Z }.

(** What the button meets: the answer of the network to a request, and
    whether the system can open a link. *)
Record SendEnv : Type := mkSendEnv {
  send_fetch : string -> string -> res Response;
  canOpenURL : string -> res bool
}.

Section SendNow.
Context `{Host}.

(** The body of the request that carries a summary. *)
Definition email_body (to subject text csv month : value) : string :=
  match
    JSON_stringify
      (VObj [("to", to); ("subject", subject); ("text", text); ("csv", csv);
             ("month", month)])
  with
  | Some t => t
  | None => "undefined"
  end.

Definition sendDailyEmailNow (st : AppState) (settings : EmailSettings)
  (env : SendEnv) : AppState * list Request :=
  let failed (e : exn) := Alert_alert st "Send failed" (error_text e) in
  let subject := "Daily KPI " ++ en_dash ++ " " ++ ToString (month st) in
  match buildSnapshotText (month st) (associates st) (targets st) with
  | Throw e => (failed e, [])
  | Ok text =>
      match buildCSVFromAssociates (associates st) with
      | Throw e => (failed e, [])
      | Ok csv =>
          if ToBoolean (VStr (emailWebhook settings)) then
            let body :=
              email_body (VStr (emailTo settings)) (VStr subject) (VStr text)
                (VStr csv) (month st) in
            let sent := [Post (emailWebhook settings) body] in
            match send_fetch env (emailWebhook settings) body with
            | Throw e => (failed e, sent)
            | Ok response =>
                if negb (ok response)
                then (failed (mkExn "Error"
                                ("Webhook responded "
                                 ++ ToString (VNum (num_of_Z (status response))))),
                      sent)
                else (Alert_alert st "Email sent"
                        ("Daily summary sent to " ++ emailTo settings),
                      sent)
            end
          else
            let mailto :=
              "mailto:" ++ encodeURIComponent (emailTo settings)
              ++ "?subject=" ++ encodeURIComponent subject
              ++ "&body=" ++ encodeURIComponent text in
            match canOpenURL env mailto with
            | Throw e => (failed e, [])
            | Ok true => (st, [OpenURL mailto])
            | Ok false =>
                (Alert_alert st "No email webhook configured"
                   "Set EMAIL_WEBHOOK_URL in Settings to enable automatic sending.",
                 [])
            end
      end
  end.

End SendNow.

(** Settings, a network that answers with success and a system that opens
    links, for the examples. *)
Definition sampleSettings : EmailSettings :=
  mkEmailSettings "sales@example.org" "https://example.org/send" "17".

Definition sampleSendEnv : SendEnv :=
  mkSendEnv (fun _ _ => Ok (mkResponse true 200)) (fun _ => Ok true).

(** The task finds what the screen persisted for [seededState] and
    [sampleSettings], at the local time 17:10 of a day of August 2025. *)
Definition persistedEnv `{Host} : TaskEnv :=
  mkTaskEnv
    (fun k =>
       if String.eqb k LS_KEY then Ok (Some (persist_text (VObj []) seededState))
       else Ok (option_map snd
                  (find (fun kv => String.eqb k (fst kv))
                     (persist_email sampleSettings))))
    (mkDate 2025 7 17 10)
    (mkDate 2025 7 17 10)
    (fun _ _ => Ok true).

(** * Properties *)

(** ** The tests that the program runs on itself *)

Example test_pct_zero_denominator :
  pct (H := exampleHost) (VNum (Fin 5)) (VNum (Fin 0)) = VNum (Fin 0).
Proof. reflexivity. Qed.

Example test_pct_clamps_to_100 :
  pct (H := exampleHost) (VNum (Fin 120)) (VNum (Fin 100)) = VNum (Fin 100).
Proof. vm_compute. reflexivity. Qed.

Example test_pct_normal_case :
  pct (H := exampleHost) (VNum (Fin 50)) (VNum (Fin 100)) = VNum (Fin 50).
Proof. vm_compute. reflexivity. Qed.

Example test_monthKey : monthKey (mkDate 2025 7 0 0) = "2025-08".
Proof. reflexivity. Qed.

Example test_toCSV_escaping :
  toCSV (H := exampleHost) [escaping_test_row]
  = Ok ("A,B" ++ newline ++ quoted "a, b" ++ "," ++ quoted (quoted (quoted "q"))).
Proof. vm_compute. reflexivity. Qed.

Example test_genId :
  fst (genId sampleWorld) = "id-4fz-1700000000000" /\
  fst (genId (snd (genId sampleWorld))) = "id-4fz-1700000000001".
Proof. split; vm_compute; reflexivity. Qed.

Example test_snapshot_text :
  buildSnapshotText (H := exampleHost) (VStr "2025-08")
    (VArr [VObj [("metrics", seed_metrics 1 2 3 4 5)]]) DEFAULT_TARGETS
  = Ok ("Sales Targets " ++ en_dash ++ " 2025-08" ++ newline
        ++ "Team Size: 1" ++ newline ++ newline
        ++ "Connects: 1 / 800 (0%)" ++ newline
        ++ "Geo Data: 2 / 50 (4%)" ++ newline
        ++ "Buyer Appointments: 3 / 20 (15%)" ++ newline
        ++ "Market Appraisals: 4 / 25 (16%)" ++ newline
        ++ "Listings Generated: 5 / 1 (100%)").
Proof. vm_compute. reflexivity. Qed.

(** ** Arithmetic of the number model *)

Lemma Qeq_bool_false_neq (x y : Q) : Qeq_bool x y = false -> ~ (x == y)%Q.
Proof.
  intros Hb Heq. apply Qeq_bool_iff in Heq. congruence.
Qed.

Lemma inject_Z_zero_test (a : Z) : Qeq_bool (inject_Z a) 0 = (a =? 0).
Proof.
  unfold Qeq_bool, inject_Z. cbn. rewrite Z.mul_1_r. destruct a; reflexivity.
Qed.

Lemma Math_min_of_Z (a b : Z) :
  Math_min (num_of_Z a) (num_of_Z b) = num_of_Z (Z.min a b).
Proof.
  unfold Math_min, num_of_Z, js_le.
  destruct (Qle_bool (inject_Z a) (inject_Z b)) eqn:Hle.
  - apply Qle_bool_iff in Hle. rewrite <- Zle_Qle in Hle.
    now rewrite Z.min_l.
  - assert (Hlt : b < a).
    { destruct (Z.lt_ge_cases b a) as [Hlt | Hge]; [exact Hlt |].
      rewrite Zle_Qle in Hge. apply Qle_bool_iff in Hge. congruence. }
    rewrite Z.min_r by lia. reflexivity.
Qed.

Lemma round_half_up_nonneg (q : Q) : (0 <= q)%Q -> 0 <= round_half_up q.
Proof.
  intros Hq. unfold round_half_up.
  change 0 with (Qfloor (inject_Z 0)) at 1. 
  apply Qfloor_resp_le. unfold inject_Z. lra.
Qed.

Section PctProperties.
Context `{Host}.

Lemma pct_falsy_target (n d : value) :
  ToBoolean d = false -> pct n d = VNum (Fin 0).
Proof.
  intros Hd. unfold pct. now rewrite Hd.
Qed.

(** With a finite non-zero target the result is the rounded ratio with the
    upper bound 100 alone. *)
Lemma pct_finite (n d : Q) :
  ~ (d == 0)%Q ->
  pct (VNum (Fin n)) (VNum (Fin d)) =
  VNum (num_of_Z (Z.min 100 (round_half_up (n / d * 100)%Q))).
Proof.
  intros Hd. unfold pct. cbn [ToBoolean strict_eq_num num_eqb ToNumber].
  destruct (Qeq_bool d 0) eqn:Hz.
  - apply Qeq_bool_iff in Hz. contradiction.
  - cbn [negb orb js_div js_mul Math_round]. rewrite Hz.
    cbn [js_mul Math_round].
    change (Fin 100) with (num_of_Z 100) at 1.
    now rewrite Math_min_of_Z.
Qed.


End PctProperties.



(** ** Outcomes *)

Lemma mapM_cons {A B : Type} (f : A -> res B) (x : A) (l : list A) :
  mapM f (x :: l) = (let* y := f x in let* ys := mapM f l in Ok (y :: ys)).
Proof. reflexivity. Qed.

(** ** CSV export *)

Lemma replaceAll_dquote (s : string) :
  String_replaceAll s (String dquote "") (String dquote (String dquote ""))
  = double_quotes s.
Proof.
  unfold String_replaceAll.
  induction s as [| d s IH]; [reflexivity |].
  cbn [replaceAll_from String.length Nat.sub double_quotes].
  unfold is_prefix. cbn [strip_prefix].
  rewrite (Ascii.eqb_sym d dquote).
  destruct (Ascii.eqb dquote d); cbn [append]; now rewrite IH.
Qed.

Section CsvProperties.
Context `{Host}.

Lemma escape_is_csv_field (v : value) : escape v = csv_field (ToString v).
Proof.
  unfold escape, csv_field. now rewrite replaceAll_dquote.
Qed.

Lemma get_object (o : object) (k : string) :
  get (VObj o) k = Ok (field (VObj o) k).
Proof.
  unfold get, field. now destruct (lookup k o).
Qed.

Lemma csv_row_of_associate (a : value) (row : string * object) :
  associate_with a row -> csv_row_of a = Ok (row_object row).
Proof.
  intros (props & -> & Hname & Hmetrics & _).
  unfold csv_row_of. rewrite !get_object. unfold field at 1 2.
  rewrite Hname, Hmetrics. cbn [bind]. rewrite !get_object. reflexivity.
Qed.

Lemma mapM_csv_rows (assocs : list value) (rows : list (string * object)) :
  Forall2 associate_with assocs rows ->
  mapM csv_row_of assocs = Ok (map row_object rows).
Proof.
  induction 1 as [| a row assocs rows Ha _ IH]; [reflexivity |].
  cbn [mapM map]. rewrite (csv_row_of_associate _ _ Ha), IH. reflexivity.
Qed.

Lemma metric_cell (m : object) (k : string) :
  metric_or_absent m k ->
  ToString (js_coalesce (js_or (field (VObj m) k) (VNum (Fin 0))) (VStr ""))
  = metric_text m k.
Proof.
  unfold metric_or_absent, metric_text, field.
  intros [-> | (n & -> & Hn)]; [reflexivity |].
  destruct n as [| | | q]; try contradiction; try reflexivity.
  unfold js_or. cbn [ToBoolean].
  destruct (Qeq_bool q 0) eqn:Hz; [| reflexivity].
  cbn [negb js_coalesce nullish ToString Number_toString].
  apply Qeq_bool_iff in Hz. apply Qred_complete in Hz. rewrite Hz. reflexivity.
Qed.

Lemma row_cells (a : value) (row : string * object) :
  associate_with a row ->
  mapM (fun h =>
          let* x := get_item (row_object row) h in
          Ok (escape (js_coalesce x (VStr ""))))
       ["Name"; "Connects"; "GeoData"; "BuyerAppointments";
        "MarketAppraisals"; "ListingsGenerated"]
  = Ok (map csv_field (fst row :: map (metric_text (snd row)) KPI_KEYS)).
Proof.
  intros (props & _ & _ & _ & Hm).
  cbn [mapM get_item row_object get lookup String.eqb Ascii.eqb Bool.eqb bind].
  rewrite !escape_is_csv_field.
  rewrite !metric_cell by (apply Hm; cbn; tauto).
  reflexivity.
Qed.

Lemma csv_body (assocs : list value) (rows : list (string * object)) :
  Forall2 associate_with assocs rows ->
  mapM (fun r =>
          let* cells :=
            mapM (fun h =>
                    let* x := get_item r h in
                    Ok (escape (js_coalesce x (VStr ""))))
                 ["Name"; "Connects"; "GeoData"; "BuyerAppointments";
                  "MarketAppraisals"; "ListingsGenerated"] in
          Ok (join "," cells))
       (map row_object rows)
  = Ok (map csv_row rows).
Proof.
  induction 1 as [| a row assocs rows Ha _ IH]; [reflexivity |].
  cbn [map]. rewrite mapM_cons. cbv beta.
  rewrite (row_cells _ _ Ha). cbn [bind]. rewrite IH.
  reflexivity.
Qed.

(** C7: for a non-empty list of associates (each with a name and a metrics
    object whose metrics are absent or numbers) the export is the header
    line [Name,Connects,GeoData,BuyerAppointments,MarketAppraisals,
    ListingsGenerated] followed by one line per associate; every field of
    such a line stands between double quotes with each inner double quote
    doubled, and an absent metric is written as 0. The two fields of the
    claim are written as it says. *)
Theorem csv_export_quotes_every_field
  (assocs : list value) (rows : list (string * object)) :
  assocs <> [] ->
  Forall2 associate_with assocs rows ->
  buildCSVFromAssociates (VArr assocs) = Ok (csv_export rows) /\
  escape (VStr "a, b") = String dquote ("a, b" ++ String dquote "") /\
  escape (VStr (String dquote ("q" ++ String dquote "")))
  = String dquote (String dquote (String dquote
      ("q" ++ String dquote (String dquote (String dquote ""))))).
Proof.
  intros Hne Hrows. split; [| split; reflexivity].
  unfold buildCSVFromAssociates. cbn [as_array bind].
  rewrite (mapM_csv_rows _ _ Hrows). cbn [bind].
  destruct Hrows as [| a row assocs rows Ha Hrest]; [contradiction |].
  assert (Hall : Forall2 associate_with (a :: assocs) (row :: rows))
    by (constructor; assumption).
  change (map row_object (row :: rows))
    with (row_object row :: map row_object rows).
  unfold toCSV.
  change (Object_keys_of (row_object row))
    with (Ok ["Name"; "Connects"; "GeoData"; "BuyerAppointments";
              "MarketAppraisals"; "ListingsGenerated"]).
  cbn [bind].
  change (row_object row :: map row_object rows)
    with (map row_object (row :: rows)).
  rewrite (csv_body _ _ Hall). reflexivity.
Qed.

(** C8: the export of the empty list of associates is the empty string; no
    header line is written. *)
Theorem csv_of_no_associates_is_empty :
  toCSV [] = Ok "" /\ buildCSVFromAssociates (VArr []) = Ok "".
Proof.
  split; reflexivity.
Qed.

End CsvProperties.

Lemma csv_export_quotes_every_field_witness :
  buildCSVFromAssociates (H := exampleHost) (VArr [sample_associate])
  = Ok (csv_export (H := exampleHost) [("a, b", [("connects", VNum (Fin 12))])]) /\
  escape (H := exampleHost) (VStr "a, b")
  = String dquote ("a, b" ++ String dquote "") /\
  escape (H := exampleHost) (VStr (String dquote ("q" ++ String dquote "")))
  = String dquote (String dquote (String dquote
      ("q" ++ String dquote (String dquote (String dquote ""))))).
Proof.
  apply (csv_export_quotes_every_field (H := exampleHost)
           [sample_associate] [("a, b", [("connects", VNum (Fin 12))])]).
  - discriminate.
  - repeat constructor. eexists. repeat split.
    intros k Hk. cbn in Hk.
    destruct Hk as [<- | [<- | [<- | [<- | [<- | []]]]]];
      try (left; reflexivity).
    right. eexists. split; [reflexivity | discriminate].
Defined.

(** ** Objects as association lists *)

Lemma lookup_set_prop (k k' : string) (v : value) (o : object) :
  lookup k (set_prop k' v o) = if String.eqb k k' then Some v else lookup k o.
Proof.
  induction o as [| [k0 v0] o IH]; cbn [set_prop lookup].
  - destruct (String.eqb k k'); reflexivity.
  - destruct (String.eqb k' k0) eqn:E0; cbn [lookup].
    + apply String.eqb_eq in E0. subst k0.
      destruct (String.eqb k k'); reflexivity.
    + rewrite IH. destruct (String.eqb k k') eqn:E1; [| reflexivity].
      apply String.eqb_eq in E1. subst k'. now rewrite E0.
Qed.

Lemma lookup_in_keys (k : string) (o : object) :
  In k (Object_keys o) <-> lookup k o <> None.
Proof.
  unfold Object_keys. induction o as [| [k0 v0] o IH]; cbn [map lookup In fst].
  - tauto.
  - destruct (String.eqb k k0) eqn:E.
    + apply String.eqb_eq in E. subst. split; [discriminate | auto].
    + apply String.eqb_neq in E. rewrite <- IH. split.
      * intros [-> | Hin]; [contradiction | exact Hin].
      * auto.
Qed.

(** ** Team targets *)

Section TeamTargetsProperties.
Context `{Host}.

Lemma headcount_multiplier (len : nat) :
  Math_max (Fin 1)
    (ToNumber (js_or (VNum (num_of_Z (Z.of_nat len))) (VNum (Fin 1))))
  = num_of_Z (Z.max 1 (Z.of_nat len)).
Proof.
  unfold js_or, num_of_Z. cbn [ToBoolean].
  rewrite inject_Z_zero_test.
  destruct (Z.eqb_spec (Z.of_nat len) 0) as [Hz | Hz]; cbn [negb ToNumber].
  - assert (Hlen : len = 0%nat) by lia. subst len. reflexivity.
  - unfold Math_max, js_le.
    assert (Hpos : 1 <= Z.of_nat len) by lia.
    assert (Hle : Qle_bool 1 (inject_Z (Z.of_nat len)) = true).
    { apply Qle_bool_iff. change 1%Q with (inject_Z 1). now rewrite <- Zle_Qle. }
    rewrite Hle. now rewrite Z.max_r.
Qed.

Lemma teamTargets_fold (tg : object) (count : num) (keys : list string)
  (acc : object) :
  fold_left
    (fun acc k =>
       let* agg := acc in
       let* t := get_item (VObj tg) k in
       Ok (set_prop k
             (VNum (js_mul
                      (ToNumber (js_or (VNum (ToNumber t)) (VNum (Fin 0))))
                      count))
             agg))
    keys (Ok acc)
  = Ok (fold_left (fun agg k => set_prop k (scaled_target tg count k) agg)
          keys acc).
Proof.
  revert acc. induction keys as [| k keys IH]; intros acc; [reflexivity |].
  cbn [fold_left bind get_item]. rewrite get_object. cbn [bind].
  apply IH.
Qed.

Lemma lookup_fold_set (f : string -> value) (keys : list string)
  (acc : object) (k : string) :
  lookup k (fold_left (fun agg k' => set_prop k' (f k') agg) keys acc)
  = if in_dec string_dec k keys then Some (f k) else lookup k acc.
Proof.
  revert acc. induction keys as [| k0 keys IH]; intros acc; [reflexivity |].
  cbn [fold_left]. rewrite IH, lookup_set_prop.
  destruct (in_dec string_dec k keys) as [Hin | Hout];
    destruct (in_dec string_dec k (k0 :: keys)) as [Hin' | Hout'];
    try reflexivity.
  - exfalso. apply Hout'. now right.
  - destruct Hin' as [-> | Hin']; [| contradiction].
    now rewrite String.eqb_refl.
  - destruct (String.eqb k k0) eqn:E; [| reflexivity].
    apply String.eqb_eq in E. subst. exfalso. apply Hout'. now left.
Qed.

Lemma teamTargets_value (tg : object) (assocs : list value) :
  teamTargets (VObj tg) (VArr assocs)
  = Ok (VObj (fold_left
                (fun agg k =>
                   set_prop k
                     (scaled_target tg
                        (num_of_Z (Z.max 1 (Z.of_nat (List.length assocs)))) k)
                     agg)
                (Object_keys tg) [])).
Proof.
  unfold teamTargets. cbn [get String.eqb Ascii.eqb Bool.eqb bind].
  rewrite headcount_multiplier. cbn [Object_keys_of bind].
  rewrite teamTargets_fold. reflexivity.
Qed.

Lemma scaled_number (tg : object) (count : Z) (k : string) (n : num) :
  lookup k tg = Some (VNum n) -> n <> NaN -> 1 <= count ->
  exists r, scaled_target tg (num_of_Z count) k = VNum r /\
            num_eqb r (js_mul n (num_of_Z count)) = true.
Proof.
  intros Hk Hn Hc. unfold scaled_target, field. rewrite Hk. cbn [ToNumber].
  eexists. split; [reflexivity |].
  assert (Hc0 : Qeq_bool (inject_Z count) 0 = false).
  { rewrite inject_Z_zero_test. apply Z.eqb_neq. lia. }
  destruct n as [| | | q]; try contradiction; unfold js_or; cbn [ToBoolean ToNumber].
  - unfold num_of_Z. cbn [js_mul]. rewrite Hc0.
    destruct (Qsign_pos (inject_Z count)); reflexivity.
  - unfold num_of_Z. cbn [js_mul]. rewrite Hc0.
    destruct (Qsign_pos (inject_Z count)); reflexivity.
  - destruct (Qeq_bool q 0) eqn:Hz; cbn [negb ToNumber];
      unfold num_of_Z; cbn [js_mul num_eqb]; apply Qeq_bool_iff.
    + apply Qeq_bool_iff in Hz. rewrite Hz. reflexivity.
    + reflexivity.
Qed.


End TeamTargetsProperties.


(** ** The handlers and the metrics *)

Lemma nonnegative_when_accepted (v : num) :
  Number_isNaN v || js_lt v (Fin 0) = false ->
  nonnegative_number (VNum v) = true.
Proof.
  destruct v as [| | | q]; cbn; try discriminate; try reflexivity.
  now destruct (Qle_bool 0 q).
Qed.

Lemma metrics_ok_set (m : object) (key : string) (v : value) :
  metrics_ok m = true -> nonnegative_number v = true ->
  metrics_ok (set_prop key v m) = true.
Proof.
  unfold metrics_ok. rewrite !forallb_forall. intros Hm Hv k Hk.
  rewrite lookup_set_prop. destruct (String.eqb k key); [exact Hv |].
  now apply Hm.
Qed.

Section HandlerProperties.
Context `{Host}.

Lemma update_one_ok (id key : string) (v : num) (a : value) :
  associate_ok a = true -> nonnegative_number (VNum v) = true ->
  exists a', update_one id key v a = Ok a' /\ associate_ok a' = true.
Proof.
  intros Ha Hv. destruct a as [| | | | | | props]; try discriminate.
  unfold update_one. rewrite get_object. cbn [bind].
  destruct (strict_eq_str (field (VObj props) "id") id).
  - rewrite get_object. cbn [bind]. eexists. split; [reflexivity |].
    cbn [associate_ok field own_props] in Ha |- *.
    rewrite lookup_set_prop. cbn [String.eqb Ascii.eqb Bool.eqb].
    destruct (lookup "metrics" props) as [[| | | | | | m] |]; try discriminate.
    cbn [own_props]. now apply metrics_ok_set.
  - eexists. split; [reflexivity | exact Ha].
Qed.

Lemma update_all_ok (id key : string) (v : num) (items : list value) :
  forallb associate_ok items = true -> nonnegative_number (VNum v) = true ->
  exists items', mapM (update_one id key v) items = Ok items' /\
                 forallb associate_ok items' = true.
Proof.
  intros Hitems Hv. induction items as [| a items IH].
  - exists []. split; reflexivity.
  - cbn [forallb] in Hitems. apply andb_prop in Hitems as [Ha Hrest].
    destruct (update_one_ok id key v a Ha Hv) as (a' & Ea & Ha').
    destruct (IH Hrest) as (items' & Ei & Hi').
    exists (a' :: items'). rewrite mapM_cons, Ea. cbn [bind]. rewrite Ei.
    split; [reflexivity |]. cbn [forallb]. now rewrite Ha', Hi'.
Qed.

Lemma delete_all_ok (id : string) (items : list value) :
  forallb associate_ok items = true ->
  exists items',
    filterM (fun a => let* aid := get a "id" in Ok (negb (strict_eq_str aid id)))
      items = Ok items' /\
    forallb associate_ok items' = true.
Proof.
  induction items as [| a items IH]; intros Hitems.
  - exists []. split; reflexivity.
  - cbn [forallb] in Hitems. apply andb_prop in Hitems as [Ha Hrest].
    destruct (IH Hrest) as (items' & Ei & Hi').
    destruct a as [| | | | | | props]; try discriminate.
    cbn [filterM]. rewrite get_object. cbn [bind]. rewrite Ei. cbn [bind].
    eexists. split; [reflexivity |].
    destruct (negb (strict_eq_str (field (VObj props) "id") id)); [| exact Hi'].
    cbn [forallb]. now rewrite Ha, Hi'.
Qed.

(** C10 (as amended): [addAssociate], [updateMetric], [deleteAssociate]
    and [resetMonth] keep every metric of every associate a non-negative
    number. [addAssociate] appends an associate whose five metrics are 0 (or
    changes nothing when the name is blank), and [updateMetric] with a value
    that converts to [NaN] or to a negative number returns the state as it
    was. *)
Theorem handlers_keep_metrics_nonnegative
  (st : AppState) (w : World) (id key : string) (input : value) :
  metrics_nonnegative st = true ->
  (exists st',
      fst (addAssociate st w) = Ok st' /\ metrics_nonnegative st' = true /\
      (st' = st \/
       exists prev newId,
         associates st = VArr prev /\
         associates st' =
           VArr (prev ++ [VObj [("id", VStr newId);
                                ("name", VStr (String_trim (newName st)));
                                ("metrics", zero_metrics)]]))) /\
  (exists st',
      updateMetric st id key input = Ok st' /\ metrics_nonnegative st' = true /\
      (Number_isNaN (ToNumber input) || js_lt (ToNumber input) (Fin 0) = true ->
       st' = st)) /\
  (exists st',
      deleteAssociate st id = Ok st' /\ metrics_nonnegative st' = true) /\
  metrics_nonnegative (resetMonth st) = true.
Proof.
  intros Hinv. unfold metrics_nonnegative in Hinv.
  destruct (associates st) as [| | | | | items |] eqn:Hassoc; try discriminate.
  repeat split.
  - unfold addAssociate. destruct (String_trim (newName st)) as [| c name] eqn:Hname.
    + exists st. cbn [fst]. repeat split.
      * unfold metrics_nonnegative. now rewrite Hassoc.
      * now left.
    + rewrite Hassoc. cbn [spread_items].
      destruct (genId w) as [newId w'] eqn:Hid. cbn [fst].
      eexists. split; [reflexivity |]. split.
      * unfold metrics_nonnegative. cbn [associates set_newName set_associates].
        rewrite forallb_app, Hinv. reflexivity.
      * right. exists items, newId. split; reflexivity.
  - unfold updateMetric.
    destruct (Number_isNaN (ToNumber input) || js_lt (ToNumber input) (Fin 0))
      eqn:Hguard.
    + exists st. repeat split. unfold metrics_nonnegative. now rewrite Hassoc.
    + rewrite Hassoc. cbn [as_array bind].
      destruct (update_all_ok id key (ToNumber input) items Hinv
                  (nonnegative_when_accepted _ Hguard)) as (items' & Ei & Hi').
      rewrite Ei. cbn [bind]. eexists. split; [reflexivity |].
      split; [exact Hi' | discriminate].
  - unfold deleteAssociate. rewrite Hassoc. cbn [as_array bind].
    destruct (delete_all_ok id items Hinv) as (items' & Ei & Hi').
    rewrite Ei. cbn [bind]. eexists. split; [reflexivity | exact Hi'].
Qed.

End HandlerProperties.

Lemma handlers_keep_metrics_nonnegative_witness :
  metrics_nonnegative sampleState = true /\
  (exists st',
      updateMetric (H := exampleHost) sampleState "id-1" "connects" (VStr "-3")
      = Ok st' /\ metrics_nonnegative st' = true /\
      (Number_isNaN (ToNumber (H := exampleHost) (VStr "-3"))
       || js_lt (ToNumber (H := exampleHost) (VStr "-3")) (Fin 0)
       = true -> st' = sampleState)).
Proof.
  split; [reflexivity |].
  apply (handlers_keep_metrics_nonnegative (H := exampleHost)
           sampleState sampleWorld "id-1" "connects" (VStr "-3")).
  reflexivity.
Defined.

(** C10 (as stated) fails for [importJSON]: it stores the associates of the
    text as they are, here one with the metric [connects] at -5. *)
Lemma importJSON_stores_negative_metric :
  metrics_nonnegative sampleState = true /\
  associates
    (importJSON (H := exampleHost)
       (mkApp (month sampleState) (targets sampleState) (associates sampleState)
          "" true negative_import [] []))
  = VArr [VObj [("id", VStr "id-1"); ("name", VStr "Alex");
                ("metrics",
                 VObj [("connects", VNum (num_of_Z (-5)));
                       ("geoData", VNum (num_of_Z 0));
                       ("buyerAppointments", VNum (num_of_Z 0));
                       ("marketAppraisals", VNum (num_of_Z 0));
                       ("listingsGenerated", VNum (num_of_Z 0))])]] /\
  metrics_nonnegative
    (importJSON (H := exampleHost)
       (mkApp (month sampleState) (targets sampleState) (associates sampleState)
          "" true negative_import [] []))
  = false.
Proof.
  repeat split; vm_compute; reflexivity.
Qed.

(** ** Identifiers *)

Lemma Z_to_string_inj (a b : Z) : Z_to_string a = Z_to_string b -> a = b.
Proof.
  unfold Z_to_string. intros Heq.
  assert (Hint : Z.to_int a = Z.to_int b).
  { pose proof (NilEmpty.isi (Z.to_int a)) as Ha.
    pose proof (NilEmpty.isi (Z.to_int b)) as Hb.
    rewrite Heq in Ha. congruence. }
  rewrite <- (DecimalZ.of_to a), <- (DecimalZ.of_to b). now rewrite Hint.
Qed.

Lemma digit36_not_dash (d : nat) : Ascii.eqb "-" (digit36 d) = false.
Proof.
  unfold digit36.
  assert (Hlt : (d mod 36 < 36)%nat) by (apply Nat.mod_upper_bound; discriminate).
  assert (Hall :
    forallb (fun i =>
               negb (Ascii.eqb "-"
                       match String.get i base36 with
                       | Some c => c
                       | None => "0"%char
                       end)) (seq 0 36) = true)
    by (vm_compute; reflexivity).
  rewrite forallb_forall in Hall.
  specialize (Hall (d mod 36)%nat). apply negb_true_iff, Hall.
  apply in_seq. lia.
Qed.

Lemma has_char_substring (c : ascii) (s : string) (n m : nat) :
  has_char c s = false -> has_char c (substring n m s) = false.
Proof.
  revert n m. induction s as [| d s IH]; intros n m Hs.
  - destruct n, m; reflexivity.
  - cbn [has_char] in Hs. apply orb_false_iff in Hs as [Hd Hrest].
    destruct n as [| n]; destruct m as [| m]; cbn [substring has_char];
      try reflexivity; try (now apply IH).
    rewrite Hd. now apply IH.
Qed.

Lemma random_suffix_no_dash (digits : list nat) :
  has_char "-" (random_suffix digits) = false.
Proof.
  unfold random_suffix, String_slice, fraction_toString36.
  destruct digits as [| d digits]; [reflexivity |].
  apply has_char_substring.
  cbn [append has_char Ascii.eqb Bool.eqb orb].
  generalize (d :: digits). intros l.
  induction l as [| x l IH]; [reflexivity |].
  cbn [map string_of_chars has_char]. now rewrite digit36_not_dash.
Qed.

Lemma split_at_first_dash (r1 r2 s1 s2 : string) :
  has_char "-" r1 = false -> has_char "-" r2 = false ->
  r1 ++ String "-" s1 = r2 ++ String "-" s2 -> r1 = r2 /\ s1 = s2.
Proof.
  revert r2. induction r1 as [| c r1 IH]; intros [| d r2] H1 H2 Heq;
    cbn [append has_char] in *.
  - injection Heq as ->. now split.
  - injection Heq as <- _. apply orb_false_iff in H2 as [H2 _]. discriminate.
  - injection Heq as -> _. apply orb_false_iff in H1 as [H1 _]. discriminate.
  - injection Heq as -> Heq. apply orb_false_iff in H1 as [_ H1].
    apply orb_false_iff in H2 as [_ H2].
    destruct (IH r2 H1 H2 Heq) as [-> ->]. now split.
Qed.

Lemma startsWith_append (p s : string) : startsWith (p ++ s) p = true.
Proof.
  unfold startsWith, is_prefix. induction p as [| c p IH]; [reflexivity |].
  cbn [append strip_prefix]. now rewrite Ascii.eqb_refl.
Qed.

Lemma genId_without_generator (w : World) :
  randomUUID w = None ->
  genId w =
  ("id-" ++ random_suffix (random_digits w (random_calls w)) ++ "-"
   ++ Z_to_string (clock w (clock_calls w)),
   mkWorld None (uuid_calls w) (random_digits w) (S (random_calls w))
     (clock w) (S (clock_calls w))).
Proof.
  intros Hnone.
  unfold genId, genId_fallback, Math_random_toString36, Date_now.
  rewrite Hnone. reflexivity.
Qed.

(** C9 (as amended): where no UUID generator is available, two consecutive
    identifiers both start with the prefix [id-], and they are the same
    exactly when the two random suffixes are the same and the two clock
    readings are the same. *)
Theorem genId_fallback_prefix_and_distinctness (w : World) :
  randomUUID w = None ->
  let a := fst (genId w) in
  let b := fst (genId (snd (genId w))) in
  startsWith a "id-" = true /\
  startsWith b "id-" = true /\
  (a = b <->
   random_suffix (random_digits w (random_calls w))
   = random_suffix (random_digits w (S (random_calls w))) /\
   clock w (clock_calls w) = clock w (S (clock_calls w))).
Proof.
  intros Hnone. cbv zeta. rewrite (genId_without_generator w Hnone).
  cbn [fst snd]. rewrite genId_without_generator by reflexivity.
  cbn [fst randomUUID random_digits random_calls clock clock_calls].
  split; [apply startsWith_append | split; [apply startsWith_append |]]. split.
  - intros Heq. cbn [append] in Heq. injection Heq as Heq.
    apply split_at_first_dash in Heq; try apply random_suffix_no_dash.
    destruct Heq as [Hr Ht]. split; [exact Hr |]. now apply Z_to_string_inj.
  - intros [-> ->]. reflexivity.
Qed.

Lemma genId_fallback_prefix_and_distinctness_witness :
  let a := fst (genId sampleWorld) in
  let b := fst (genId (snd (genId sampleWorld))) in
  startsWith a "id-" = true /\
  startsWith b "id-" = true /\
  (a = b <->
   random_suffix (random_digits sampleWorld (random_calls sampleWorld))
   = random_suffix (random_digits sampleWorld (S (random_calls sampleWorld))) /\
   clock sampleWorld (clock_calls sampleWorld)
   = clock sampleWorld (S (clock_calls sampleWorld))).
Proof.
  apply (genId_fallback_prefix_and_distinctness sampleWorld). reflexivity.
Defined.

(** C9 (as stated) fails: when the random outcome and the clock reading
    repeat, two consecutive identifiers are the same. *)
Lemma genId_can_repeat :
  fst (genId stuckWorld) = "id-4fz-1700000000000" /\
  fst (genId (snd (genId stuckWorld))) = "id-4fz-1700000000000".
Proof.
  split; vm_compute; reflexivity.
Qed.

(** Where a UUID generator is available its answer is returned as it is,
    whatever it starts with. *)
Lemma genId_with_generator (w : World) (gen : nat -> option string) (u : string) :
  randomUUID w = Some gen -> gen (uuid_calls w) = Some u -> fst (genId w) = u.
Proof.
  intros Hgen Hu. unfold genId. now rewrite Hgen, Hu.
Qed.

(** ** Import *)

Section ImportProperties.
Context `{Host}.

(** C2 (as amended): [importJSON] succeeds exactly when the text parses as
    an object whose keys [month], [targets] and [associates] all hold a
    truthy value; it then replaces month, targets and associates by these
    values, closes the dialog and empties the text. In every other case
    (text that does not parse, a value that is no object, a key that is
    absent or holds a falsy value) it reports one alert titled
    [Import failed] and changes nothing else. *)
Theorem importJSON_all_or_nothing (st : AppState) :
  match accepted_import (importText st) with
  | Some (m, t, a) =>
      importJSON st = mkApp m t a (newName st) false "" (alerts st) (console st)
  | None =>
      exists msg, importJSON st = Alert_alert st "Import failed" msg
  end.
Proof.
  unfold accepted_import, importJSON, import_attempt.
  destruct (JSON_parse (importText st)) as [obj | e]; cbn [bind].
  2:{ eexists. reflexivity. }
  destruct obj as [| | b | n | s | items | o];
    try (cbn [ToBoolean typeof_object negb orb andb]; eexists; reflexivity).
  - destruct (negb (ToBoolean (VBool b)) || negb (typeof_object (VBool b)));
      eexists; reflexivity.
  - destruct (negb (ToBoolean (VNum n)) || negb (typeof_object (VNum n)));
      eexists; reflexivity.
  - destruct (negb (ToBoolean (VStr s)) || negb (typeof_object (VStr s)));
      eexists; reflexivity.
  - cbn [ToBoolean typeof_object negb orb]. rewrite !get_object.
    cbn [bind]. unfold field.
    destruct (lookup "month" o) as [m |];
      destruct (lookup "targets" o) as [t |];
      destruct (lookup "associates" o) as [a |];
      cbn [ToBoolean andb];
      rewrite ?andb_false_r;
      try (eexists; reflexivity).
    destruct (ToBoolean m && ToBoolean t && ToBoolean a);
      [reflexivity | eexists; reflexivity].
Qed.

End ImportProperties.

(** C2 (as stated) fails: a text that parses as an object with the three
    keys present is refused when the month it carries is the empty string. *)
Lemma importJSON_refuses_empty_month :
  JSON_parse (H := exampleHost) empty_month_import
  = Ok (VObj [("month", VStr ""); ("targets", VObj []); ("associates", VArr [])]) /\
  importJSON (H := exampleHost)
    (mkApp (VStr "2025-08") DEFAULT_TARGETS (VArr []) "" true
       empty_month_import [] [])
  = mkApp (VStr "2025-08") DEFAULT_TARGETS (VArr []) "" true
      empty_month_import
      [("Import failed", "JSON missing keys {month, targets, associates}")] [].
Proof.
  split; vm_compute; reflexivity.
Qed.

(** ** The window of the email task *)

(** For an integer hour the test of the task compares minutes of one and
    the same day. *)
Lemma withinWindow_same_day `{Host} (hour : Z) (d : Date) :
  withinWindow (num_of_Z hour) d
  = (Z.abs (getHours d * 60 + getMinutes d - hour * 60) <=? 30).
Proof.
  unfold withinWindow, num_of_Z, js_sub.
  cbn [js_mul js_add num_neg Math_abs js_le].
  set (x := getHours d * 60 + getMinutes d - hour * 60).
  assert (Hx : (inject_Z (getHours d) * 60 + inject_Z (getMinutes d)
                + - (inject_Z hour * 60) == inject_Z x)%Q).
  { unfold x. unfold Z.sub.
    rewrite !inject_Z_plus, inject_Z_opp, !inject_Z_mult.
    change (inject_Z 60) with 60%Q. ring. }
  apply Bool.eq_iff_eq_true.
  rewrite Qle_bool_iff, Z.leb_le, Zle_Qle, Hx. reflexivity.
Qed.

(** Outside the window of its test the task returns [NoData], whatever the
    webhook: here for readable settings and no stored month. *)
Lemma emailTask_outside_window `{Host} (env : TaskEnv)
  (to webhook hour : option string) :
  getItem env LS_KEY = Ok None ->
  getItem env EMAIL_TO_KEY = Ok to ->
  getItem env EMAIL_WEBHOOK_URL_KEY = Ok webhook ->
  getItem env SEND_HOUR_KEY = Ok hour ->
  withinWindow
    (ToNumber (js_or (item_value hour) (VNum (num_of_Z DEFAULT_SEND_HOUR))))
    (now env) = false ->
  emailTask env = NoData.
Proof.
  intros Hraw Hto Hweb Hhour Hout. unfold emailTask, emailTask_body.
  rewrite Hraw. cbn [bind item_value ToBoolean get_item].
  rewrite get_object. cbn [bind]. rewrite Hto. cbn [bind].
  rewrite Hweb. cbn [bind]. rewrite Hhour. cbn [bind].
  now rewrite Hout.
Qed.

(** C6: with the hour 0 configured, a webhook configured and the local time
    23:45, the time is 15 minutes away from the configured hour on the
    clock, and the task returns [NoData] without sending. *)
Theorem emailTask_skips_before_midnight :
  within_30_minutes_of 0 (now (taskEnv_at "0" 23 45)) = true /\
  emailTask (H := exampleHost) (taskEnv_at "0" 23 45) = NoData /\
  emailTask (H := exampleHost) (taskEnv_at "0" 0 15) = NewData.
Proof.
  repeat split; vm_compute; reflexivity.
Qed.

(** ** Stable sorting *)

Section StableSort.
Variable cmp : value -> value -> num.
Variable good : value -> Prop.

Hypothesis goes_after_asym :
  forall x y, good x -> good y ->
    goes_after cmp x y = true -> goes_after cmp y x = false.
Hypothesis not_after_trans :
  forall x y z, good x -> good y -> good z ->
    goes_after cmp x y = false -> goes_after cmp y z = false ->
    goes_after cmp x z = false.

Lemma sort_insert_perm (x : value) (l : list value) :
  Permutation (x :: l) (sort_insert cmp x l).
Proof.
  induction l as [| y l IH]; [reflexivity |].
  cbn [sort_insert]. destruct (js_lt (Fin 0) (cmp x y)); [| reflexivity].
  rewrite perm_swap. now constructor.
Qed.

Lemma Array_sort_perm (l : list value) : Permutation l (Array_sort cmp l).
Proof.
  induction l as [| x l IH]; [reflexivity |].
  cbn [Array_sort]. rewrite <- sort_insert_perm. now constructor.
Qed.

Lemma sort_insert_sorted (x : value) (l : list value) :
  good x -> Forall good l ->
  StronglySorted (fun a b => goes_after cmp a b = false) l ->
  StronglySorted (fun a b => goes_after cmp a b = false) (sort_insert cmp x l).
Proof.
  intros Hx Hl Hs. induction Hs as [| y l Hs IH Hy].
  - repeat constructor.
  - inversion Hl as [| ? ? Hgy Hgl]; subst.
    cbn [sort_insert]. fold (goes_after cmp x y).
    destruct (goes_after cmp x y) eqn:Hxy.
    + constructor; [now apply IH |].
      apply (Permutation_Forall (sort_insert_perm x l)).
      constructor; [| exact Hy]. now apply goes_after_asym.
    + constructor; [now constructor |]. constructor; [exact Hxy |].
      rewrite Forall_forall in Hy, Hgl |- *. intros z Hz.
      apply (not_after_trans x y z); auto.
Qed.

Lemma Array_sort_sorted (l : list value) :
  Forall good l ->
  StronglySorted (fun a b => goes_after cmp a b = false) (Array_sort cmp l).
Proof.
  induction 1 as [| x l Hx Hl IH]; [constructor |].
  cbn [Array_sort]. apply sort_insert_sorted; auto.
  now apply (Permutation_Forall (Array_sort_perm l)).
Qed.

Lemma sort_insert_stable (z x : value) (l : list value) :
  good z -> good x -> Forall good l ->
  filter (tied cmp z) (sort_insert cmp x l) = filter (tied cmp z) (x :: l).
Proof.
  intros Hz Hx Hl. induction Hl as [| y l Hy Hl IH]; [reflexivity |].
  cbn [sort_insert]. fold (goes_after cmp x y).
  destruct (goes_after cmp x y) eqn:Hxy; [| reflexivity].
  cbn [filter] in IH |- *. rewrite IH.
  destruct (tied cmp z x) eqn:Hzx; [| reflexivity].
  destruct (tied cmp z y) eqn:Hzy; [| reflexivity].
  exfalso. unfold tied in Hzx, Hzy.
  apply andb_prop in Hzx as [_ Hxz]. apply andb_prop in Hzy as [Hzy _].
  apply negb_true_iff in Hxz, Hzy.
  rewrite (not_after_trans x z y Hx Hz Hy Hxz Hzy) in Hxy. discriminate.
Qed.

Lemma Array_sort_stable (z : value) (l : list value) :
  good z -> Forall good l ->
  filter (tied cmp z) (Array_sort cmp l) = filter (tied cmp z) l.
Proof.
  intros Hz Hl. induction Hl as [| x l Hx Hl IH]; [reflexivity |].
  cbn [Array_sort]. rewrite sort_insert_stable; auto.
  - cbn [filter]. now rewrite IH.
  - now apply (Permutation_Forall (Array_sort_perm l)).
Qed.

End StableSort.

Lemma StronglySorted_weaken {A : Type} (R R' : A -> A -> Prop) (good : A -> Prop)
  (l : list A) :
  (forall x y, good x -> good y -> R x y -> R' x y) ->
  Forall good l -> StronglySorted R l -> StronglySorted R' l.
Proof.
  intros Himp Hl Hs. induction Hs as [| x l Hs IH Hx]; [constructor |].
  inversion Hl as [| ? ? Hgx Hgl]; subst. constructor; [now apply IH |].
  rewrite Forall_forall in Hx, Hgl |- *. intros y Hy. apply Himp; auto.
Qed.

(** ** The leaderboard *)

Lemma Qred_zero (q : Q) : Qred q = q -> (q == 0)%Q -> q = 0%Q.
Proof.
  intros Hred Hz. rewrite <- Hred. now apply Qred_complete in Hz.
Qed.

Section LeaderboardProperties.
Context `{Host}.

Lemma entry_number_lookup (o : object) (k : string) (q : Q) :
  lookup k o = Some (VNum (Fin q)) -> entry_number (VObj o) k = q.
Proof.
  intros Hk. unfold entry_number, field. now rewrite Hk.
Qed.

Lemma goes_after_false_iff (x y : value) :
  rankable_entry x -> rankable_entry y ->
  goes_after by_listings_then_progress x y = false <-> ranks_no_lower x y.
Proof.
  intros (ox & lx & px & -> & Hlx & Hpx) (oy & ly & py & -> & Hly & Hpy).
  unfold ranks_no_lower.
  rewrite (entry_number_lookup _ _ _ Hlx), (entry_number_lookup _ _ _ Hly),
    (entry_number_lookup _ _ _ Hpx), (entry_number_lookup _ _ _ Hpy).
  unfold goes_after, by_listings_then_progress, field.
  rewrite Hlx, Hly, Hpx, Hpy. cbn [ToNumber js_sub num_neg js_add ToBoolean].
  destruct (Qeq_bool (ly + - lx) 0) eqn:Hz; cbn [negb js_lt].
  - apply Qeq_bool_iff in Hz. rewrite negb_false_iff, Qle_bool_iff. split.
    + intros Hp. right. split; lra.
    + intros [Hlt | [_ Hle]]; lra.
  - apply Qeq_bool_false_neq in Hz. rewrite negb_false_iff, Qle_bool_iff. split.
    + intros Hl. left. lra.
    + intros [Hlt | [Heq _]]; [lra |]. exfalso. apply Hz. lra.
Qed.

Lemma goes_after_asym (x y : value) :
  rankable_entry x -> rankable_entry y ->
  goes_after by_listings_then_progress x y = true ->
  goes_after by_listings_then_progress y x = false.
Proof.
  intros Hx Hy Hxy. apply goes_after_false_iff; auto.
  assert (Hn : ~ ranks_no_lower x y).
  { intros Hr. apply (goes_after_false_iff x y Hx Hy) in Hr. congruence. }
  unfold ranks_no_lower in *.
  destruct (Qlt_le_dec (entry_number x "listings") (entry_number y "listings"))
    as [Hlt | Hle]; [now left |].
  right.
  destruct (Qlt_le_dec (entry_number y "listings") (entry_number x "listings"))
    as [Hlt' | Hle']; [exfalso; apply Hn; now left |].
  assert (Heq : (entry_number x "listings" == entry_number y "listings")%Q) by lra.
  split; [lra |].
  destruct (Qlt_le_dec (entry_number x "progress") (entry_number y "progress"))
    as [Hp | Hp]; [lra |].
  exfalso. apply Hn. right. split; assumption.
Qed.

Lemma not_after_trans (x y z : value) :
  rankable_entry x -> rankable_entry y -> rankable_entry z ->
  goes_after by_listings_then_progress x y = false ->
  goes_after by_listings_then_progress y z = false ->
  goes_after by_listings_then_progress x z = false.
Proof.
  intros Hx Hy Hz Hxy Hyz.
  apply goes_after_false_iff in Hxy; auto. apply goes_after_false_iff in Hyz; auto.
  apply goes_after_false_iff; auto. unfold ranks_no_lower in *.
  destruct Hxy as [Hxy | [Hxy Hxy']]; destruct Hyz as [Hyz | [Hyz Hyz']].
  - left. lra.
  - left. lra.
  - left. lra.
  - right. split; lra.
Qed.

Lemma tied_same_rank (x y : value) :
  rankable_entry x -> rankable_entry y ->
  tied by_listings_then_progress x y = same_rank x y.
Proof.
  intros Hx Hy. unfold tied, same_rank. apply Bool.eq_iff_eq_true.
  rewrite !andb_true_iff, !negb_true_iff, !Qeq_bool_iff.
  rewrite (goes_after_false_iff x y Hx Hy), (goes_after_false_iff y x Hy Hx).
  unfold ranks_no_lower. split.
  - intros [[Ha | [Ha Ha']] [Hb | [Hb Hb']]]; split; lra.
  - intros [Hl Hp]. split; right; split; lra.
Qed.

Lemma pct_of_finite (q : Q) (t : value) :
  t = VUndef \/ (exists d, t = VNum (Fin d)) ->
  exists z, pct (VNum (Fin q)) t = VNum (num_of_Z z).
Proof.
  intros [-> | (d & ->)].
  - exists 0. reflexivity.
  - destruct (Qeq_bool d 0) eqn:Hz.
    + exists 0. apply pct_falsy_target. cbn. now rewrite Hz.
    + eexists. apply pct_finite. now apply Qeq_bool_false_neq.
Qed.

Lemma metric_value_of_finite (m : object) (k : string) :
  finite_or_absent m k ->
  js_or (field (VObj m) k) (VNum (Fin 0)) = metric_value m k /\
  exists q, metric_value m k = VNum (Fin q).
Proof.
  unfold finite_or_absent, metric_value, field, js_or.
  intros [-> | (q & -> & Hred)].
  - split; [reflexivity | now exists 0%Q].
  - split; [| now exists q]. cbn [ToBoolean].
    destruct (Qeq_bool q 0) eqn:Hz; [| reflexivity].
    apply Qeq_bool_iff in Hz. cbn [negb]. now rewrite (Qred_zero q Hred Hz).
Qed.

Lemma field_of_target (tg : object) (k : string) :
  (lookup k tg = None \/ exists q, lookup k tg = Some (VNum (Fin q))) ->
  field (VObj tg) k = VUndef \/ exists d, field (VObj tg) k = VNum (Fin d).
Proof.
  unfold field. intros [-> | (q & ->)]; [now left | right; now exists q].
Qed.

Lemma progress_fold (tg m : object) (keys : list string) (q0 : Q) :
  (forall k, In k keys -> finite_or_absent m k) ->
  (forall k, In k keys ->
     lookup k tg = None \/ exists q, lookup k tg = Some (VNum (Fin q))) ->
  fold_left
    (fun acc k =>
       let* sum := acc in
       let* x := get_item (VObj m) k in
       let* t := get_item (VObj tg) k in
       Ok (js_add sum (ToNumber (pct (js_or x (VNum (Fin 0))) t))))
    keys (Ok (Fin q0))
  = Ok (fold_left
          (fun sum k =>
             js_add sum (ToNumber (pct (metric_value m k) (field (VObj tg) k))))
          keys (Fin q0)) /\
  exists q,
    fold_left
      (fun sum k =>
         js_add sum (ToNumber (pct (metric_value m k) (field (VObj tg) k))))
      keys (Fin q0) = Fin q.
Proof.
  revert q0. induction keys as [| k keys IH]; intros q0 Hm Ht.
  - split; [reflexivity | now exists q0].
  - cbn [fold_left bind get_item]. rewrite !get_object. cbn [bind].
    destruct (metric_value_of_finite m k (Hm k (or_introl eq_refl)))
      as (Hor & qm & Hqm).
    rewrite Hor, Hqm.
    destruct (pct_of_finite qm (field (VObj tg) k)
                (field_of_target tg k (Ht k (or_introl eq_refl)))) as (z & Hz).
    rewrite Hz. cbn [ToNumber js_add num_of_Z].
    apply IH; intros k' Hk'; [apply Hm | apply Ht]; now right.
Qed.

Lemma progress_of_value (tg m : object) :
  (forall k, In k KPI_KEYS -> finite_or_absent m k) -> rankable_targets tg ->
  progress_of (VObj tg) (VObj m) = Ok (average_progress (VObj tg) m) /\
  exists p, average_progress (VObj tg) m = Fin p.
Proof.
  intros Hm Ht. unfold progress_of, average_progress.
  change (Object_keys KPI_LABELS) with KPI_KEYS.
  destruct (progress_fold tg m KPI_KEYS 0 Hm Ht) as (Hfold & q & Hq).
  rewrite Hfold. cbn [bind]. split; [reflexivity |].
  rewrite Hq. eexists. reflexivity.
Qed.

Lemma leaderboard_item_value (tg : object) (a : value) :
  rankable_associate a -> rankable_targets tg ->
  leaderboard_item (VObj tg) a = Ok (leaderboard_entry (VObj tg) a) /\
  rankable_entry (leaderboard_entry (VObj tg) a).
Proof.
  intros (props & m & -> & Hmetrics & Hm) Ht.
  destruct (progress_of_value tg m Hm Ht) as (Hprog & p & Hp).
  destruct (metric_value_of_finite m "listingsGenerated") as (Hor & l & Hl).
  { apply Hm. cbn. tauto. }
  assert (Hfm : field (VObj props) "metrics" = VObj m)
    by (unfold field; now rewrite Hmetrics).
  unfold leaderboard_item, leaderboard_entry, metrics_of.
  rewrite !get_object, !Hfm. cbn [bind]. rewrite Hprog. cbn [bind].
  rewrite get_object. cbn [bind]. rewrite Hor. split; [reflexivity |].
  rewrite Hl, Hp. eexists _, l, p. split; [reflexivity |]. split; reflexivity.
Qed.

Lemma leaderboard_items (tg : object) (assocs : list value) :
  Forall rankable_associate assocs -> rankable_targets tg ->
  mapM (leaderboard_item (VObj tg)) assocs
  = Ok (map (leaderboard_entry (VObj tg)) assocs) /\
  Forall rankable_entry (map (leaderboard_entry (VObj tg)) assocs).
Proof.
  intros Ha Ht. induction Ha as [| a assocs Ha _ [IHm IHf]].
  - split; [reflexivity | constructor].
  - destruct (leaderboard_item_value tg a Ha Ht) as [Hitem Hentry].
    rewrite mapM_cons, Hitem. cbn [bind]. rewrite IHm. cbn [bind map].
    split; [reflexivity | now constructor].
Qed.


End LeaderboardProperties.

Lemma seed_rankable : Forall rankable_associate seedAssociates.
Proof.
  repeat constructor; eexists _, _; (split; [reflexivity |]);
    (split; [reflexivity |]); intros k Hk; cbn in Hk;
    destruct Hk as [<- | [<- | [<- | [<- | [<- | []]]]]];
    right; eexists; split; reflexivity.
Qed.

Lemma default_targets_rankable : rankable_targets (own_props DEFAULT_TARGETS).
Proof.
  intros k Hk. cbn in Hk.
  destruct Hk as [<- | [<- | [<- | [<- | [<- | []]]]]];
    right; eexists; reflexivity.
Qed.


(** On the seeded associates: Bianca, who has a listing, comes first; Alex
    and Chris have none and follow by progress. *)
Example leaderboard_of_seed :
  match leaderboard (H := exampleHost) (VArr seedAssociates) DEFAULT_TARGETS with
  | Ok l => map (fun x => field x "name") l
  | Throw _ => []
  end = [VStr "Bianca"; VStr "Alex"; VStr "Chris"].
Proof. vm_compute. reflexivity. Qed.

(** ** JSON text: reading back what was written *)

Lemma length_append (a b : string) :
  String.length (a ++ b) = (String.length a + String.length b)%nat.
Proof.
  induction a as [| c a IH]; [reflexivity |]. cbn. now rewrite IH.
Qed.

Lemma append_empty (a : string) : a ++ "" = a.
Proof.
  induction a as [| c a IH]; [reflexivity |]. cbn. now rewrite IH.
Qed.

Lemma append_assoc (a b c : string) : (a ++ b) ++ c = a ++ (b ++ c).
Proof.
  induction a as [| x a IH]; [reflexivity |]. cbn. now rewrite IH.
Qed.

Lemma value_start_facts (c : ascii) :
  value_start c = true ->
  is_json_space c = false /\ Ascii.eqb c "]" = false /\ Ascii.eqb c "}" = false.
Proof.
  destruct c as [[] [] [] [] [] [] [] []]; cbn; intros Hc;
    try discriminate Hc; repeat split.
Qed.

Lemma ends_value_facts (c : ascii) (r : string) :
  ends_value (String c r) = true ->
  digit_of_ascii c = None /\ Ascii.eqb c "." = false /\
  Ascii.eqb c "e" = false /\ Ascii.eqb c "E" = false /\
  Ascii.eqb c "-" = false.
Proof.
  cbn [ends_value]. intros Hc.
  apply orb_true_iff in Hc as [Hc | Hc];
    [apply orb_true_iff in Hc as [Hc | Hc] |];
    apply Ascii.eqb_eq in Hc; subst c; repeat split.
Qed.

Lemma digit_char_facts (c : ascii) (d : Decimal.uint -> Decimal.uint) :
  digit_of_ascii c = Some d ->
  value_start c = true /\ Ascii.eqb c "-" = false.
Proof.
  destruct c as [[] [] [] [] [] [] [] []]; cbn; intros Hc;
    try discriminate Hc; split; reflexivity.
Qed.

Lemma take_digits_written (u : Decimal.uint) (rest : string) :
  ends_value rest = true ->
  take_digits (NilEmpty.string_of_uint u ++ rest) = (u, rest).
Proof.
  intros Hrest. induction u; cbn [NilEmpty.string_of_uint append take_digits];
    try (cbn [digit_of_ascii]; now rewrite IHu).
  destruct rest as [| c r]; [reflexivity |].
  cbn [take_digits]. destruct (ends_value_facts c r Hrest) as (Hd & _).
  now rewrite Hd.
Qed.

Lemma written_digits_start (u : Decimal.uint) :
  u <> Decimal.Nil ->
  exists c t d, NilEmpty.string_of_uint u = String c t /\ digit_of_ascii c = Some d.
Proof.
  destruct u; [contradiction | ..]; intros _; cbn [NilEmpty.string_of_uint];
    eexists _, _, _; split; reflexivity.
Qed.

Lemma positive_digits_normal (p : positive) :
  json_int_digits (Pos.to_uint p) = true.
Proof.
  assert (Hnorm : Decimal.unorm (Pos.to_uint p) = Pos.to_uint p).
  { pose proof (DecimalPos.Unsigned.to_of (Pos.to_uint p)) as Hto.
    rewrite DecimalPos.Unsigned.of_to in Hto. symmetry. exact Hto. }
  pose proof (DecimalPos.Unsigned.to_uint_nonnil p) as Hnil.
  destruct (Pos.to_uint p) as [| u | u | u | u | u | u | u | u | u | u] eqn:E;
    try reflexivity; [contradiction |].
  destruct u; try reflexivity; exfalso;
    rewrite unorm_D0 in Hnorm;
    match type of Hnorm with
    | Decimal.unorm ?v = _ =>
        assert (Hv : v <> Decimal.Nil) by discriminate;
        pose proof (nb_digits_unorm v Hv) as Hlen;
        rewrite Hnorm in Hlen; cbn [Decimal.nb_digits] in Hlen; lia
    end.
Qed.

Lemma Z_of_written_digits (p : positive) : Z.of_uint (Pos.to_uint p) = Z.pos p.
Proof.
  unfold Z.of_uint. now rewrite DecimalPos.Unsigned.of_to.
Qed.

Lemma scan_delimiter (rest : string) :
  ends_value rest = true ->
  after_char "." rest = None /\ scan_exponent rest = Some (None, rest).
Proof.
  intros Hrest. destruct rest as [| c r]; [split; reflexivity |].
  destruct (ends_value_facts c r Hrest) as (_ & Hdot & He & HE & _).
  unfold after_char, scan_exponent. now rewrite Hdot, He, HE.
Qed.

Lemma scan_unsigned_written (neg : bool) (p : positive) (rest : string) :
  ends_value rest = true ->
  (let (i, r1) := take_digits (NilEmpty.string_of_uint (Pos.to_uint p) ++ rest) in
   if json_int_digits i then
     let frac :=
       match after_char "." r1 with
       | Some r2 =>
           let (f, r3) := take_digits r2 in
           if is_Nil f then None else Some (Some f, r3)
       | None => Some (None, r1)
       end in
     match frac with
     | None => None
     | Some (f, r3) =>
         match scan_exponent r3 with
         | None => None
         | Some (e, r4) => Some (decimal_value neg i f e, r4)
         end
     end
   else None)
  = Some (Fin (inject_Z (if neg then - Z.pos p else Z.pos p)), rest).
Proof.
  intros Hrest. rewrite (take_digits_written _ _ Hrest).
  rewrite positive_digits_normal.
  destruct (scan_delimiter rest Hrest) as [Hdot Hexp].
  rewrite Hdot. cbv zeta iota beta. rewrite Hexp.
  unfold decimal_value. now rewrite Z_of_written_digits.
Qed.

Lemma scan_json_number_written (z : Z) (rest : string) :
  ends_value rest = true ->
  scan_json_number (Z_to_string z ++ rest) = Some (Fin (inject_Z z), rest).
Proof.
  intros Hrest. unfold Z_to_string, scan_json_number.
  destruct z as [| p | p]; cbn [Z.to_int NilEmpty.string_of_int].
  - cbn [NilEmpty.string_of_uint append after_char Ascii.eqb Bool.eqb].
    change (String "0" rest) with (NilEmpty.string_of_uint (Decimal.D0 Decimal.Nil) ++ rest).
    rewrite (take_digits_written _ _ Hrest). cbn [json_int_digits].
    destruct (scan_delimiter rest Hrest) as [Hdot Hexp].
    rewrite Hdot. cbv zeta iota beta. now rewrite Hexp.
  - destruct (written_digits_start (Pos.to_uint p)
                (DecimalPos.Unsigned.to_uint_nonnil p)) as (c & t & d & Ht & Hc).
    assert (Hminus : after_char "-" (NilEmpty.string_of_uint (Pos.to_uint p) ++ rest)
                     = None).
    { rewrite Ht. cbn [append after_char].
      now rewrite (proj2 (digit_char_facts c d Hc)). }
    rewrite Hminus. apply (scan_unsigned_written false p rest Hrest).
  - cbn [append after_char]. rewrite Ascii.eqb_refl.
    apply (scan_unsigned_written true p rest Hrest).
Qed.

Lemma scan_quote_char (c : ascii) (t s' rest' : string) :
  scan_json_string t = Some (s', rest') ->
  scan_json_string (quote_char c ++ t) = Some (String c s', rest').
Proof.
  intros Ht.
  destruct c as [[] [] [] [] [] [] [] []];
    match goal with
    | |- context [quote_char ?c] =>
        let q := eval vm_compute in (quote_char c) in
        change (quote_char c) with q
    end;
    cbn; rewrite Ht; reflexivity.
Qed.

Lemma scan_quoted (s rest : string) :
  scan_json_string (quote_chars s ++ String dquote rest) = Some (s, rest).
Proof.
  induction s as [| c s IH]; [reflexivity |].
  cbn [quote_chars]. rewrite append_assoc. now apply scan_quote_char.
Qed.

Lemma Qred_integer (z : Z) : Qred (z # 1) = z # 1.
Proof.
  unfold Qred.
  pose proof (Z.ggcd_gcd z 1) as Hg.
  pose proof (Z.ggcd_correct_divisors z 1) as Hd.
  destruct (Z.ggcd z 1) as [g [aa bb]]. cbn [fst snd] in *.
  rewrite Z.gcd_1_r in Hg. subst g. destruct Hd as [Ha Hb].
  rewrite Z.mul_1_l in Ha, Hb. now subst aa bb.
Qed.

Lemma object_of_members_distinct (ms acc : list (string * value)) :
  distinct_keys (map fst (acc ++ ms)) = true ->
  fold_left (fun o kv => set_prop (fst kv) (snd kv) o) ms acc = (acc ++ ms)%list.
Proof.
  revert acc. induction ms as [| [k v] ms IH]; intros acc Hd.
  - now rewrite List.app_nil_r.
  - cbn [fold_left fst snd].
    assert (Hset : set_prop k v acc = (acc ++ [(k, v)])%list).
    { clear IH. induction acc as [| [k0 v0] acc IHacc]; [reflexivity |].
      cbn [app map fst distinct_keys] in Hd.
      apply andb_prop in Hd as [Hk0 Hrest].
      cbn [set_prop app]. destruct (String.eqb k k0) eqn:E.
      - apply String.eqb_eq in E. subst k0. exfalso.
        apply negb_true_iff in Hk0.
        assert (Hex : existsb (String.eqb k) (map fst (acc ++ (k, v) :: ms)) = true).
        { apply existsb_exists. exists k. split; [| apply String.eqb_refl].
          rewrite map_app. apply in_or_app. right. now left. }
        congruence.
      - now rewrite (IHacc Hrest). }
    rewrite Hset, IH; rewrite <- List.app_assoc; [reflexivity | exact Hd].
Qed.

Section JsonRoundTrip.
Context `{Host}.

Lemma stringify_exact (v : value) :
  json_exact v = true -> JSON_stringify v = Some (text_of v).
Proof.
  unfold text_of. destruct v as [| | [] | [] | | |]; cbn; intros Hv;
    try discriminate; reflexivity.
Qed.

Lemma text_of_integer (q : Q) :
  Pos.eqb (Qden q) 1 = true -> text_of (VNum (Fin q)) = Z_to_string (Qnum q).
Proof.
  intros Hq. apply Pos.eqb_eq in Hq. destruct q as [z d]. cbn in Hq. subst d.
  unfold text_of. cbn [JSON_stringify Number_toString].
  now rewrite Qred_integer.
Qed.

Lemma text_of_array (items : list value) :
  text_of (VArr items) = "[" ++ join "," (map text_of items) ++ "]".
Proof. reflexivity. Qed.

Lemma text_of_object (props : object) :
  forallb (fun kv => json_exact (snd kv)) props = true ->
  text_of (VObj props) = "{" ++ join "," (map member_text props) ++ "}".
Proof.
  intros Hp. unfold text_of. cbn [JSON_stringify]. do 3 f_equal.
  induction props as [| kv props IH]; [reflexivity |].
  cbn [forallb] in Hp. apply andb_prop in Hp as [Hv Hrest].
  cbn [flat_map map]. rewrite (stringify_exact _ Hv), (IH Hrest). reflexivity.
Qed.

Lemma Z_to_string_start (z : Z) :
  exists c t, Z_to_string z = String c t /\ value_start c = true.
Proof.
  unfold Z_to_string. destruct z as [| p | p]; cbn [Z.to_int NilEmpty.string_of_int].
  - eexists _, _. split; reflexivity.
  - destruct (written_digits_start (Pos.to_uint p)
                (DecimalPos.Unsigned.to_uint_nonnil p)) as (c & t & d & Ht & Hc).
    exists c, t. split; [exact Ht | apply (digit_char_facts c d Hc)].
  - eexists _, _. split; reflexivity.
Qed.

Lemma text_of_start (v : value) :
  json_exact v = true ->
  exists c t, text_of v = String c t /\ value_start c = true.
Proof.
  destruct v as [| | [] | [| | | q] | s | items | props]; cbn [json_exact];
    intros Hv; try discriminate;
    try (eexists _, _; split; reflexivity).
  rewrite (text_of_integer q Hv). apply Z_to_string_start.
Qed.

Lemma parse_value_number (f : nat) (c : ascii) (t : string) :
  number_start c = true ->
  parse_value (S f) (String c t) =
  match scan_json_number (String c t) with
  | Some (n, r') => Some (VNum n, r')
  | None => None
  end.
Proof.
  destruct c as [[] [] [] [] [] [] [] []]; cbn [number_start digit_of_ascii Ascii.eqb Bool.eqb];
    intros Hc; try discriminate Hc; reflexivity.
Qed.

Lemma Z_to_string_number_start (z : Z) :
  exists c t, Z_to_string z = String c t /\ number_start c = true.
Proof.
  unfold Z_to_string. destruct z as [| p | p]; cbn [Z.to_int NilEmpty.string_of_int].
  - eexists _, _. split; reflexivity.
  - destruct (written_digits_start (Pos.to_uint p)
                (DecimalPos.Unsigned.to_uint_nonnil p)) as (c & t & d & Ht & Hc).
    exists c, t. split; [exact Ht |]. unfold number_start. now rewrite Hc.
  - eexists _, _. split; reflexivity.
Qed.

Lemma parse_value_integer (f : nat) (z : Z) (rest : string) :
  ends_value rest = true ->
  parse_value (S f) (Z_to_string z ++ rest) = Some (VNum (Fin (inject_Z z)), rest).
Proof.
  intros Hrest.
  pose proof (scan_json_number_written z rest Hrest) as Hscan.
  destruct (Z_to_string_number_start z) as (c & t & Ht & Hc).
  rewrite Ht in Hscan |- *. cbn [append] in Hscan |- *.
  rewrite (parse_value_number f c _ Hc). now rewrite Hscan.
Qed.

Lemma skip_ws_nonspace (c : ascii) (r : string) :
  is_json_space c = false -> skip_ws (String c r) = String c r.
Proof.
  intros Hc. cbn [skip_ws]. now rewrite Hc.
Qed.

Lemma after_char_same (c : ascii) (r : string) : after_char c (String c r) = Some r.
Proof.
  unfold after_char. now rewrite Ascii.eqb_refl.
Qed.

Lemma after_char_other (c d : ascii) (r : string) :
  Ascii.eqb d c = false -> after_char c (String d r) = None.
Proof.
  intros Hd. unfold after_char. now rewrite Hd.
Qed.

Lemma parse_elements_step (f : nat) (s : string) :
  parse_elements (S f) s =
  match parse_value f s with
  | Some (v, r) =>
      match after_char "," (skip_ws r) with
      | Some r' =>
          match parse_elements f r' with
          | Some (vs, r'') => Some (v :: vs, r'')
          | None => None
          end
      | None =>
          match after_char "]" (skip_ws r) with
          | Some r' => Some ([v], r')
          | None => None
          end
      end
  | None => None
  end.
Proof. reflexivity. Qed.

Lemma elements_read_back (items : list value) :
  Forall reads_back items -> forallb json_exact items = true -> items <> [] ->
  forall fuel rest,
    (String.length (join "," (map text_of items)) + 1 < fuel)%nat ->
    parse_elements fuel (join "," (map text_of items) ++ String "]" rest)
    = Some (items, rest).
Proof.
  induction 1 as [| x l Hx Hl IH]; intros Hexact Hne fuel rest Hfuel;
    [contradiction |].
  cbn [forallb] in Hexact. apply andb_prop in Hexact as [Hex Hel].
  destruct fuel as [| f]; [lia |].
  rewrite parse_elements_step.
  destruct l as [| y l'].
  - cbn [map join] in Hfuel |- *.
    rewrite (Hx Hex f (String "]" rest)); [| lia | reflexivity].
    rewrite skip_ws_nonspace by reflexivity.
    rewrite after_char_other by reflexivity. now rewrite after_char_same.
  - change (join "," (map text_of (x :: y :: l')))
      with (text_of x ++ "," ++ join "," (map text_of (y :: l'))) in Hfuel |- *.
    set (J := join "," (map text_of (y :: l'))) in *.
    rewrite !length_append in Hfuel. cbn [String.length] in Hfuel.
    rewrite !append_assoc. cbn [append].
    rewrite (Hx Hex f (String "," (J ++ String "]" rest)));
      [| lia | reflexivity].
    rewrite skip_ws_nonspace by reflexivity. rewrite after_char_same.
    rewrite IH; [reflexivity | exact Hel | discriminate | lia].
Qed.

Lemma parse_members_step (f : nat) (s : string) :
  parse_members (S f) s =
  match after_char dquote (skip_ws s) with
  | Some r =>
      match scan_json_string r with
      | Some (k, r1) =>
          match after_char ":" (skip_ws r1) with
          | Some r2 =>
              match parse_value f r2 with
              | Some (v, r3) =>
                  match after_char "," (skip_ws r3) with
                  | Some r4 =>
                      match parse_members f r4 with
                      | Some (ms, r5) => Some ((k, v) :: ms, r5)
                      | None => None
                      end
                  | None =>
                      match after_char "}" (skip_ws r3) with
                      | Some r4 => Some ([(k, v)], r4)
                      | None => None
                      end
                  end
              | None => None
              end
          | None => None
          end
      | None => None
      end
  | None => None
  end.
Proof. reflexivity. Qed.

Lemma member_text_shape (k : string) (v : value) (tail : string) :
  member_text (k, v) ++ tail
  = String dquote (quote_chars k ++ String dquote (String ":" (text_of v ++ tail))).
Proof.
  unfold member_text, QuoteJSONString. cbn [fst snd append].
  rewrite !append_assoc. reflexivity.
Qed.

Lemma member_text_length (k : string) (v : value) :
  (String.length (text_of v) + 3 <= String.length (member_text (k, v)))%nat.
Proof.
  unfold member_text, QuoteJSONString. cbn [fst snd append String.length].
  rewrite !length_append. cbn [String.length]. lia.
Qed.

Lemma member_read_back (k : string) (v : value) (f : nat) (tail : string) :
  reads_back v -> json_exact v = true ->
  (String.length (text_of v) < f)%nat -> ends_value tail = true ->
  match after_char dquote (skip_ws (member_text (k, v) ++ tail)) with
  | Some r =>
      match scan_json_string r with
      | Some (k', r1) =>
          match after_char ":" (skip_ws r1) with
          | Some r2 =>
              match parse_value f r2 with
              | Some (v', r3) => Some (k', v', r3)
              | None => None
              end
          | None => None
          end
      | None => None
      end
  | None => None
  end = Some (k, v, tail).
Proof.
  intros Hv Hex Hf Htail. rewrite member_text_shape.
  rewrite skip_ws_nonspace by reflexivity. rewrite after_char_same.
  rewrite scan_quoted. rewrite skip_ws_nonspace by reflexivity.
  rewrite after_char_same. now rewrite (Hv Hex f tail Hf Htail).
Qed.

Lemma members_read_back (props : object) :
  Forall (fun kv => reads_back (snd kv)) props ->
  forallb (fun kv => json_exact (snd kv)) props = true -> props <> [] ->
  forall fuel rest,
    (String.length (join "," (map member_text props)) + 1 < fuel)%nat ->
    parse_members fuel (join "," (map member_text props) ++ String "}" rest)
    = Some (props, rest).
Proof.
  induction 1 as [| [k v] l Hx Hl IH]; intros Hexact Hne fuel rest Hfuel;
    [contradiction |].
  cbn [forallb snd] in Hexact, Hx. apply andb_prop in Hexact as [Hex Hel].
  destruct fuel as [| f]; [lia |].
  rewrite parse_members_step.
  pose proof (member_text_length k v) as Hlen.
  destruct l as [| y l'].
  - cbn [map join] in Hfuel |- *.
    assert (Hm := member_read_back k v f (String "}" rest) Hx Hex
                    ltac:(lia) eq_refl).
    destruct (after_char dquote (skip_ws (member_text (k, v) ++ String "}" rest)))
      as [r |]; [| discriminate Hm].
    destruct (scan_json_string r) as [[k' r1] |]; [| discriminate Hm].
    destruct (after_char ":" (skip_ws r1)) as [r2 |]; [| discriminate Hm].
    destruct (parse_value f r2) as [[v' r3] |]; [| discriminate Hm].
    injection Hm as -> -> ->.
    rewrite skip_ws_nonspace by reflexivity.
    rewrite after_char_other by reflexivity. now rewrite after_char_same.
  - change (join "," (map member_text ((k, v) :: y :: l')))
      with (member_text (k, v) ++ "," ++ join "," (map member_text (y :: l')))
      in Hfuel |- *.
    set (J := join "," (map member_text (y :: l'))) in *.
    rewrite !length_append in Hfuel. cbn [String.length] in Hfuel.
    rewrite !append_assoc. cbn [append].
    assert (Hm := member_read_back k v f (String "," (J ++ String "}" rest))
                    Hx Hex ltac:(lia) eq_refl).
    destruct (after_char dquote
                (skip_ws (member_text (k, v) ++ String "," (J ++ String "}" rest))))
      as [r |]; [| discriminate Hm].
    destruct (scan_json_string r) as [[k' r1] |]; [| discriminate Hm].
    destruct (after_char ":" (skip_ws r1)) as [r2 |]; [| discriminate Hm].
    destruct (parse_value f r2) as [[v' r3] |]; [| discriminate Hm].
    injection Hm as -> -> ->.
    rewrite skip_ws_nonspace by reflexivity. rewrite after_char_same.
    rewrite IH; [reflexivity | exact Hel | discriminate | lia].
Qed.

Lemma join_start (f : string * value -> string) (x : string * value)
  (l : list (string * value)) (tail : string) :
  exists t, join "," (map f (x :: l)) ++ tail = f x ++ t.
Proof.
  destruct l as [| y l']; cbn [map join].
  - now exists tail.
  - eexists. now rewrite !append_assoc.
Qed.

Lemma value_reads_back (v : value) : reads_back v.
Proof.
  induction v as [| | b | n | s | items IH | props IH] using value_nested_ind;
    intros Hexact fuel rest Hfuel Hrest;
    (destruct fuel as [| f]; [lia |]).
  - discriminate Hexact.
  - reflexivity.
  - destruct b; reflexivity.
  - destruct n as [| | | q]; try discriminate Hexact.
    cbn [json_exact] in Hexact. rewrite (text_of_integer q Hexact).
    apply Pos.eqb_eq in Hexact. destruct q as [z d]. cbn in Hexact. subst d.
    apply (parse_value_integer f z rest Hrest).
  - unfold text_of. cbn [JSON_stringify QuoteJSONString append].
    rewrite append_assoc. cbn [append].
    change (parse_value (S f)
              (String dquote (quote_chars s ++ String dquote rest)))
      with (match scan_json_string (quote_chars s ++ String dquote rest) with
            | Some (t, r') => Some (VStr t, r')
            | None => None
            end).
    now rewrite scan_quoted.
  - cbn [json_exact] in Hexact. rewrite text_of_array in Hfuel |- *.
    rewrite !length_append in Hfuel. cbn [String.length] in Hfuel.
    cbn [append]. rewrite append_assoc. cbn [append].
    set (J := join "," (map text_of items)) in *.
    change (parse_value (S f) (String "[" (J ++ String "]" rest)))
      with (match after_char "]" (skip_ws (J ++ String "]" rest)) with
            | Some r' => Some (VArr [], r')
            | None =>
                match parse_elements f (J ++ String "]" rest) with
                | Some (vs, r') => Some (VArr vs, r')
                | None => None
                end
            end).
    destruct items as [| x l].
    + subst J. cbn [map join append].
      rewrite skip_ws_nonspace by reflexivity. now rewrite after_char_same.
    + assert (Hx : json_exact x = true)
        by (cbn [forallb] in Hexact; now apply andb_prop in Hexact).
      destruct (text_of_start x Hx) as (c & t & Ht & Hc).
      destruct (value_start_facts c Hc) as (Hspace & Hclose & _).
      assert (Hhead : exists t', J ++ String "]" rest = String c t').
      { subst J. destruct l as [| y l']; cbn [map join]; rewrite Ht.
        - eexists. reflexivity.
        - eexists. cbn [append]. reflexivity. }
      destruct Hhead as (t' & Hhead).
      rewrite Hhead at 1. rewrite (skip_ws_nonspace c t' Hspace).
      rewrite (after_char_other _ _ _ Hclose).
      subst J. rewrite (elements_read_back (x :: l) IH Hexact); [reflexivity | discriminate | lia].
  - cbn [json_exact] in Hexact. apply andb_prop in Hexact as [Hkeys Hvals].
    rewrite (text_of_object props Hvals) in Hfuel |- *.
    rewrite !length_append in Hfuel. cbn [String.length] in Hfuel.
    cbn [append]. rewrite append_assoc. cbn [append].
    set (J := join "," (map member_text props)) in *.
    change (parse_value (S f) (String "{" (J ++ String "}" rest)))
      with (match after_char "}" (skip_ws (J ++ String "}" rest)) with
            | Some r' => Some (VObj [], r')
            | None =>
                match parse_members f (J ++ String "}" rest) with
                | Some (ms, r') => Some (VObj (object_of_members ms), r')
                | None => None
                end
            end).
    destruct props as [| [k v] l].
    + subst J. cbn [map join append].
      rewrite skip_ws_nonspace by reflexivity. now rewrite after_char_same.
    + destruct (join_start member_text (k, v) l (String "}" rest)) as (t' & Hhead).
      fold J in Hhead. rewrite Hhead at 1.
      unfold member_text at 1, QuoteJSONString. cbn [fst append].
      rewrite skip_ws_nonspace by reflexivity.
      rewrite after_char_other by reflexivity.
      subst J. rewrite (members_read_back ((k, v) :: l) IH Hvals);
        [| discriminate | lia].
      unfold object_of_members.
      now rewrite (object_of_members_distinct ((k, v) :: l) []).
Qed.

(** What [JSON.stringify] writes for a value that JSON represents exactly,
    [JSON.parse] reads back as the same value. *)
Lemma JSON_parse_stringify (v : value) :
  json_exact v = true ->
  JSON_stringify v = Some (text_of v) /\ JSON_parse (text_of v) = Ok v.
Proof.
  intros Hexact. split; [now apply stringify_exact |].
  unfold JSON_parse.
  pose proof (value_reads_back v Hexact (S (String.length (text_of v))) ""
                (Nat.lt_succ_diag_r _) eq_refl) as Hparse.
  rewrite append_empty in Hparse. now rewrite Hparse.
Qed.

End JsonRoundTrip.

Section RoundTripProperties.
Context `{Host}.


End RoundTripProperties.



(** ** Bounds of [pct] *)

Lemma js_le_total (a b : num) :
  a <> NaN -> b <> NaN -> js_le a b = false -> js_le b a = true.
Proof.
  intros Ha Hb.
  destruct a as [| | | x]; destruct b as [| | | y]; cbn;
    try contradiction; try discriminate; try reflexivity.
  intros Hle. apply Qle_bool_iff.
  destruct (Qlt_le_dec y x) as [Hlt | Hge].
  - now apply Qlt_le_weak.
  - apply Qle_bool_iff in Hge. congruence.
Qed.

Lemma js_le_refl (a : num) : a <> NaN -> js_le a a = true.
Proof.
  destruct a as [| | | x]; cbn; try contradiction; try reflexivity.
  intros _. apply Qle_bool_iff. apply Qle_refl.
Qed.

Lemma Math_min_bound (b x : num) :
  b <> NaN -> Math_min b x = NaN \/ js_le (Math_min b x) b = true.
Proof.
  intros Hb.
  destruct (Number_isNaN x) eqn:Hx.
  - left. destruct x; try discriminate. now destruct b.
  - right.
    assert (Hmin : Math_min b x = if js_le b x then b else x).
    { destruct b; try contradiction; destruct x; try discriminate; reflexivity. }
    rewrite Hmin. destruct (js_le b x) eqn:Hle.
    + now apply js_le_refl.
    + apply js_le_total; [exact Hb | | exact Hle].
      intros ->. discriminate.
Qed.

Section PctBounds.
Context `{Host}.

(** X1: whatever its two arguments are, [pct] returns a number, and that
    number is [NaN] or at most 100. *)
Theorem pct_never_above_100 (n d : value) :
  exists r, pct n d = VNum r /\ (r = NaN \/ js_le r (Fin 100) = true).
Proof.
  unfold pct.
  destruct (negb (ToBoolean d) || strict_eq_num d (Fin 0)).
  - exists (Fin 0). split; [reflexivity | right; reflexivity].
  - eexists. split; [reflexivity |]. apply Math_min_bound. discriminate.
Qed.

(** X2: against one and the same positive target, a larger actual never
    gives a smaller percentage. *)
Theorem pct_monotone_in_actual (a b d : Q) :
  (a <= b)%Q -> (0 < d)%Q ->
  exists x y,
    pct (VNum (Fin a)) (VNum (Fin d)) = VNum (num_of_Z x) /\
    pct (VNum (Fin b)) (VNum (Fin d)) = VNum (num_of_Z y) /\
    x <= y.
Proof.
  intros Hab Hd.
  assert (Hnz : ~ (d == 0)%Q) by lra.
  rewrite !(pct_finite _ _ Hnz).
  eexists. eexists. split; [reflexivity | split; [reflexivity |]].
  apply Z.min_le_compat_l. unfold round_half_up. apply Qfloor_resp_le.
  assert (Hinv : (0 < / d)%Q) by now apply Qinv_lt_0_compat.
  assert (Hdiv : (a / d <= b / d)%Q).
  { unfold Qdiv. apply Qmult_le_compat_r; [exact Hab | now apply Qlt_le_weak]. }
  lra.
Qed.

End PctBounds.

Lemma pct_monotone_in_actual_witness :
  exists x y,
    pct (H := exampleHost) (VNum (Fin 29)) (VNum (Fin 200)) = VNum (num_of_Z x) /\
    pct (H := exampleHost) (VNum (Fin 50)) (VNum (Fin 200)) = VNum (num_of_Z y) /\
    x <= y.
Proof.
  apply (pct_monotone_in_actual (H := exampleHost) 29 50 200).
  - vm_compute. discriminate.
  - reflexivity.
Defined.
(** ** Month keys *)

Lemma append_same_length_inj (s1 s2 t1 t2 : string) :
  String.length t1 = String.length t2 -> (s1 ++ t1 = s2 ++ t2)%string ->
  s1 = s2 /\ t1 = t2.
Proof.
  revert s2. induction s1 as [| c s1 IH]; intros [| d s2] Hlen Heq;
    cbn [append] in Heq.
  - now split.
  - exfalso. rewrite Heq in Hlen. cbn [String.length] in Hlen.
    rewrite length_append in Hlen. lia.
  - exfalso. rewrite <- Heq in Hlen. cbn [String.length] in Hlen.
    rewrite length_append in Hlen. lia.
  - injection Heq as -> Heq. destruct (IH s2 Hlen Heq) as [-> ->]. now split.
Qed.

Lemma month_digits_facts (m1 m2 : Z) :
  0 <= m1 <= 11 -> 0 <= m2 <= 11 ->
  String.length (month_digits m1) = 2%nat /\
  (month_digits m1 = month_digits m2 -> m1 = m2).
Proof.
  intros H1 H2.
  assert (Hall :
    forallb (fun a =>
      Nat.eqb (String.length (month_digits (Z.of_nat a))) 2
      && forallb (fun b =>
           implb (String.eqb (month_digits (Z.of_nat a)) (month_digits (Z.of_nat b)))
                 (Nat.eqb a b)) (seq 0 12)) (seq 0 12) = true)
    by (vm_compute; reflexivity).
  rewrite forallb_forall in Hall.
  specialize (Hall (Z.to_nat m1)). rewrite Z2Nat.id in Hall by lia.
  destruct (andb_prop _ _ (Hall ltac:(apply in_seq; lia))) as [Hlen Hinj].
  split; [now apply Nat.eqb_eq |].
  intros Heq. rewrite forallb_forall in Hinj.
  specialize (Hinj (Z.to_nat m2) ltac:(apply in_seq; lia)).
  rewrite Z2Nat.id in Hinj by lia. rewrite Heq, String.eqb_refl in Hinj.
  cbn [implb] in Hinj. apply Nat.eqb_eq in Hinj. lia.
Qed.

Lemma monthKey_inj (y1 m1 y2 m2 h1 n1 h2 n2 : Z) :
  0 <= m1 <= 11 -> 0 <= m2 <= 11 ->
  monthKey (mkDate y1 m1 h1 n1) = monthKey (mkDate y2 m2 h2 n2) ->
  y1 = y2 /\ m1 = m2.
Proof.
  intros H1 H2 Heq. unfold monthKey in Heq.
  cbn [getFullYear getMonth] in Heq.
  fold (month_digits m1) in Heq. fold (month_digits m2) in Heq.
  destruct (month_digits_facts m1 m2 H1 H2) as [Hl1 Hinj].
  destruct (month_digits_facts m2 m1 H2 H1) as [Hl2 _].
  apply append_same_length_inj in Heq.
  - destruct Heq as [Hy Hm]. split; [now apply Z_to_string_inj |].
    cbn [append] in Hm. injection Hm as Hm. now apply Hinj.
  - cbn [append String.length]. now rewrite Hl1, Hl2.
Qed.

(** X3: two dates whose month indices lie between 0 and 11 have the same
    month key only when they have the same year and the same month. *)
Theorem monthKey_injective (d1 d2 : Date) :
  0 <= getMonth d1 <= 11 -> 0 <= getMonth d2 <= 11 ->
  monthKey d1 = monthKey d2 ->
  getFullYear d1 = getFullYear d2 /\ getMonth d1 = getMonth d2.
Proof.
  destruct d1 as [y1 m1 h1 n1], d2 as [y2 m2 h2 n2]. cbn [getFullYear getMonth].
  apply monthKey_inj.
Qed.

Lemma monthKey_injective_witness :
  getFullYear (mkDate 2025 7 9 30) = getFullYear (mkDate 2025 7 18 0) /\
  getMonth (mkDate 2025 7 9 30) = getMonth (mkDate 2025 7 18 0).
Proof.
  apply (monthKey_injective (mkDate 2025 7 9 30) (mkDate 2025 7 18 0)).
  - cbn. lia.
  - cbn. lia.
  - reflexivity.
Defined.

Lemma NoDup_map_seq {A : Type} (f : nat -> A) (start len : nat) :
  (forall i j, (start <= i < start + len)%nat -> (start <= j < start + len)%nat ->
               f i = f j -> i = j) ->
  NoDup (map f (seq start len)).
Proof.
  revert start. induction len as [| len IH]; intros start Hinj; cbn [seq map].
  - constructor.
  - constructor.
    + intros Hin. apply in_map_iff in Hin as (j & Hj & Hin).
      apply in_seq in Hin. apply Hinj in Hj; lia.
    + apply IH. intros i j Hi Hj. apply Hinj; lia.
Qed.

(** X4: for a current date whose month index lies between 0 and 11, the
    month picker holds 18 entries whose keys differ from one another; when
    the year is past 99 the first key is that of the current month. *)
Theorem months_lists_18_distinct_keys (label : Date -> string) (now : Date) :
  0 <= getMonth now <= 11 ->
  let keys := map (fun e => field e "key") (months label now) in
  List.length keys = 18%nat /\
  NoDup keys /\
  (99 < getFullYear now -> hd VUndef keys = VStr (monthKey now)).
Proof.
  intros Hm. cbv zeta. unfold months. rewrite map_map.
  cbn [field lookup String.eqb Ascii.eqb Bool.eqb].
  split; [now rewrite length_map, length_seq |]. split.
  - apply NoDup_map_seq. intros i j Hi Hj Heq. injection Heq as Heq.
    unfold Date_of_year_month in Heq. cbv zeta in Heq.
    apply monthKey_inj in Heq;
      try (pose proof (Z.mod_pos_bound (getMonth now - Z.of_nat i) 12 ltac:(lia));
           pose proof (Z.mod_pos_bound (getMonth now - Z.of_nat j) 12 ltac:(lia));
           lia).
    destruct Heq as [Hy Hmod].
    assert (Hdiv : (getMonth now - Z.of_nat i) / 12 = (getMonth now - Z.of_nat j) / 12)
      by lia.
    pose proof (Z.div_mod (getMonth now - Z.of_nat i) 12 ltac:(lia)) as Ei.
    pose proof (Z.div_mod (getMonth now - Z.of_nat j) 12 ltac:(lia)) as Ej.
    lia.
  - intros Hy. cbn [seq map hd Z.of_nat]. f_equal.
    unfold Date_of_year_month.
    assert (Hquirk : (0 <=? getFullYear now) && (getFullYear now <=? 99) = false).
    { apply andb_false_iff. right. apply Z.leb_gt. lia. }
    rewrite Hquirk. rewrite Z.sub_0_r.
    rewrite Z.div_small, Z.mod_small, Z.add_0_r by lia.
    unfold monthKey. reflexivity.
Qed.

Lemma months_lists_18_distinct_keys_witness :
  let keys := map (fun e => field e "key")
                (months (fun _ => "August 2025") (mkDate 2025 7 9 30)) in
  List.length keys = 18%nat /\
  NoDup keys /\
  (99 < getFullYear (mkDate 2025 7 9 30) ->
   hd VUndef keys = VStr (monthKey (mkDate 2025 7 9 30))).
Proof.
  apply (months_lists_18_distinct_keys (fun _ => "August 2025") (mkDate 2025 7 9 30)).
  cbn. lia.
Defined.
(** ** Fields and failures of the CSV export *)

Lemma double_quotes_inj (s t : string) :
  double_quotes s = double_quotes t -> s = t.
Proof.
  revert t. induction s as [| c s IH]; intros [| d t] Heq; cbn [double_quotes] in Heq.
  - reflexivity.
  - destruct (Ascii.eqb d dquote); discriminate.
  - destruct (Ascii.eqb c dquote); discriminate.
  - destruct (Ascii.eqb c dquote) eqn:Ec; destruct (Ascii.eqb d dquote) eqn:Ed.
    + apply Ascii.eqb_eq in Ec, Ed. subst. injection Heq as Heq.
      f_equal. now apply IH.
    + apply Ascii.eqb_eq in Ec. subst c. injection Heq as Hd _. subst d.
      now rewrite Ascii.eqb_refl in Ed.
    + apply Ascii.eqb_eq in Ed. subst d. injection Heq as Hc _. subst c.
      now rewrite Ascii.eqb_refl in Ec.
    + injection Heq as -> Heq. f_equal. now apply IH.
Qed.

Lemma mapM_all_ok {A B : Type} (f : A -> res B) (l : list A) :
  (forall x, In x l -> exists y, f x = Ok y) -> exists ys, mapM f l = Ok ys.
Proof.
  induction l as [| x l IH]; intros Hall.
  - exists []. reflexivity.
  - destruct (Hall x (or_introl eq_refl)) as (y & Hy).
    destruct IH as (ys & Hys); [intros z Hz; apply Hall; now right |].
    exists (y :: ys). rewrite mapM_cons, Hy. cbn [bind]. now rewrite Hys.
Qed.

Lemma mapM_one_throws {A B : Type} (f : A -> res B) (l : list A) (e : exn) :
  (forall x e', f x = Throw e' -> e' = e) ->
  (exists x, In x l /\ f x = Throw e) -> mapM f l = Throw e.
Proof.
  intros Hsame. induction l as [| x l IH]; intros (z & Hin & Hz).
  - destruct Hin.
  - rewrite mapM_cons. destruct (f x) as [y | e'] eqn:Hx; cbn [bind].
    + destruct Hin as [-> | Hin]; [congruence |].
      rewrite IH by (exists z; now split). reflexivity.
    + now rewrite (Hsame _ _ Hx).
Qed.

Section CsvFailures.
Context `{Host}.

(** X5: two values are written as the same CSV field exactly when they
    have the same text. *)
Theorem escape_same_field_iff_same_text (u v : value) :
  escape u = escape v <-> ToString u = ToString v.
Proof.
  rewrite !escape_is_csv_field. unfold csv_field. split.
  - intros Heq. injection Heq as Heq.
    apply append_same_length_inj in Heq; [| reflexivity].
    apply double_quotes_inj, Heq.
  - now intros ->.
Qed.

Lemma get_item_non_nullish (r : value) (h : string) :
  nullish r = false -> exists x, get_item r h = Ok x.
Proof.
  intros Hr. destruct r as [| | b | n | s | items | o]; try discriminate;
    cbn [get_item get].
  - eexists; reflexivity.
  - eexists; reflexivity.
  - destruct (index_of_key h (String.length s)) as [i |].
    + destruct (String.get i s); eexists; reflexivity.
    + destruct (String.eqb h "length"); eexists; reflexivity.
  - destruct (index_of_key h (List.length items)) as [i |].
    + eexists; reflexivity.
    + destruct (String.eqb h "length"); eexists; reflexivity.
  - destruct (lookup h o); eexists; reflexivity.
Qed.

Lemma get_nullish (r : value) (h : string) :
  nullish r = true -> get_item r h = Throw TypeError.
Proof.
  destruct r; try discriminate; reflexivity.
Qed.

Lemma get_item_throws (r : value) (h : string) (e : exn) :
  get_item r h = Throw e -> e = TypeError /\ nullish r = true.
Proof.
  destruct (nullish r) eqn:Hr.
  - rewrite (get_nullish _ _ Hr). intros [= <-]. now split.
  - destruct (get_item_non_nullish r h Hr) as (x & ->). discriminate.
Qed.

Lemma csv_cells_of_row (headers : list string) (r : value) :
  nullish r = false ->
  exists line,
    (let* cells :=
       mapM (fun h => let* x := get_item r h in Ok (escape (js_coalesce x (VStr ""))))
         headers in
     Ok (join "," cells)) = Ok line.
Proof.
  intros Hr.
  destruct (mapM_all_ok
              (fun h => let* x := get_item r h in
                        Ok (escape (js_coalesce x (VStr "")))) headers)
    as (cells & Hcells).
  { intros h _. destruct (get_item_non_nullish r h Hr) as (x & ->).
    eexists. reflexivity. }
  rewrite Hcells. eexists. reflexivity.
Qed.

Lemma csv_cells_throw (headers : list string) (r : value) (e : exn) :
  (let* cells :=
     mapM (fun h => let* x := get_item r h in Ok (escape (js_coalesce x (VStr ""))))
       headers in
   Ok (join "," cells)) = Throw e ->
  e = TypeError.
Proof.
  destruct (nullish r) eqn:Hr.
  - destruct headers as [| h hs]; [discriminate |].
    rewrite mapM_cons, (get_nullish _ _ Hr). cbn [bind]. now intros [= <-].
  - destruct (csv_cells_of_row headers r Hr) as (line & ->). discriminate.
Qed.

Lemma Object_keys_of_non_nullish (r : value) :
  nullish r = false -> exists hs, Object_keys_of r = Ok hs.
Proof.
  destruct r; try discriminate; intros _; eexists; reflexivity.
Qed.

Lemma toCSV_of_rows (rows : list value) :
  existsb nullish rows = false -> exists t, toCSV rows = Ok t.
Proof.
  intros Hnn. destruct rows as [| r0 rest]; [eexists; reflexivity |].
  assert (H0 : nullish r0 = false)
    by (cbn [existsb] in Hnn; now apply orb_false_iff in Hnn).
  destruct (Object_keys_of_non_nullish r0 H0) as (hs & Hk).
  unfold toCSV. rewrite Hk. cbn [bind].
  destruct (mapM_all_ok
              (fun r => let* cells :=
                          mapM (fun h => let* x := get_item r h in
                                         Ok (escape (js_coalesce x (VStr ""))))
                            hs in
                        Ok (join "," cells)) (r0 :: rest)) as (body & ->).
  { intros r Hin. apply csv_cells_of_row.
    destruct (nullish r) eqn:Hr; [| reflexivity].
    assert (Hex : existsb nullish (r0 :: rest) = true)
      by (apply existsb_exists; exists r; now split).
    congruence. }
  eexists. reflexivity.
Qed.

(** X6: on a list that is not empty, [toCSV] throws exactly when the first
    row is [null] or [undefined], or when the first row has a key and some
    later row is [null] or [undefined]; what it throws is then a
    [TypeError]. *)
Theorem toCSV_fails_exactly_on_missing_rows (r0 : value) (rest : list value) :
  match toCSV (r0 :: rest) with
  | Ok _ =>
      nullish r0 = false /\
      (Object_keys_of r0 = Ok [] \/ existsb nullish rest = false)
  | Throw e =>
      e = TypeError /\
      (nullish r0 = true \/
       (Object_keys_of r0 <> Ok [] /\ existsb nullish rest = true))
  end.
Proof.
  destruct (nullish r0) eqn:H0.
  - destruct r0; cbn in H0; try discriminate; cbn [toCSV Object_keys_of bind]; auto.
  - destruct (Object_keys_of_non_nullish r0 H0) as (hs & Hk).
    unfold toCSV. rewrite Hk. cbn [bind].
    destruct hs as [| h hs].
    + destruct (mapM_all_ok
                  (fun r => let* cells :=
                              mapM (fun h => let* x := get_item r h in
                                             Ok (escape (js_coalesce x (VStr ""))))
                                [] in
                            Ok (join "," cells)) (r0 :: rest)) as (body & ->).
      { intros r _. eexists. reflexivity. }
      cbn [bind]. auto.
    + destruct (existsb nullish rest) eqn:Hrest.
      * rewrite (mapM_one_throws _ _ TypeError).
        -- cbn [bind]. split; [reflexivity |]. right. split; [discriminate | reflexivity].
        -- intros r e. apply csv_cells_throw.
        -- apply existsb_exists in Hrest as (r & Hin & Hr).
           exists r. split; [now right |].
           rewrite mapM_cons, (get_nullish _ _ Hr). reflexivity.
      * destruct (toCSV_of_rows (r0 :: rest)) as (t & Ht).
        { cbn [existsb]. now rewrite H0, Hrest. }
        unfold toCSV in Ht. rewrite Hk in Ht. cbn [bind] in Ht. rewrite Ht. auto.
Qed.

Lemma csv_row_of_cases (a : value) :
  if nullish (get_opt a "metrics")
  then csv_row_of a = Throw TypeError
  else exists o, csv_row_of a = Ok (VObj o).
Proof.
  unfold csv_row_of.
  destruct (nullish a) eqn:Ha.
  - destruct a; try discriminate; reflexivity.
  - assert (Hname : exists x, get a "name" = Ok x)
      by (destruct a as [| | | | s | items |o]; try discriminate; cbn;
          try destruct (lookup "name" o); eexists; reflexivity).
    destruct Hname as (name & ->). cbn [bind].
    assert (Hm : get a "metrics" = Ok (get_opt a "metrics")).
    { destruct a as [| | | | s | items |o]; try discriminate; cbn;
        try destruct (lookup "metrics" o); reflexivity. }
    rewrite Hm. cbn [bind].
    destruct (nullish (get_opt a "metrics")) eqn:Hn.
    + destruct (get_opt a "metrics"); try discriminate; reflexivity.
    + assert (Hget : forall k, exists x, get (get_opt a "metrics") k = Ok x).
      { intros k. destruct (get_opt a "metrics") as [| | | | s | items | o];
          try discriminate; cbn; try destruct (String.eqb k "length");
          try destruct (lookup k o); eexists; reflexivity. }
      destruct (Hget "connects") as (x1 & ->).
      destruct (Hget "geoData") as (x2 & ->).
      destruct (Hget "buyerAppointments") as (x3 & ->).
      destruct (Hget "marketAppraisals") as (x4 & ->).
      destruct (Hget "listingsGenerated") as (x5 & ->).
      cbn [bind]. eexists. reflexivity.
Qed.

Lemma rows_of_associates (items : list value) :
  existsb (fun a => nullish (get_opt a "metrics")) items = false ->
  exists rows, mapM csv_row_of items = Ok rows /\
               existsb nullish rows = false.
Proof.
  induction items as [| a items IH]; intros Hall.
  - exists []. split; reflexivity.
  - cbn [existsb] in Hall. apply orb_false_iff in Hall as [Ha Hrest].
    destruct (IH Hrest) as (rows & Hrows & Hnn).
    pose proof (csv_row_of_cases a) as Hc. rewrite Ha in Hc.
    destruct Hc as (o & Ho).
    exists (VObj o :: rows). rewrite mapM_cons, Ho. cbn [bind]. rewrite Hrows.
    split; [reflexivity |]. cbn [existsb nullish orb]. exact Hnn.
Qed.

(** X7: the export of a list of associates throws exactly when some
    associate is [null] or [undefined] or has no metrics; what it throws is
    then a [TypeError]. *)
Theorem buildCSV_fails_exactly_without_metrics (items : list value) :
  match buildCSVFromAssociates (VArr items) with
  | Ok _ => forall a, In a items -> nullish (get_opt a "metrics") = false
  | Throw e =>
      e = TypeError /\
      exists a, In a items /\ nullish (get_opt a "metrics") = true
  end.
Proof.
  unfold buildCSVFromAssociates. cbn [as_array bind].
  destruct (existsb (fun a => nullish (get_opt a "metrics")) items) eqn:Hex.
  - apply existsb_exists in Hex as (a & Hin & Ha).
    rewrite (mapM_one_throws _ _ TypeError).
    + cbn [bind]. split; [reflexivity |]. exists a. now split.
    + intros x e Hx. pose proof (csv_row_of_cases x) as Hc.
      destruct (nullish (get_opt x "metrics")).
      * congruence.
      * destruct Hc as (o & Ho). congruence.
    + exists a. split; [exact Hin |].
      pose proof (csv_row_of_cases a) as Hc. now rewrite Ha in Hc.
  - destruct (rows_of_associates items Hex) as (rows & -> & Hnn). cbn [bind].
    assert (Hall : forall a, In a items -> nullish (get_opt a "metrics") = false).
    { intros a Hin. destruct (nullish (get_opt a "metrics")) eqn:Ha; [| reflexivity].
      assert (existsb (fun a => nullish (get_opt a "metrics")) items = true)
        by (apply existsb_exists; exists a; now split).
      congruence. }
    destruct (toCSV_of_rows rows Hnn) as (t & ->). exact Hall.
Qed.

End CsvFailures.
(** ** What the handlers change *)

Section HandlerEffects.
Context `{Host}.

Lemma get_non_nullish (a : value) (k : string) :
  nullish a = false -> k <> "length" -> get a k = Ok (field a k).
Proof.
  intros Ha Hk. apply String.eqb_neq in Hk.
  destruct a as [| | b | n | s | items | o]; try discriminate; cbn [get field];
    rewrite ?Hk; try reflexivity.
  now destruct (lookup k o).
Qed.

Lemma update_one_effect (id key : string) (v : num) (a : value) :
  associate_shape a = true ->
  exists a',
    update_one id key v a = Ok a' /\
    if strict_eq_str (field a "id") id
    then field (field a' "metrics") key = VNum v /\
         (forall k, k <> key ->
                    field (field a' "metrics") k = field (field a "metrics") k) /\
         (forall k, k <> "metrics" -> field a' k = field a k)
    else a' = a.
Proof.
  intros Ha. destruct a as [| | | | | | props]; try discriminate.
  cbn [associate_shape] in Ha.
  destruct (lookup "metrics" props) as [[| | | | | | m] |] eqn:Hm; try discriminate.
  unfold update_one. rewrite get_object. cbn [bind].
  destruct (strict_eq_str (field (VObj props) "id") id).
  - rewrite get_object. cbn [bind]. eexists. split; [reflexivity |].
    assert (Hfm : field (VObj props) "metrics" = VObj m)
      by (unfold field; now rewrite Hm).
    rewrite Hfm. cbn [own_props].
    assert (Hnew : field (VObj (set_prop "metrics" (VObj (set_prop key (VNum v) m))
                                  props)) "metrics"
                   = VObj (set_prop key (VNum v) m)).
    { unfold field. rewrite lookup_set_prop. reflexivity. }
    rewrite Hnew. repeat split.
    + unfold field. rewrite lookup_set_prop. now rewrite String.eqb_refl.
    + intros k Hk. unfold field. rewrite lookup_set_prop.
      apply String.eqb_neq in Hk. now rewrite Hk.
    + intros k Hk. unfold field. rewrite lookup_set_prop.
      apply String.eqb_neq in Hk. now rewrite Hk.
  - eexists. split; reflexivity.
Qed.

(** X8: on associates that are objects with a metrics object, [updateMetric]
    with a value that converts to a number that is neither [NaN] nor
    negative keeps every associate with another id as it is and, in each
    associate with the given id, sets the given metric to that number and
    leaves the other metrics and the other properties as they were. *)
Theorem updateMetric_sets_one_metric
  (st : AppState) (id key : string) (input : value) (items : list value) :
  associates st = VArr items ->
  forallb associate_shape items = true ->
  Number_isNaN (ToNumber input) || js_lt (ToNumber input) (Fin 0) = false ->
  exists items',
    updateMetric st id key input = Ok (set_associates st (VArr items')) /\
    Forall2
      (fun a a' =>
         if strict_eq_str (field a "id") id
         then field (field a' "metrics") key = VNum (ToNumber input) /\
              (forall k, k <> key ->
                         field (field a' "metrics") k = field (field a "metrics") k) /\
              (forall k, k <> "metrics" -> field a' k = field a k)
         else a' = a)
      items items'.
Proof.
  intros Hassoc Hshape Hguard. unfold updateMetric.
  rewrite Hguard, Hassoc. cbn [as_array bind].
  assert (Hall : exists items',
             mapM (update_one id key (ToNumber input)) items = Ok items' /\
             Forall2
               (fun a a' =>
                  if strict_eq_str (field a "id") id
                  then field (field a' "metrics") key = VNum (ToNumber input) /\
                       (forall k, k <> key ->
                          field (field a' "metrics") k = field (field a "metrics") k) /\
                       (forall k, k <> "metrics" -> field a' k = field a k)
                  else a' = a)
               items items').
  { clear Hassoc. induction items as [| a items IH].
    - exists []. split; [reflexivity | constructor].
    - cbn [forallb] in Hshape. apply andb_prop in Hshape as [Ha Hrest].
      destruct (update_one_effect id key (ToNumber input) a Ha) as (a' & Ea & Pa).
      destruct (IH Hrest) as (items' & Ei & Pi).
      exists (a' :: items'). rewrite mapM_cons, Ea. cbn [bind]. rewrite Ei.
      split; [reflexivity | now constructor]. }
  destruct Hall as (items' & -> & Hrel). cbn [bind].
  exists items'. now split.
Qed.

Lemma filterM_by_id (id : string) (items : list value) :
  existsb nullish items = false ->
  filterM (fun a => let* aid := get a "id" in Ok (negb (strict_eq_str aid id)))
    items
  = Ok (filter (fun a => negb (strict_eq_str (field a "id") id)) items).
Proof.
  induction items as [| a items IH]; intros Hnn; [reflexivity |].
  cbn [existsb] in Hnn. apply orb_false_iff in Hnn as [Ha Hrest].
  cbn [filterM filter]. rewrite (get_non_nullish a "id" Ha) by discriminate.
  cbn [bind]. rewrite (IH Hrest). reflexivity.
Qed.

(** X9: on a list without [null] or [undefined], [deleteAssociate] keeps,
    in their order, exactly the associates whose id is not the given one;
    none of those that remain has the given id. *)
Theorem deleteAssociate_removes_exactly_that_id
  (st : AppState) (id : string) (items : list value) :
  associates st = VArr items ->
  existsb nullish items = false ->
  exists items',
    deleteAssociate st id = Ok (set_associates st (VArr items')) /\
    items' = filter (fun a => negb (strict_eq_str (field a "id") id)) items /\
    existsb (fun a => strict_eq_str (field a "id") id) items' = false.
Proof.
  intros Hassoc Hnn. unfold deleteAssociate.
  rewrite Hassoc. cbn [as_array bind]. rewrite (filterM_by_id id items Hnn).
  cbn [bind]. eexists. split; [reflexivity |]. split; [reflexivity |].
  clear Hassoc Hnn. induction items as [| a items IH]; [reflexivity |].
  cbn [filter]. destruct (strict_eq_str (field a "id") id) eqn:Ea; cbn [negb].
  - exact IH.
  - cbn [existsb]. now rewrite Ea.
Qed.

Lemma filter_keeps_all {A : Type} (f : A -> bool) (l : list A) :
  existsb (fun x => negb (f x)) l = false -> filter f l = l.
Proof.
  induction l as [| x l IH]; intros Hall; [reflexivity |].
  cbn [existsb] in Hall. apply orb_false_iff in Hall as [Hx Hrest].
  cbn [filter]. apply negb_false_iff in Hx. rewrite Hx. now rewrite IH.
Qed.


End HandlerEffects.

Lemma updateMetric_sets_one_metric_witness :
  exists items',
    updateMetric (H := exampleHost) seededState "id-b" "connects" (VStr "310")
    = Ok (set_associates seededState (VArr items')) /\
    Forall2
      (fun a a' =>
         if strict_eq_str (field a "id") "id-b"
         then field (field a' "metrics") "connects"
              = VNum (ToNumber (H := exampleHost) (VStr "310")) /\
              (forall k, k <> "connects" ->
                         field (field a' "metrics") k = field (field a "metrics") k) /\
              (forall k, k <> "metrics" -> field a' k = field a k)
         else a' = a)
      seedAssociates items'.
Proof.
  apply (updateMetric_sets_one_metric (H := exampleHost)
           seededState "id-b" "connects" (VStr "310") seedAssociates);
    vm_compute; reflexivity.
Defined.

Lemma deleteAssociate_removes_exactly_that_id_witness :
  exists items',
    deleteAssociate (H := exampleHost) seededState "id-b"
    = Ok (set_associates seededState (VArr items')) /\
    items' = filter (fun a => negb (strict_eq_str (field a "id") "id-b"))
               seedAssociates /\
    existsb (fun a => strict_eq_str (field a "id") "id-b") items' = false.
Proof.
  apply (deleteAssociate_removes_exactly_that_id (H := exampleHost)
           seededState "id-b" seedAssociates); reflexivity.
Defined.

(** ** When the email task sends *)

(** X11: for a configured hour from 1 to 23 and a time of the day, the test
    of the task holds exactly when the time is at most 30 minutes away from
    the configured hour on the clock. *)
Theorem withinWindow_is_clock_window_from_1_to_23 (hour : Z) (d : Date) :
  1 <= hour <= 23 -> 0 <= getHours d <= 23 -> 0 <= getMinutes d <= 59 ->
  withinWindow (num_of_Z hour) d = within_30_minutes_of hour d.
Proof.
  intros Hh Hd Hm. rewrite (withinWindow_same_day (H := exampleHost)).
  unfold within_30_minutes_of, minutes_apart_on_clock. cbv zeta.
  apply Bool.eq_iff_eq_true. rewrite !Z.leb_le. lia.
Qed.

Lemma withinWindow_is_clock_window_from_1_to_23_witness :
  withinWindow (num_of_Z 18) (mkDate 2025 7 18 25)
  = within_30_minutes_of 18 (mkDate 2025 7 18 25).
Proof.
  apply (withinWindow_is_clock_window_from_1_to_23 18 (mkDate 2025 7 18 25));
    cbn; lia.
Defined.

Section EmailTaskProperties.
Context `{Host}.

(** X12: the task reports new data only when the time passes its window
    test for the stored hour (18 when none is stored), a webhook address
    that is not empty is stored, and the request posted to that address was
    answered with success. *)
Theorem emailTask_NewData_only_after_post (env : TaskEnv) :
  emailTask env = NewData ->
  exists hour url body,
    getItem env SEND_HOUR_KEY = Ok hour /\
    withinWindow
      (ToNumber (js_or (item_value hour) (VNum (num_of_Z DEFAULT_SEND_HOUR))))
      (now env) = true /\
    getItem env EMAIL_WEBHOOK_URL_KEY = Ok (Some url) /\
    url <> "" /\
    fetch env url body = Ok true.
Proof.
  unfold emailTask, emailTask_body.
  destruct (getItem env LS_KEY) as [raw | e]; cbn [bind]; [| discriminate].
  destruct (if ToBoolean (item_value raw)
            then JSON_parse (ToString (item_value raw))
            else Ok (VObj [])) as [store | e]; cbn [bind]; [| discriminate].
  destruct (get_item store (monthKey (today env))) as [stored | e]; cbn [bind];
    [| discriminate].
  destruct (getItem env EMAIL_TO_KEY) as [to | e]; cbn [bind]; [| discriminate].
  destruct (getItem env EMAIL_WEBHOOK_URL_KEY) as [webhook | e]; cbn [bind];
    [| discriminate].
  destruct (getItem env SEND_HOUR_KEY) as [hour | e]; cbn [bind]; [| discriminate].
  destruct (withinWindow
              (ToNumber (js_or (item_value hour) (VNum (num_of_Z DEFAULT_SEND_HOUR))))
              (now env)) eqn:Hwin; cbn [negb]; [| discriminate].
  match goal with
  | |- context [get ?s "associates"] => destruct (get s "associates") as [a | e]
  end; cbn [bind]; [| discriminate].
  match goal with
  | |- context [get ?s "targets"] => destruct (get s "targets") as [t | e]
  end; cbn [bind]; [| discriminate].
  destruct (buildSnapshotText (VStr (monthKey (today env))) a t) as [text | e];
    cbn [bind]; [| discriminate].
  destruct (buildCSVFromAssociates a) as [csv | e]; cbn [bind]; [| discriminate].
  destruct webhook as [url |]; cbn [item_value ToBoolean ToString];
    [| discriminate].
  destruct url as [| c url]; [discriminate |].
  match goal with
  | |- context [fetch env ?u ?b] => destruct (fetch env u b) as [ok | e] eqn:Hfetch
  end; cbn [bind]; [| discriminate].
  destruct ok; [| discriminate].
  intros _. exists hour. eexists. eexists.
  repeat split; [exact Hwin | discriminate | exact Hfetch].
Qed.

End EmailTaskProperties.

Lemma emailTask_NewData_only_after_post_witness :
  exists hour url body,
    getItem (taskEnv_at "18" 18 10) SEND_HOUR_KEY = Ok hour /\
    withinWindow
      (ToNumber (H := exampleHost)
         (js_or (item_value hour) (VNum (num_of_Z DEFAULT_SEND_HOUR))))
      (now (taskEnv_at "18" 18 10)) = true /\
    getItem (taskEnv_at "18" 18 10) EMAIL_WEBHOOK_URL_KEY = Ok (Some url) /\
    url <> "" /\
    fetch (taskEnv_at "18" 18 10) url body = Ok true.
Proof.
  apply (emailTask_NewData_only_after_post (H := exampleHost)
           (taskEnv_at "18" 18 10)).
  vm_compute. reflexivity.
Defined.
(** ** Team totals *)

Lemma fold_left_Throw {A B : Type} (f : res A -> B -> res A)
  (l : list B) (e : exn) :
  (forall b, f (Throw e) b = Throw e) -> fold_left f l (Throw e) = Throw e.
Proof.
  intros Hf. induction l as [| b l IH]; [reflexivity |].
  cbn [fold_left]. now rewrite Hf.
Qed.

Section TotalsProperties.
Context `{Host}.

Lemma sum_metric_from_Throw (k : string) (items : list value) (e : exn) :
  fold_left
    (fun acc a =>
       let* s := acc in
       let* m := get a "metrics" in
       Ok (js_add s (ToNumber (js_or (get_opt m k) (VNum (Fin 0))))))
    items (Throw e) = Throw e.
Proof. now apply fold_left_Throw. Qed.

Lemma totals_fold (items : list value) (s1 s2 s3 s4 s5 : num) :
  fold_left
    (fun acc a =>
       let* totals := acc in
       fold_left
         (fun acc' k =>
            let* t := acc' in
            let* m := get a "metrics" in
            Ok (set_prop k
                  (VNum (js_add (ToNumber (field (VObj t) k))
                           (ToNumber (js_or (get_opt m k) (VNum (Fin 0))))))
                  t))
         (Object_keys totals) (Ok totals))
    items
    (Ok (combine KPI_KEYS (map VNum [s1; s2; s3; s4; s5])))
  = (let* sums :=
       mapM (fun ks =>
               fold_left
                 (fun acc a =>
                    let* s := acc in
                    let* m := get a "metrics" in
                    Ok (js_add s
                          (ToNumber (js_or (get_opt m (fst ks)) (VNum (Fin 0))))))
                 items (Ok (snd ks)))
            (combine KPI_KEYS [s1; s2; s3; s4; s5]) in
     Ok (combine KPI_KEYS (map VNum sums))).
Proof.
  revert s1 s2 s3 s4 s5.
  induction items as [| a items IH]; intros s1 s2 s3 s4 s5; [reflexivity |].
  cbn [fold_left].
  destruct (get a "metrics") as [m | e] eqn:Hm.
  - cbn [bind KPI_KEYS map combine Object_keys fst fold_left field lookup
         String.eqb Ascii.eqb Bool.eqb set_prop ToNumber].
    rewrite ?Hm. cbn [bind].
    cbn [field lookup String.eqb Ascii.eqb Bool.eqb set_prop ToNumber].
    etransitivity; [apply IH |].
    cbn [KPI_KEYS combine mapM fst snd fold_left bind].
    rewrite ?Hm. cbn [bind]. reflexivity.
  - cbn [bind KPI_KEYS map combine Object_keys fst fold_left].
    rewrite ?Hm. cbn [bind].
    rewrite fold_left_Throw by reflexivity.
    cbn [mapM fst snd fold_left bind]. rewrite ?Hm. cbn [bind].
    now rewrite sum_metric_from_Throw.
Qed.

(** X13: the totals of the dashboard are, key by key, the sums that the
    snapshot text prints: the two computations give the same numbers and
    fail on the same lists of associates. *)
Theorem teamTotals_are_the_snapshot_sums (items : list value) :
  teamTotals (VArr items)
  = (let* sums := mapM (fun k => sum_metric k items) KPI_KEYS in
     Ok (VObj (combine KPI_KEYS (map VNum sums)))).
Proof.
  unfold teamTotals. cbn [as_array bind own_props zero_metrics].
  change [("connects", VNum (Fin 0)); ("geoData", VNum (Fin 0));
          ("buyerAppointments", VNum (Fin 0)); ("marketAppraisals", VNum (Fin 0));
          ("listingsGenerated", VNum (Fin 0))]
    with (combine KPI_KEYS (map VNum [Fin 0; Fin 0; Fin 0; Fin 0; Fin 0])).
  rewrite totals_fold. unfold sum_metric.
  cbn [KPI_KEYS combine mapM fst snd].
  repeat match goal with
         | |- context [bind ?m _] =>
             lazymatch m with
             | fold_left _ _ _ => destruct m; cbn [bind]; try reflexivity
             end
         end.
Qed.

End TotalsProperties.
Lemma js_add_nonneg (a b : num) :
  js_le (Fin 0) a = true -> js_le (Fin 0) b = true ->
  js_le (Fin 0) (js_add a b) = true.
Proof.
  destruct a as [| | | x]; destruct b as [| | | y]; cbn;
    try discriminate; try reflexivity.
  intros Hx Hy. apply Qle_bool_iff in Hx, Hy. apply Qle_bool_iff. lra.
Qed.

Section TotalsSign.
Context `{Host}.

Lemma metric_addend_nonneg (m : object) (k : string) :
  metrics_ok m = true -> In k KPI_KEYS ->
  js_le (Fin 0) (ToNumber (js_or (get_opt (VObj m) k) (VNum (Fin 0)))) = true.
Proof.
  intros Hm Hk. unfold metrics_ok in Hm. rewrite forallb_forall in Hm.
  specialize (Hm k Hk). unfold get_opt, get.
  destruct (lookup k m) as [v |]; [| discriminate].
  destruct v as [| | | n | | |]; try discriminate. cbn [nonnegative_number] in Hm.
  unfold js_or. destruct (ToBoolean (VNum n)); [exact Hm | reflexivity].
Qed.

Lemma sum_metric_nonneg (k : string) (items : list value) (s : num) :
  forallb associate_ok items = true -> In k KPI_KEYS ->
  js_le (Fin 0) s = true ->
  exists r,
    fold_left
      (fun acc a =>
         let* s := acc in
         let* m := get a "metrics" in
         Ok (js_add s (ToNumber (js_or (get_opt m k) (VNum (Fin 0))))))
      items (Ok s) = Ok r /\
    js_le (Fin 0) r = true.
Proof.
  intros Hitems Hk. revert s.
  induction items as [| a items IH]; intros s Hs.
  - exists s. now split.
  - cbn [forallb] in Hitems. apply andb_prop in Hitems as [Ha Hrest].
    destruct a as [| | | | | | props]; try discriminate.
    cbn [associate_ok] in Ha.
    destruct (lookup "metrics" props) as [[| | | | | | m] |] eqn:Hm;
      try discriminate.
    cbn [fold_left bind]. rewrite get_object. unfold field. rewrite Hm.
    cbn [bind]. apply (IH Hrest).
    apply js_add_nonneg; [exact Hs | now apply metric_addend_nonneg].
Qed.

Lemma teamTotals_sums_nonneg (items : list value) :
  forallb associate_ok items = true ->
  exists r1 r2 r3 r4 r5,
    teamTotals (VArr items)
    = Ok (VObj (combine KPI_KEYS (map VNum [r1; r2; r3; r4; r5]))) /\
    Forall (fun r => js_le (Fin 0) r = true) [r1; r2; r3; r4; r5].
Proof.
  intros Hitems. unfold teamTotals. cbn [as_array bind own_props zero_metrics].
  change [("connects", VNum (Fin 0)); ("geoData", VNum (Fin 0));
          ("buyerAppointments", VNum (Fin 0)); ("marketAppraisals", VNum (Fin 0));
          ("listingsGenerated", VNum (Fin 0))]
    with (combine KPI_KEYS (map VNum [Fin 0; Fin 0; Fin 0; Fin 0; Fin 0])).
  rewrite totals_fold. cbn [KPI_KEYS combine mapM fst snd].
  destruct (sum_metric_nonneg "connects" items (Fin 0) Hitems) as (r1 & -> & H1);
    [cbn; tauto | reflexivity |].
  destruct (sum_metric_nonneg "geoData" items (Fin 0) Hitems) as (r2 & -> & H2);
    [cbn; tauto | reflexivity |].
  destruct (sum_metric_nonneg "buyerAppointments" items (Fin 0) Hitems)
    as (r3 & -> & H3); [cbn; tauto | reflexivity |].
  destruct (sum_metric_nonneg "marketAppraisals" items (Fin 0) Hitems)
    as (r4 & -> & H4); [cbn; tauto | reflexivity |].
  destruct (sum_metric_nonneg "listingsGenerated" items (Fin 0) Hitems)
    as (r5 & -> & H5); [cbn; tauto | reflexivity |].
  cbn [bind]. exists r1, r2, r3, r4, r5. split; [reflexivity |].
  repeat constructor; assumption.
Qed.

(** X14: when every metric of every associate is a non-negative number,
    the team totals are computed without failure and each of the five
    totals is a non-negative number. *)
Theorem teamTotals_nonnegative (st : AppState) :
  metrics_nonnegative st = true ->
  exists t, teamTotals (associates st) = Ok (VObj t) /\ metrics_ok t = true.
Proof.
  unfold metrics_nonnegative.
  destruct (associates st) as [| | | | | items |]; try discriminate.
  intros Hitems.
  destruct (teamTotals_sums_nonneg items Hitems)
    as (r1 & r2 & r3 & r4 & r5 & -> & Hsign).
  eexists. split; [reflexivity |].
  inversion Hsign as [| ? ? H1 Hs1]; subst.
  inversion Hs1 as [| ? ? H2 Hs2]; subst.
  inversion Hs2 as [| ? ? H3 Hs3]; subst.
  inversion Hs3 as [| ? ? H4 Hs4]; subst.
  inversion Hs4 as [| ? ? H5 _]; subst.
  unfold metrics_ok.
  cbn [KPI_KEYS forallb map combine lookup String.eqb Ascii.eqb Bool.eqb
       nonnegative_number].
  now rewrite H1, H2, H3, H4, H5.
Qed.

End TotalsSign.

Lemma teamTotals_nonnegative_witness :
  exists t,
    teamTotals (H := exampleHost) (associates seededState) = Ok (VObj t) /\
    metrics_ok t = true.
Proof.
  apply (teamTotals_nonnegative (H := exampleHost) seededState).
  vm_compute. reflexivity.
Defined.
Section TeamTargetsNumbers.
Context `{Host}.

Lemma scaled_target_not_NaN (tg : object) (count : Z) (k : string) :
  1 <= count ->
  exists n, scaled_target tg (num_of_Z count) k = VNum n /\ n <> NaN.
Proof.
  intros Hc. unfold scaled_target. eexists. split; [reflexivity |].
  assert (Hc0 : Qeq_bool (inject_Z count) 0 = false).
  { rewrite inject_Z_zero_test. apply Z.eqb_neq. lia. }
  unfold js_or, num_of_Z.
  destruct (ToNumber (field (VObj tg) k)) as [| | | q]; cbn [ToBoolean ToNumber js_mul].
  - discriminate.
  - rewrite Hc0. destruct (Qsign_pos (inject_Z count)); discriminate.
  - rewrite Hc0. destruct (Qsign_pos (inject_Z count)); discriminate.
  - destruct (negb (Qeq_bool q 0)); cbn [ToNumber js_mul]; discriminate.
Qed.

(** X15: for a targets object and a list of associates, every team target
    is a number other than [NaN], whatever the targets hold: a target that
    does not convert to a number counts as 0. *)
Theorem teamTargets_never_NaN (tg : object) (assocs : list value) :
  exists agg,
    teamTargets (VObj tg) (VArr assocs) = Ok (VObj agg) /\
    (forall k v, lookup k agg = Some v -> exists n, v = VNum n /\ n <> NaN) /\
    (forall k, ToNumber (field (VObj tg) k) = NaN -> In k (Object_keys tg) ->
               lookup k agg = Some (VNum (Fin 0))).
Proof.
  eexists. split; [apply teamTargets_value |]. split.
  - intros k v. rewrite lookup_fold_set.
    destruct (in_dec string_dec k (Object_keys tg)); [| discriminate].
    intros [= <-]. apply scaled_target_not_NaN. lia.
  - intros k Hnan Hin. rewrite lookup_fold_set.
    destruct (in_dec string_dec k (Object_keys tg)); [| contradiction].
    unfold scaled_target. rewrite Hnan. unfold js_or, num_of_Z.
    cbn [ToBoolean ToNumber js_mul]. reflexivity.
Qed.

End TeamTargetsNumbers.
(** ** The bar chart *)

Lemma Math_max_finite (a b : Q) :
  Math_max (Fin a) (Fin b) = Fin (if Qle_bool a b then b else a).
Proof.
  unfold Math_max, js_le. now destruct (Qle_bool a b).
Qed.

Lemma Qle_bool_false_lt (a b : Q) : Qle_bool a b = false -> (b < a)%Q.
Proof.
  intros Hle. destruct (Qlt_le_dec b a) as [Hlt | Hge]; [exact Hlt |].
  apply Qle_bool_iff in Hge. congruence.
Qed.

Lemma fold_Math_max_finite (qs : list Q) (m : Q) :
  exists M,
    fold_left Math_max (map Fin qs) (Fin m) = Fin M /\
    (m <= M)%Q /\ Forall (fun q => (q <= M)%Q) qs.
Proof.
  revert m. induction qs as [| q qs IH]; intros m.
  - exists m. repeat split; [apply Qle_refl | constructor].
  - cbn [map fold_left]. rewrite Math_max_finite.
    destruct (IH (if Qle_bool m q then q else m)) as (M & -> & Hm & Hqs).
    exists M. split; [reflexivity |].
    destruct (Qle_bool m q) eqn:Hle.
    + apply Qle_bool_iff in Hle. split; [lra |]. constructor; assumption.
    + apply Qle_bool_false_lt in Hle. split; [exact Hm |].
      constructor; [lra | assumption].
Qed.

Section ChartProperties.
Context `{Host}.

Lemma chart_entry_numbers (d : value) :
  chart_entry_ok d = true ->
  exists o,
    d = VObj o /\
    field d "actual" = VNum (Fin (entry_number d "actual")) /\
    field d "target" = VNum (Fin (entry_number d "target")) /\
    (0 <= entry_number d "actual")%Q /\ (0 <= entry_number d "target")%Q.
Proof.
  unfold chart_entry_ok, entry_number. intros Hok.
  apply andb_prop in Hok as [Ha Ht].
  destruct d as [| | | | | | o]; try discriminate.
  exists o. split; [reflexivity |].
  destruct (field (VObj o) "actual") as [| | | [| | | a] | | |]; try discriminate.
  destruct (field (VObj o) "target") as [| | | [| | | t] | | |]; try discriminate.
  cbn [finite_nonnegative] in Ha, Ht. apply Qle_bool_iff in Ha, Ht.
  repeat split; assumption.
Qed.

Lemma chart_tops (data : list value) :
  forallb chart_entry_ok data = true ->
  mapM (fun d =>
          let* actual := get d "actual" in
          let* target := get d "target" in
          Ok (Math_max (ToNumber actual) (ToNumber target)))
       data
  = Ok (map Fin
          (map (fun d =>
                  if Qle_bool (entry_number d "actual") (entry_number d "target")
                  then entry_number d "target" else entry_number d "actual")
             data)).
Proof.
  induction data as [| d data IH]; intros Hall; [reflexivity |].
  cbn [forallb] in Hall. apply andb_prop in Hall as [Hd Hrest].
  destruct (chart_entry_numbers d Hd) as (o & -> & Ha & Ht & _).
  rewrite mapM_cons, !get_object, Ha, Ht. cbn [bind ToNumber].
  rewrite Math_max_finite, (IH Hrest). reflexivity.
Qed.

Lemma maxVal_bounds (data : list value) :
  forallb chart_entry_ok data = true ->
  exists M,
    maxVal data = Ok (Fin M) /\ (1 <= M)%Q /\
    forall d, In d data ->
      (entry_number d "actual" <= M)%Q /\ (entry_number d "target" <= M)%Q.
Proof.
  intros Hall. unfold maxVal. rewrite (chart_tops data Hall). cbn [bind].
  match goal with
  | |- context [fold_left Math_max (map Fin ?qs) (Fin 1)] =>
      destruct (fold_Math_max_finite qs 1) as (M & -> & H1 & Hqs)
  end.
  exists M. split; [reflexivity |]. split; [exact H1 |].
  intros d Hin. rewrite Forall_forall in Hqs.
  specialize (Hqs _ (in_map _ _ _ Hin)). cbv beta in Hqs.
  destruct (Qle_bool (entry_number d "actual") (entry_number d "target")) eqn:Hle.
  - apply Qle_bool_iff in Hle. split; lra.
  - apply Qle_bool_false_lt in Hle. split; lra.
Qed.

Lemma scaled_bar (x : num) (M v : Q) :
  (1 <= M)%Q -> (0 <= v)%Q -> (v <= M)%Q ->
  bar_in_plot
    (mkRect x (js_sub (js_sub chart_height chart_padding)
                       (scale (Fin M) (Fin v)))
       barWidth (scale (Fin M) (Fin v))).
Proof.
  intros HM Hv HvM. unfold bar_in_plot, scale, chart_height, chart_padding, js_sub.
  assert (Hnz : Qeq_bool M 0 = false).
  { destruct (Qeq_bool M 0) eqn:E; [| reflexivity].
    apply Qeq_bool_iff in E. lra. }
  cbn [js_div js_mul js_add num_neg rect_y rect_height]. rewrite Hnz.
  cbn [js_mul]. eexists. eexists. split; [reflexivity |]. split; [reflexivity |].
  assert (Hinv : (0 < / M)%Q) by (apply Qinv_lt_0_compat; lra).
  assert (Hratio0 : (0 <= v / M)%Q).
  { unfold Qdiv. apply Qmult_le_0_compat; lra. }
  assert (Hratio1 : (v / M <= 1)%Q).
  { apply Qle_shift_div_r; lra. }
  repeat split; lra.
Qed.

Lemma bar_groups_in_plot (M : Q) (data : list value) (start : nat) :
  (1 <= M)%Q ->
  forallb chart_entry_ok data = true ->
  (forall d, In d data ->
     (entry_number d "actual" <= M)%Q /\ (entry_number d "target" <= M)%Q) ->
  exists groups,
    mapM (fun entry => bar_group (Fin M) (fst entry) (snd entry))
      (combine (seq start (List.length data)) data) = Ok groups /\
    Forall (fun g => bar_in_plot (target_bar g) /\ bar_in_plot (actual_bar g))
      groups.
Proof.
  intros HM. revert start.
  induction data as [| d data IH]; intros start Hall Hbound.
  - exists []. split; [reflexivity | constructor].
  - cbn [forallb] in Hall. apply andb_prop in Hall as [Hd Hrest].
    destruct (IH (S start) Hrest) as (groups & Hgroups & Hin).
    { intros d' Hd'. apply Hbound. now right. }
    destruct (chart_entry_numbers d Hd) as (o & -> & Ha & Ht & Ha0 & Ht0).
    destruct (Hbound (VObj o) (or_introl eq_refl)) as [HaM HtM].
    cbn [List.length seq combine]. rewrite mapM_cons. cbn [fst snd].
    unfold bar_group at 1. rewrite !get_object, Ha, Ht. cbn [bind ToNumber].
    rewrite Hgroups. eexists. split; [reflexivity |].
    constructor; [| exact Hin]. cbn [target_bar actual_bar].
    split; now apply scaled_bar.
Qed.

(** X16: when the actual and the target of every entry are finite numbers
    that are not negative, the chart is drawn, and each of its bars stands
    on the horizontal axis with a height between 0 and the height of the
    plot, so that no bar reaches above the plot. *)
Theorem BarChart_bars_stay_in_the_plot (data : list value) :
  forallb chart_entry_ok data = true ->
  exists groups,
    BarChart (VArr data) = Ok groups /\
    Forall (fun g => bar_in_plot (target_bar g) /\ bar_in_plot (actual_bar g))
      groups.
Proof.
  intros Hall. unfold BarChart. cbn [as_array bind].
  destruct (maxVal_bounds data Hall) as (M & -> & HM & Hbound). cbn [bind].
  now apply bar_groups_in_plot.
Qed.

Lemma get_of_non_nullish (d : value) (k : string) :
  nullish d = false -> exists x, get d k = Ok x.
Proof.
  destruct d as [| | b | n | s | items | o]; try discriminate; intros _; cbn [get].
  - eexists; reflexivity.
  - eexists; reflexivity.
  - destruct (String.eqb k "length"); eexists; reflexivity.
  - destruct (String.eqb k "length"); eexists; reflexivity.
  - destruct (lookup k o); eexists; reflexivity.
Qed.

Lemma group_edges (top : num) (i : nat) (d : value) (g : BarGroup) :
  bar_group top i d = Ok g ->
  js_le (right_edge (actual_bar g)) chart_width = (i <=? 3)%nat /\
  js_lt chart_width (rect_x (target_bar g)) = (4 <=? i)%nat.
Proof.
  unfold bar_group.
  destruct (get d "target") as [t | e]; cbn [bind]; [| discriminate].
  destruct (get d "actual") as [a | e]; cbn [bind]; [| discriminate].
  destruct (get d "label") as [l | e]; cbn [bind]; [| discriminate].
  intros [= <-].
  unfold right_edge, chart_width, chart_padding, barWidth, chart_gap, num_of_Z.
  cbn [actual_bar target_bar rect_x rect_width js_add js_mul js_le js_lt].
  split.
  - apply Bool.eq_iff_eq_true. rewrite Qle_bool_iff, Nat.leb_le.
    assert (Hx : (28 + 20 + inject_Z (Z.of_nat i) * (24 * 2 + 32) + 24 + 4 + 24
                  == inject_Z (100 + 80 * Z.of_nat i))%Q).
    { rewrite inject_Z_plus, inject_Z_mult.
      change (inject_Z 100) with 100%Q. change (inject_Z 80) with 80%Q. ring. }
    rewrite Hx. change 360%Q with (inject_Z 360). rewrite <- Zle_Qle. lia.
  - apply Bool.eq_iff_eq_true. rewrite negb_true_iff, Nat.leb_le.
    assert (Hx : (28 + 20 + inject_Z (Z.of_nat i) * (24 * 2 + 32)
                  == inject_Z (48 + 80 * Z.of_nat i))%Q).
    { rewrite inject_Z_plus, inject_Z_mult.
      change (inject_Z 48) with 48%Q. change (inject_Z 80) with 80%Q. ring. }
    split.
    + intros Hle. apply Qle_bool_false_lt in Hle. rewrite Hx in Hle.
      change 360%Q with (inject_Z 360) in Hle. rewrite <- Zlt_Qlt in Hle. lia.
    + intros Hi. destruct (Qle_bool _ 360) eqn:Hle; [| reflexivity].
      apply Qle_bool_iff in Hle. rewrite Hx in Hle.
      change 360%Q with (inject_Z 360) in Hle. rewrite <- Zle_Qle in Hle. lia.
Qed.

Lemma bar_groups_edges (top : num) (data : list value) (start : nat) :
  existsb nullish data = false ->
  exists groups,
    mapM (fun entry => bar_group top (fst entry) (snd entry))
      (combine (seq start (List.length data)) data) = Ok groups /\
    List.length groups = List.length data /\
    forall i g, nth_error groups i = Some g ->
      js_le (right_edge (actual_bar g)) chart_width = (start + i <=? 3)%nat /\
      js_lt chart_width (rect_x (target_bar g)) = (4 <=? start + i)%nat.
Proof.
  revert start. induction data as [| d data IH]; intros start Hnn.
  - exists []. split; [reflexivity |]. split; [reflexivity |].
    intros [| i] g; discriminate.
  - cbn [existsb] in Hnn. apply orb_false_iff in Hnn as [Hd Hrest].
    destruct (IH (S start) Hrest) as (groups & Hgroups & Hlen & Hedges).
    assert (Hg : exists g, bar_group top start d = Ok g).
    { unfold bar_group.
      destruct (get_of_non_nullish d "target" Hd) as (t & ->).
      destruct (get_of_non_nullish d "actual" Hd) as (a & ->).
      destruct (get_of_non_nullish d "label" Hd) as (l & ->).
      eexists. reflexivity. }
    destruct Hg as (g0 & Hg0).
    exists (g0 :: groups). cbn [List.length seq combine]. rewrite mapM_cons.
    cbn [fst snd]. rewrite Hg0. cbn [bind]. rewrite Hgroups.
    split; [reflexivity |]. split; [cbn [List.length]; now rewrite Hlen |].
    intros [| i] g Hnth; cbn [nth_error] in Hnth.
    + injection Hnth as <-. rewrite Nat.add_0_r. now apply (group_edges top start d).
    + replace (start + S i)%nat with (S start + i)%nat by lia. now apply Hedges.
Qed.

Lemma maxVal_of_non_nullish (data : list value) :
  existsb nullish data = false -> exists top, maxVal data = Ok top.
Proof.
  intros Hnn. unfold maxVal.
  destruct (mapM_all_ok
              (fun d =>
                 let* actual := get d "actual" in
                 let* target := get d "target" in
                 Ok (Math_max (ToNumber actual) (ToNumber target))) data)
    as (tops & ->).
  - intros d Hin.
    assert (Hd : nullish d = false).
    { destruct (nullish d) eqn:E; [| reflexivity].
      assert (existsb nullish data = true)
        by (apply existsb_exists; exists d; now split).
      congruence. }
    destruct (get_of_non_nullish d "actual" Hd) as (a & ->).
    destruct (get_of_non_nullish d "target" Hd) as (t & ->).
    eexists. reflexivity.
  - eexists. reflexivity.
Qed.

(** X17: the chart of the dashboard has five groups of bars, one for each
    KPI; the group of index [i] ends within the width of the drawing exactly
    when [i] is at most 3, and begins past that width exactly when [i] is at
    least 4: the fifth group lies outside the drawing. *)
Theorem dashboard_chart_fifth_group_past_the_width (totals teamTargets : object) :
  exists data groups,
    chartData (VObj totals) (VObj teamTargets) = Ok data /\
    BarChart (VArr data) = Ok groups /\
    List.length groups = 5%nat /\
    forall i g, nth_error groups i = Some g ->
      js_le (right_edge (actual_bar g)) chart_width = (i <=? 3)%nat /\
      js_lt chart_width (rect_x (target_bar g)) = (4 <=? i)%nat.
Proof.
  assert (Hdata : exists data,
             chartData (VObj totals) (VObj teamTargets) = Ok data /\
             List.length data = 5%nat /\ existsb nullish data = false).
  { unfold chartData. cbn [KPI_LABELS Object_keys map fst mapM get_item].
    rewrite !get_object. cbn [bind]. eexists. repeat split. }
  destruct Hdata as (data & Hdata & Hlen & Hnn).
  destruct (maxVal_of_non_nullish data Hnn) as (top & Htop).
  destruct (bar_groups_edges top data 0 Hnn) as (groups & Hgroups & Hlen' & Hedges).
  exists data, groups. split; [exact Hdata |]. split.
  - unfold BarChart. cbn [as_array bind]. rewrite Htop. cbn [bind]. exact Hgroups.
  - split; [congruence |]. exact Hedges.
Qed.

End ChartProperties.

Lemma BarChart_bars_stay_in_the_plot_witness :
  exists groups,
    BarChart (H := exampleHost)
      (VArr [VObj [("label", VStr "Connects"); ("actual", VNum (Fin 510));
                   ("target", VNum (Fin 2400))]]) = Ok groups /\
    Forall (fun g => bar_in_plot (target_bar g) /\ bar_in_plot (actual_bar g))
      groups.
Proof.
  apply (BarChart_bars_stay_in_the_plot (H := exampleHost)
           [VObj [("label", VStr "Connects"); ("actual", VNum (Fin 510));
                  ("target", VNum (Fin 2400))]]).
  vm_compute. reflexivity.
Defined.
(** ** The percentage of a card *)

Section CardProperties.
Context `{Host}.

Lemma pct_of_nonnegative (r : num) (T : Q) :
  js_le (Fin 0) r = true -> (0 <= T)%Q ->
  exists p, pct (VNum r) (VNum (Fin T)) = VNum (Fin p) /\ (0 <= p)%Q /\ (p <= 100)%Q.
Proof.
  intros Hr HT. destruct (Qeq_bool T 0) eqn:Hz.
  - exists 0%Q. split; [| split; lra].
    apply pct_falsy_target. cbn [ToBoolean]. now rewrite Hz.
  - assert (Hnz : ~ (T == 0)%Q) by now apply Qeq_bool_false_neq.
    assert (HTpos : (0 < T)%Q).
    { apply Qle_lteq in HT. destruct HT as [Hlt | Heq]; [exact Hlt |].
      exfalso. apply Hnz. now symmetry. }
    destruct r as [| | | a]; try discriminate.
    + exists 100%Q. split; [| split; lra].
      unfold pct. cbn [ToBoolean strict_eq_num num_eqb negb orb ToNumber js_div].
      rewrite Hz. cbn [negb orb].
      assert (Hpos : Qsign_pos T = true) by now apply Qle_bool_iff.
      rewrite Hpos. reflexivity.
    + rewrite (pct_finite _ _ Hnz). eexists. split; [reflexivity |].
      cbn [js_le] in Hr. apply Qle_bool_iff in Hr.
      assert (Hround : 0 <= round_half_up (a / T * 100)%Q).
      { apply round_half_up_nonneg.
        assert (Hinv : (0 < / T)%Q) by (apply Qinv_lt_0_compat; lra).
        assert (Hdiv : (0 <= a / T)%Q)
          by (unfold Qdiv; apply Qmult_le_0_compat; lra).
        lra. }
      set (x := round_half_up (a / T * 100)%Q) in *.
      change 0%Q with (inject_Z 0). change 100%Q with (inject_Z 100).
      rewrite <- !Zle_Qle. lia.
Qed.


End CardProperties.

(** ** The outcome of the tests *)

Section RunTestsProperties.
Context `{Host}.

Lemma pure_tests_pass :
  RunTests.t "pct handles zero denominator" RunTests.pct_handles_zero_denominator
  = VObj [("name", VStr "pct handles zero denominator"); ("pass", VBool true);
          ("details", VStr "OK")] /\
  RunTests.t "pct clamps to 100" RunTests.pct_clamps_to_100
  = VObj [("name", VStr "pct clamps to 100"); ("pass", VBool true);
          ("details", VStr "OK")] /\
  RunTests.t "pct normal case" RunTests.pct_normal_case
  = VObj [("name", VStr "pct normal case"); ("pass", VBool true);
          ("details", VStr "OK")] /\
  RunTests.t "monthKey formats YYYY-MM" RunTests.monthKey_formats
  = VObj [("name", VStr "monthKey formats YYYY-MM"); ("pass", VBool true);
          ("details", VStr "OK")] /\
  RunTests.t "toCSV empty" RunTests.toCSV_empty
  = VObj [("name", VStr "toCSV empty"); ("pass", VBool true);
          ("details", VStr "OK")] /\
  RunTests.t "toCSV escaping" RunTests.toCSV_escaping
  = VObj [("name", VStr "toCSV escaping"); ("pass", VBool true);
          ("details", VStr "OK")] /\
  RunTests.t "snapshot text includes all KPIs"
    RunTests.snapshot_text_includes_all_KPIs
  = VObj [("name", VStr "snapshot text includes all KPIs"); ("pass", VBool true);
          ("details", VStr "OK")].
Proof.
  repeat split; vm_compute; reflexivity.
Qed.

(** X19: in every environment, the seven tests that do not draw an
    identifier pass; the identifier test passes exactly when the two
    identifiers drawn differ and the first starts with [id-], so that it
    fails whenever a UUID generator answers with a text that does not start
    with [id-]. *)
Theorem runTests_outcome (w : World) :
  map (fun r => field r "pass") (fst (RunTests.runTests w))
  = [VBool true; VBool true; VBool true; VBool true; VBool true; VBool true;
     VBool (negb (String.eqb (fst (genId w)) (fst (genId (snd (genId w)))))
            && startsWith (fst (genId w)) "id-");
     VBool true] /\
  (forall gen u,
     randomUUID w = Some gen -> gen (uuid_calls w) = Some u ->
     startsWith u "id-" = false ->
     nth 6 (map (fun r => field r "pass") (fst (RunTests.runTests w))) VUndef
     = VBool false).
Proof.
  assert (Hpass :
    map (fun r => field r "pass") (fst (RunTests.runTests w))
    = [VBool true; VBool true; VBool true; VBool true; VBool true; VBool true;
       VBool (negb (String.eqb (fst (genId w)) (fst (genId (snd (genId w)))))
              && startsWith (fst (genId w)) "id-");
       VBool true]).
  { unfold RunTests.runTests, RunTests.genId_unique_ish.
    destruct (genId w) as [a w1]. cbn [fst snd].
    destruct (genId w1) as [b w2]. cbn [fst snd map].
    destruct pure_tests_pass as (-> & -> & -> & -> & -> & -> & ->).
    cbn [RunTests.t field lookup String.eqb Ascii.eqb Bool.eqb strict_eq_true].
    destruct (negb (String.eqb a b) && startsWith a "id-"); reflexivity. }
  split; [exact Hpass |].
  intros gen u Hgen Hu Hstart. rewrite Hpass. cbn [nth].
  rewrite (genId_with_generator w gen u Hgen Hu), Hstart.
  now rewrite andb_false_r.
Qed.

End RunTestsProperties.
(** ** Persisting and loading *)

Lemma in_keys_set_prop (x k : string) (v : value) (o : object) :
  In x (map fst (set_prop k v o)) <-> x = k \/ In x (map fst o).
Proof.
  change (map fst (set_prop k v o)) with (Object_keys (set_prop k v o)).
  change (map fst o) with (Object_keys o).
  rewrite !lookup_in_keys, lookup_set_prop.
  destruct (String.eqb_spec x k) as [-> | Hne].
  - split; [now left | discriminate].
  - split; [now right | intros [Heq | Hin]; [contradiction | exact Hin]].
Qed.

Lemma existsb_eqb_In (x : string) (l : list string) :
  existsb (String.eqb x) l = true <-> In x l.
Proof.
  rewrite existsb_exists. split.
  - intros (y & Hin & Heq). apply String.eqb_eq in Heq. now subst.
  - intros Hin. exists x. split; [exact Hin | apply String.eqb_refl].
Qed.

Lemma distinct_keys_set_prop (k : string) (v : value) (o : object) :
  distinct_keys (map fst o) = true ->
  distinct_keys (map fst (set_prop k v o)) = true.
Proof.
  induction o as [| [k0 v0] o IH]; intros Hd; [reflexivity |].
  cbn [map fst distinct_keys] in Hd. apply andb_prop in Hd as [Hk0 Hrest].
  cbn [set_prop]. destruct (String.eqb_spec k k0) as [-> | Hne].
  - cbn [map fst distinct_keys]. now rewrite Hk0, Hrest.
  - cbn [map fst distinct_keys]. rewrite (IH Hrest), andb_true_r.
    apply negb_true_iff. apply negb_true_iff in Hk0.
    destruct (existsb (String.eqb k0) (map fst (set_prop k v o))) eqn:E;
      [| reflexivity].
    apply existsb_eqb_In, in_keys_set_prop in E. destruct E as [-> | Hin].
    + contradiction.
    + apply existsb_eqb_In in Hin. congruence.
Qed.

Lemma forallb_set_prop (P : string * value -> bool) (k : string) (v : value)
  (o : object) :
  forallb P o = true -> P (k, v) = true -> forallb P (set_prop k v o) = true.
Proof.
  intros Ho Hv. induction o as [| [k0 v0] o IH]; cbn [set_prop forallb].
  - now rewrite Hv.
  - cbn [forallb] in Ho. apply andb_prop in Ho as [H0 Hrest].
    destruct (String.eqb k k0); cbn [forallb].
    + now rewrite Hv, Hrest.
    + now rewrite H0, (IH Hrest).
Qed.

Section PersistProperties.
Context `{Host}.

Lemma persist_next_exact (store : value) (st : AppState) :
  json_exact (VObj (own_props store)) = true ->
  json_exact (targets st) = true -> json_exact (associates st) = true ->
  json_exact (persist_next store st) = true.
Proof.
  intros Hs Ht Ha. unfold persist_next. cbn [json_exact] in Hs |- *.
  apply andb_prop in Hs as [Hd Hall]. apply andb_true_intro. split.
  - now apply distinct_keys_set_prop.
  - apply forallb_set_prop; [exact Hall |].
    cbn [snd json_exact map fst distinct_keys existsb String.eqb Ascii.eqb
         Bool.eqb orb negb andb forallb].
    now rewrite Ht, Ha.
Qed.

Lemma persist_text_is_text_of (store : value) (st : AppState) :
  json_exact (persist_next store st) = true ->
  persist_text store st = text_of (persist_next store st).
Proof.
  intros Hexact. unfold persist_text. now rewrite (stringify_exact _ Hexact).
Qed.

(** X20: when the store, the targets and the associates hold only values
    that JSON text represents exactly, the text that the persist effect
    writes parses back to a store in which the shown month holds the shown
    targets and associates, whatever that month held before, and every
    other month holds what it held. *)
Theorem persisted_text_parses_back (store : value) (st : AppState) :
  json_exact (VObj (own_props store)) = true ->
  json_exact (targets st) = true -> json_exact (associates st) = true ->
  exists next,
    JSON_parse (persist_text store st) = Ok (VObj next) /\
    lookup (ToString (month st)) next
    = Some (VObj [("targets", targets st); ("associates", associates st)]) /\
    forall m, m <> ToString (month st) -> lookup m next = lookup m (own_props store).
Proof.
  intros Hs Ht Ha.
  pose proof (persist_next_exact store st Hs Ht Ha) as Hexact.
  rewrite (persist_text_is_text_of store st Hexact).
  destruct (JSON_parse_stringify _ Hexact) as [_ Hparse].
  unfold persist_next in *. eexists. split; [exact Hparse |]. split.
  - rewrite lookup_set_prop. now rewrite String.eqb_refl.
  - intros m Hm. rewrite lookup_set_prop. apply String.eqb_neq in Hm.
    now rewrite Hm.
Qed.

(** X21: when the shown month is the month of the day and the store, the
    targets and the associates hold only values that JSON text represents
    exactly, the load effect run on the text that the persist effect wrote
    sets the targets and the associates that were shown, seeds nothing and
    draws no identifier. *)
Theorem load_after_persist_restores_the_month
  (store : value) (st : AppState) (today : Date) (w : World) :
  month st = VStr (monthKey today) ->
  json_exact (VObj (own_props store)) = true ->
  json_exact (targets st) = true -> json_exact (associates st) = true ->
  loadMonth (Some (persist_text store st)) today w
  = (Ok (targets st, associates st), w).
Proof.
  intros Hmonth Hs Ht Ha.
  pose proof (persist_next_exact store st Hs Ht Ha) as Hexact.
  rewrite (persist_text_is_text_of store st Hexact).
  destruct (JSON_parse_stringify _ Hexact) as [_ Hparse].
  destruct (text_of_start _ Hexact) as (c & t & Htext & _).
  unfold loadMonth. cbn [item_value ToString].
  rewrite Hparse. rewrite Htext. cbn [ToBoolean].
  unfold persist_next. rewrite Hmonth. cbn [ToString get_item].
  rewrite get_object.
  assert (Hfound :
    field (VObj (set_prop (monthKey today)
                   (VObj [("targets", targets st); ("associates", associates st)])
                   (own_props store))) (monthKey today)
    = VObj [("targets", targets st); ("associates", associates st)]).
  { unfold field. now rewrite lookup_set_prop, String.eqb_refl. }
  rewrite Hfound. reflexivity.
Qed.

End PersistProperties.

Lemma persisted_text_parses_back_witness :
  exists next,
    JSON_parse (H := exampleHost) (persist_text (H := exampleHost) (VObj []) seededState)
    = Ok (VObj next) /\
    lookup (ToString (H := exampleHost) (month seededState)) next
    = Some (VObj [("targets", targets seededState);
                  ("associates", associates seededState)]) /\
    forall m, m <> ToString (H := exampleHost) (month seededState) ->
              lookup m next = lookup m (own_props (VObj [])).
Proof.
  apply (persisted_text_parses_back (H := exampleHost) (VObj []) seededState);
    vm_compute; reflexivity.
Defined.

Lemma load_after_persist_restores_the_month_witness :
  loadMonth (H := exampleHost)
    (Some (persist_text (H := exampleHost) (VObj []) seededState))
    (mkDate 2025 7 9 30) sampleWorld
  = (Ok (targets seededState, associates seededState), sampleWorld).
Proof.
  apply (load_after_persist_restores_the_month (H := exampleHost)
           (VObj []) seededState (mkDate 2025 7 9 30) sampleWorld);
    vm_compute; reflexivity.
Defined.
Lemma remove_quotes_without_quote (s : string) :
  has_char dquote s = false -> remove_quotes s = s.
Proof.
  unfold remove_quotes, String_replaceAll.
  induction s as [| c s IH]; intros Hs; [reflexivity |].
  cbn [has_char] in Hs. apply orb_false_iff in Hs as [Hc Hrest].
  cbn [replaceAll_from]. unfold is_prefix. cbn [strip_prefix]. rewrite Hc.
  now rewrite (IH Hrest).
Qed.

Section SettingsProperties.
Context `{Host}.


(** X23: when nothing is stored under the key of the store, or the read
    fails, the load effect sets the default targets and three associates
    named Alex, Bianca and Chris, each metric of whom is a non-negative
    number, and draws three identifiers, one after the other, for them. *)
Theorem first_run_seeds_three_associates
  (getItem : string -> res (option string)) (today : Date) (w : World) :
  getItem LS_KEY = Ok None \/ (exists e, getItem LS_KEY = Throw e) ->
  exists items,
    loadMonth (safeStoreGet getItem LS_KEY) today w
    = (Ok (VObj (own_props DEFAULT_TARGETS), VArr items),
       snd (genId (snd (genId (snd (genId w)))))) /\
    map (fun a => field a "name") items
    = [VStr "Alex"; VStr "Bianca"; VStr "Chris"] /\
    map (fun a => field a "id") items
    = [VStr (fst (genId w)); VStr (fst (genId (snd (genId w))));
       VStr (fst (genId (snd (genId (snd (genId w))))))] /\
    forallb associate_ok items = true.
Proof.
  intros Hraw.
  assert (Hnone : safeStoreGet getItem LS_KEY = None).
  { unfold safeStoreGet. destruct Hraw as [-> | (e & ->)]; reflexivity. }
  rewrite Hnone. unfold loadMonth, seeded_month.
  cbn [item_value ToBoolean get_item get lookup negb].
  destruct (genId w) as [id1 w1]. cbn [fst snd].
  destruct (genId w1) as [id2 w2]. cbn [fst snd].
  destruct (genId w2) as [id3 w3]. cbn [fst snd].
  eexists. split; [reflexivity |]. repeat split.
Qed.

End SettingsProperties.


Lemma first_run_seeds_three_associates_witness :
  exists items,
    loadMonth (H := exampleHost) (safeStoreGet (fun _ => Ok None) LS_KEY)
      (mkDate 2025 7 9 30) sampleWorld
    = (Ok (VObj (own_props DEFAULT_TARGETS), VArr items),
       snd (genId (snd (genId (snd (genId sampleWorld)))))) /\
    map (fun a => field a "name") items
    = [VStr "Alex"; VStr "Bianca"; VStr "Chris"] /\
    map (fun a => field a "id") items
    = [VStr (fst (genId sampleWorld));
       VStr (fst (genId (snd (genId sampleWorld))));
       VStr (fst (genId (snd (genId (snd (genId sampleWorld))))))] /\
    forallb associate_ok items = true.
Proof.
  apply (first_run_seeds_three_associates (H := exampleHost)
           (fun _ => Ok None) (mkDate 2025 7 9 30) sampleWorld).
  left. reflexivity.
Defined.
(** ** Sending the summary *)

Section SendProperties.
Context `{Host}.

Lemma buildCSV_without_metrics (items : list value) :
  (exists a, In a items /\ nullish (get_opt a "metrics") = true) ->
  buildCSVFromAssociates (VArr items) = Throw TypeError.
Proof.
  intros (a & Hin & Ha). unfold buildCSVFromAssociates. cbn [as_array bind].
  rewrite (mapM_one_throws _ _ TypeError); [reflexivity | |].
  - intros x e Hx. pose proof (csv_row_of_cases x) as Hc.
    destruct (nullish (get_opt x "metrics")).
    + congruence.
    + destruct Hc as (o & Ho). congruence.
  - exists a. split; [exact Hin |].
    pose proof (csv_row_of_cases a) as Hc. now rewrite Ha in Hc.
Qed.

(** X24: when some associate is [null] or [undefined] or has no metrics,
    the button that sends the summary posts nothing and opens no link; it
    raises one alert titled [Send failed] and changes nothing else, whether
    a webhook is configured or not. *)
Theorem sendDailyEmailNow_sends_nothing_without_metrics
  (st : AppState) (settings : EmailSettings) (env : SendEnv) (items : list value) :
  associates st = VArr items ->
  (exists a, In a items /\ nullish (get_opt a "metrics") = true) ->
  exists msg,
    sendDailyEmailNow st settings env = (Alert_alert st "Send failed" msg, []).
Proof.
  intros Hassoc Hbad. unfold sendDailyEmailNow.
  destruct (buildSnapshotText (month st) (associates st) (targets st))
    as [text | e].
  - rewrite Hassoc, (buildCSV_without_metrics items Hbad). eexists. reflexivity.
  - eexists. reflexivity.
Qed.

Lemma task_outcome_on_persisted_state
  (st : AppState) (store : value) (settings : EmailSettings) (env : TaskEnv) :
  month st = VStr (monthKey (today env)) ->
  json_exact (VObj (own_props store)) = true ->
  json_exact (targets st) = true -> json_exact (associates st) = true ->
  getItem env LS_KEY = Ok (Some (persist_text store st)) ->
  (forall k v, In (k, v) (persist_email settings) -> getItem env k = Ok (Some v)) ->
  emailTo settings <> "" -> emailWebhook settings <> "" ->
  withinWindow
    (ToNumber (js_or (VStr (sendHour settings)) (VNum (num_of_Z DEFAULT_SEND_HOUR))))
    (now env) = true ->
  emailTask env
  = match buildSnapshotText (month st) (associates st) (targets st) with
    | Throw _ => Failed
    | Ok text =>
        match buildCSVFromAssociates (associates st) with
        | Throw _ => Failed
        | Ok csv =>
            match
              fetch env (emailWebhook settings)
                (email_body (VStr (emailTo settings))
                   (VStr ("Daily KPI " ++ en_dash ++ " " ++ ToString (month st)))
                   (VStr text) (VStr csv) (month st))
            with
            | Ok true => NewData
            | _ => Failed
            end
        end
    end.
Proof.
  intros Hmonth Hs Ht Ha Hraw Hstored Hto Hhook Hwin.
  pose proof (persist_next_exact store st Hs Ht Ha) as Hexact.
  destruct (JSON_parse_stringify _ Hexact) as [_ Hparse].
  destruct (text_of_start _ Hexact) as (c & t & Htext & _).
  assert (Hfound :
    get_item (persist_next store st) (monthKey (today env))
    = Ok (VObj [("targets", targets st); ("associates", associates st)])).
  { unfold persist_next. cbn [get_item]. rewrite get_object. unfold field.
    rewrite Hmonth. cbn [ToString].
    now rewrite lookup_set_prop, String.eqb_refl. }
  unfold emailTask, emailTask_body.
  rewrite Hraw, (persist_text_is_text_of store st Hexact). cbn [bind item_value].
  rewrite Htext. cbn [ToBoolean ToString]. rewrite <- Htext, Hparse. cbn [bind].
  rewrite Hfound. cbn [bind].
  rewrite (Hstored EMAIL_TO_KEY (emailTo settings)) by (cbn; tauto).
  rewrite (Hstored EMAIL_WEBHOOK_URL_KEY (emailWebhook settings)) by (cbn; tauto).
  rewrite (Hstored SEND_HOUR_KEY (sendHour settings)) by (cbn; tauto).
  cbn [bind item_value]. rewrite Hwin. cbn [negb].
  unfold js_or at 1 2. cbn [ToBoolean].
  rewrite !get_object. cbn [field lookup String.eqb Ascii.eqb Bool.eqb bind].
  rewrite Hmonth. cbn [ToString].
  destruct (buildSnapshotText (VStr (monthKey (today env))) (associates st)
              (targets st)) as [text | e]; cbn [bind]; [| reflexivity].
  destruct (buildCSVFromAssociates (associates st)) as [csv | e];
    cbn [bind]; [| reflexivity].
  destruct (emailWebhook settings) as [| h hook] eqn:Ehook; [contradiction |].
  destruct (emailTo settings) as [| a to] eqn:Eto; [contradiction |].
  cbn [ToBoolean ToString js_or]. unfold email_body.
  match goal with
  | |- context [fetch env ?u ?b] => destruct (fetch env u b) as [[|] | e']
  end; reflexivity.
Qed.


End SendProperties.

Lemma sendDailyEmailNow_sends_nothing_without_metrics_witness :
  exists msg,
    sendDailyEmailNow (H := exampleHost)
      (mkApp (VStr "2025-08") DEFAULT_TARGETS (VArr [VObj [("name", VStr "Dana")]])
         "" false "" [] [])
      sampleSettings sampleSendEnv
    = (Alert_alert
         (mkApp (VStr "2025-08") DEFAULT_TARGETS
            (VArr [VObj [("name", VStr "Dana")]]) "" false "" [] [])
         "Send failed" msg,
       []).
Proof.
  apply (sendDailyEmailNow_sends_nothing_without_metrics (H := exampleHost)
           (mkApp (VStr "2025-08") DEFAULT_TARGETS
              (VArr [VObj [("name", VStr "Dana")]]) "" false "" [] [])
           sampleSettings sampleSendEnv [VObj [("name", VStr "Dana")]]).
  - reflexivity.
  - exists (VObj [("name", VStr "Dana")]). split; [now left | reflexivity].
Defined.

(** ** Failures of the task, and the numbers of the summary *)

Section TaskFailures.
Context `{Host}.

(** X26: when one of the four reads of the storage fails, or the text
    stored for the store is not JSON text, the task reports a failure,
    whatever the time is. *)
Theorem emailTask_fails_on_unreadable_storage (env : TaskEnv) :
  (exists k e,
      In k [LS_KEY; EMAIL_TO_KEY; EMAIL_WEBHOOK_URL_KEY; SEND_HOUR_KEY] /\
      getItem env k = Throw e) \/
  (exists raw e,
      getItem env LS_KEY = Ok (Some raw) /\ raw <> "" /\
      JSON_parse raw = Throw e) ->
  emailTask env = Failed.
Proof.
  intros Hbad. unfold emailTask, emailTask_body.
  destruct (getItem env LS_KEY) as [raw |] eqn:Hraw; cbn [bind]; [| reflexivity].
  destruct (if ToBoolean (item_value raw)
            then JSON_parse (ToString (item_value raw)) else Ok (VObj []))
    as [store | e0] eqn:Hstore; cbn [bind]; [| reflexivity].
  destruct (get_item store (monthKey (today env))) as [stored |]; cbn [bind];
    [| reflexivity].
  destruct (getItem env EMAIL_TO_KEY) as [to |] eqn:Hto; cbn [bind];
    [| reflexivity].
  destruct (getItem env EMAIL_WEBHOOK_URL_KEY) as [webhook |] eqn:Hweb;
    cbn [bind]; [| reflexivity].
  destruct (getItem env SEND_HOUR_KEY) as [hour |] eqn:Hhour; cbn [bind];
    [| reflexivity].
  exfalso. destruct Hbad as [(k & e & Hk & He) | (text & e & Htext & Hne & He)].
  - cbn [In] in Hk. destruct Hk as [<- | [<- | [<- | [<- | []]]]]; congruence.
  - assert (raw = Some text) by congruence. subst raw.
    cbn [item_value ToString] in Hstore.
    destruct text as [| c text]; [contradiction |].
    cbn [ToBoolean] in Hstore. congruence.
Qed.

End TaskFailures.

Lemma emailTask_fails_on_unreadable_storage_witness :
  emailTask (H := exampleHost)
    (mkTaskEnv
       (fun k => if String.eqb k LS_KEY then Ok (Some "{not JSON") else Ok None)
       (mkDate 2025 7 3 0) (mkDate 2025 7 3 0) (fun _ _ => Ok true))
  = Failed.
Proof.
  apply (emailTask_fails_on_unreadable_storage (H := exampleHost)).
  right. exists "{not JSON". eexists. split; [reflexivity |].
  split; [discriminate |]. vm_compute. reflexivity.
Defined.
Section SummaryNumbers.
Context `{Host}.

Lemma sum_metric_of_non_nullish (k : string) (items : list value) (s : num) :
  existsb nullish items = false ->
  exists r,
    fold_left
      (fun acc a =>
         let* s := acc in
         let* m := get a "metrics" in
         Ok (js_add s (ToNumber (js_or (get_opt m k) (VNum (Fin 0))))))
      items (Ok s) = Ok r.
Proof.
  revert s. induction items as [| a items IH]; intros s Hnn.
  - exists s. reflexivity.
  - cbn [existsb] in Hnn. apply orb_false_iff in Hnn as [Ha Hrest].
    cbn [fold_left bind].
    destruct (get_of_non_nullish a "metrics" Ha) as (m & ->). cbn [bind].
    now apply IH.
Qed.

Lemma snapshot_line_value (items : list value) (tg : object) (k : string) (r : num) :
  sum_metric k items = Ok r ->
  snapshot_line (VArr items) (VObj tg)
    (VNum (num_of_Z (Z.of_nat (List.length items)))) k
  = Ok (ToString (field (VObj KPI_LABELS) k) ++ ": " ++ ToString (VNum r)
        ++ " / "
        ++ ToString (scaled_target tg
                       (num_of_Z (Z.max 1 (Z.of_nat (List.length items)))) k)
        ++ " ("
        ++ ToString (pct (VNum r)
                       (scaled_target tg
                          (num_of_Z (Z.max 1 (Z.of_nat (List.length items)))) k))
        ++ "%)").
Proof.
  intros Hsum. unfold snapshot_line. cbn [as_array bind]. rewrite Hsum.
  cbn [bind get_item]. rewrite get_object. cbn [bind].
  rewrite headcount_multiplier. reflexivity.
Qed.

Lemma field_of_teamTargets (tg : object) (count : num) (k : string) :
  lookup k tg <> None ->
  field (VObj (fold_left (fun agg k' => set_prop k' (scaled_target tg count k') agg)
                 (Object_keys tg) [])) k
  = scaled_target tg count k.
Proof.
  intros Hk. unfold field. rewrite lookup_fold_set.
  destruct (in_dec string_dec k (Object_keys tg)) as [_ | Hout]; [reflexivity |].
  exfalso. apply Hout. now apply lookup_in_keys.
Qed.

(** X27: for associates none of whom is [null] or [undefined] and targets
    that hold the five KPIs, the summary text shows, for each KPI, the total
    of the dashboard, the team target of the dashboard and the percentage of
    its card. *)
Theorem snapshot_text_shows_the_dashboard_numbers
  (m : value) (items : list value) (tg : object) :
  existsb nullish items = false ->
  (forall k, In k KPI_KEYS -> lookup k tg <> None) ->
  exists totals teamTgts,
    teamTotals (VArr items) = Ok totals /\
    teamTargets (VObj tg) (VArr items) = Ok teamTgts /\
    buildSnapshotText m (VArr items) (VObj tg)
    = Ok (("Sales Targets " ++ en_dash ++ " " ++ ToString m) ++ newline
          ++ "Team Size: "
          ++ ToString (VNum (num_of_Z (Z.of_nat (List.length items))))
          ++ newline ++ newline
          ++ join newline
               (map (fun k =>
                       ToString (field (VObj KPI_LABELS) k) ++ ": "
                       ++ ToString (field totals k) ++ " / "
                       ++ ToString (field teamTgts k) ++ " ("
                       ++ ToString (pct (field totals k) (field teamTgts k))
                       ++ "%)")
                  KPI_KEYS)).
Proof.
  intros Hnn Hkeys.
  destruct (sum_metric_of_non_nullish "connects" items (Fin 0) Hnn) as (r1 & H1).
  destruct (sum_metric_of_non_nullish "geoData" items (Fin 0) Hnn) as (r2 & H2).
  destruct (sum_metric_of_non_nullish "buyerAppointments" items (Fin 0) Hnn)
    as (r3 & H3).
  destruct (sum_metric_of_non_nullish "marketAppraisals" items (Fin 0) Hnn)
    as (r4 & H4).
  destruct (sum_metric_of_non_nullish "listingsGenerated" items (Fin 0) Hnn)
    as (r5 & H5).
  exists (VObj (combine KPI_KEYS (map VNum [r1; r2; r3; r4; r5]))).
  eexists. split; [| split; [apply teamTargets_value |]].
  - unfold teamTotals. cbn [as_array bind own_props zero_metrics].
    change [("connects", VNum (Fin 0)); ("geoData", VNum (Fin 0));
            ("buyerAppointments", VNum (Fin 0)); ("marketAppraisals", VNum (Fin 0));
            ("listingsGenerated", VNum (Fin 0))]
      with (combine KPI_KEYS (map VNum [Fin 0; Fin 0; Fin 0; Fin 0; Fin 0])).
    rewrite totals_fold. cbn [KPI_KEYS combine mapM fst snd].
    rewrite H1, H2, H3, H4, H5. reflexivity.
  - unfold buildSnapshotText. cbn [get String.eqb Ascii.eqb Bool.eqb bind].
    cbn [KPI_KEYS mapM].
    rewrite (snapshot_line_value items tg "connects" r1 H1).
    rewrite (snapshot_line_value items tg "geoData" r2 H2).
    rewrite (snapshot_line_value items tg "buyerAppointments" r3 H3).
    rewrite (snapshot_line_value items tg "marketAppraisals" r4 H4).
    rewrite (snapshot_line_value items tg "listingsGenerated" r5 H5).
    cbn [bind map KPI_KEYS].
    rewrite !field_of_teamTargets by (apply Hkeys; cbn; tauto).
    reflexivity.
Qed.

End SummaryNumbers.

Lemma snapshot_text_shows_the_dashboard_numbers_witness :
  exists totals teamTgts,
    teamTotals (H := exampleHost) (VArr seedAssociates) = Ok totals /\
    teamTargets (H := exampleHost) (VObj (own_props DEFAULT_TARGETS))
      (VArr seedAssociates) = Ok teamTgts /\
    buildSnapshotText (H := exampleHost) (VStr "2025-08") (VArr seedAssociates)
      (VObj (own_props DEFAULT_TARGETS))
    = Ok (("Sales Targets " ++ en_dash ++ " "
           ++ ToString (H := exampleHost) (VStr "2025-08")) ++ newline
          ++ "Team Size: "
          ++ ToString (H := exampleHost)
               (VNum (num_of_Z (Z.of_nat (List.length seedAssociates))))
          ++ newline ++ newline
          ++ join newline
               (map (fun k =>
                       ToString (H := exampleHost) (field (VObj KPI_LABELS) k) ++ ": "
                       ++ ToString (H := exampleHost) (field totals k) ++ " / "
                       ++ ToString (H := exampleHost) (field teamTgts k) ++ " ("
                       ++ ToString (H := exampleHost)
                            (pct (H := exampleHost) (field totals k)
                               (field teamTgts k))
                       ++ "%)")
                  KPI_KEYS)).
Proof.
  apply (snapshot_text_shows_the_dashboard_numbers (H := exampleHost)
           (VStr "2025-08") seedAssociates (own_props DEFAULT_TARGETS)).
  - reflexivity.
  - intros k Hk. cbn in Hk.
    destruct Hk as [<- | [<- | [<- | [<- | [<- | []]]]]]; discriminate.
Defined.
(** ** The link of the mail program *)

Lemma upper_hex_digit_unreserved (n : nat) :
  (n < 16)%nat -> uri_unreserved (upper_hex_digit n) = true.
Proof.
  intros Hn.
  assert (Hall : forallb (fun i => uri_unreserved (upper_hex_digit i)) (seq 0 16)
                 = true) by (vm_compute; reflexivity).
  rewrite forallb_forall in Hall. apply Hall. apply in_seq. lia.
Qed.

Lemma encodeURIComponent_characters (s : string) (c : ascii) :
  uri_unreserved c = false -> Ascii.eqb c "%" = false ->
  has_char c (encodeURIComponent s) = false.
Proof.
  intros Hc Hp.
  assert (Hne : forall d, uri_unreserved d = true -> Ascii.eqb c d = false).
  { intros d Hd. destruct (Ascii.eqb_spec c d) as [-> |]; congruence. }
  induction s as [| d s IH]; [reflexivity |].
  cbn [encodeURIComponent]. destruct (uri_unreserved d) eqn:Hd; cbn [has_char].
  - now rewrite (Hne d Hd), IH.
  - rewrite Hp, IH.
    pose proof (nat_ascii_bounded d) as Hb.
    rewrite !Hne; [reflexivity | |]; apply upper_hex_digit_unreserved.
    + apply Nat.mod_upper_bound. discriminate.
    + apply Nat.Div0.div_lt_upper_bound. lia.
Qed.

Section MailLink.
Context `{Host}.


End MailLink.

